(** * Contratos públicos: irregularity and relationship analysis engine

    A shallow embedding of the analysis core of the repository
    (src/suspicious_patterns.py, src/associations.py, src/entities.py and the
    queries of src/database.py they rely on), followed by the properties
    established about it.

    Modelling conventions
    - a Python [str] is a list of Unicode code points ([pystr]); literals are
      written [str "..."], which decodes the UTF-8 bytes of a Rocq string;
    - Python numbers (int and float) are exact rationals ([Q]); the rounding
      of IEEE doubles is not modelled;
    - a dynamically typed value is a [pyval]; a dict used as a record is a
      record whose fields are [option pyval] ([None]: the key is absent);
    - a raised exception is a [Raise e] result; stateful code runs in the
      state-and-exception monad [M]. *)

From stdpp Require Import base gmap sets list.
From Stdlib Require Import ZArith QArith Lqa String Ascii Bool Lia Sorted Permutation.

Open Scope Z_scope.

(** ** Python strings *)

Definition pystr := list N.

(** Decoding of the UTF-8 bytes of a literal into code points. *)
Fixpoint str (s : string) : pystr :=
  match s with
  | EmptyString => []
  | String a r =>
      let n := N_of_ascii a in
      if (n <? 128)%N then n :: str r
      else if (n <? 224)%N then
        match r with
        | String b r' => ((n - 192) * 64 + (N_of_ascii b - 128))%N :: str r'
        | EmptyString => [n]
        end
      else if (n <? 240)%N then
        match r with
        | String b (String c r') =>
            ((n - 224) * 4096 + (N_of_ascii b - 128) * 64
             + (N_of_ascii c - 128))%N :: str r'
        | _ => [n]
        end
      else
        match r with
        | String b (String c (String d r')) =>
            ((n - 240) * 262144 + (N_of_ascii b - 128) * 4096
             + (N_of_ascii c - 128) * 64 + (N_of_ascii d - 128))%N :: str r'
        | _ => [n]
        end
  end.

(** [c.lower()] on one code point: ASCII and Latin-1 capitals are folded,
    every other code point is left as it is. *)
Definition lower_cp (c : N) : N :=
  if ((65 <=? c) && (c <=? 90))%N then (c + 32)%N
  else if ((192 <=? c) && (c <=? 222) && negb (c =? 215))%N then (c + 32)%N
  else c.

(** [s.lower()] on a string of Latin-1 ([latin1] below).  [str.lower] folds
    the other cased letters of Unicode as well, and the capital sigma by its
    place in the word. *)
Definition lower (s : pystr) : pystr := List.map lower_cp s.

Fixpoint pystr_eqb (a b : pystr) : bool :=
  match a, b with
  | [], [] => true
  | x :: a', y :: b' => (x =? y)%N && pystr_eqb a' b'
  | _, _ => false
  end.

(** [s.startswith(p)] *)
Fixpoint startswith (p s : pystr) : bool :=
  match p, s with
  | [], _ => true
  | x :: p', y :: s' => (x =? y)%N && startswith p' s'
  | _ :: _, [] => false
  end.

(** [needle in hay] for two strings *)
Fixpoint str_in (needle hay : pystr) : bool :=
  startswith needle hay ||
  match hay with
  | [] => false
  | _ :: hay' => str_in needle hay'
  end.

(** [a < b] and [a <= b] on strings: lexicographic on code points. *)
Fixpoint pystr_ltb (a b : pystr) : bool :=
  match a, b with
  | _, [] => false
  | [], _ :: _ => true
  | x :: a', y :: b' => (x <? y)%N || ((x =? y)%N && pystr_ltb a' b')
  end.

(** ** Exceptions and results *)

Inductive exn :=
  TypeError | ValueError | AttributeError | KeyError | IndexError | OverflowError.

Inductive result (A : Type) :=
| Ok (a : A)
| Raise (e : exn).
Arguments Ok {A} a.
Arguments Raise {A} e.

Definition rbind {A B} (r : result A) (f : A -> result B) : result B :=
  match r with
  | Ok a => f a
  | Raise e => Raise e
  end.

Definition returns {A} (r : result A) : Prop := exists a, r = Ok a.

(** ** The legal thresholds (class LimitesLegais) *)

Module LimitesLegais.

Definition AJUSTE_DIRETO_BENS_SERVICOS : Z := 75000.
Definition AJUSTE_DIRETO_OBRAS : Z := 150000.

Definition CONSULTA_PREVIA_BENS_SERVICOS : Z := 214000.
Definition CONSULTA_PREVIA_OBRAS : Z := 548000.

Definition CONCURSO_PUBLICO_BENS_SERVICOS : Z := 214000.
Definition CONCURSO_PUBLICO_OBRAS : Z := 548000.

Definition UE_BENS_SERVICOS : Z := 140000.
Definition UE_OBRAS : Z := 5382000.

Definition MARGEM_SUSPEITA_PERCENTAGEM : Z := 5.
Definition MARGEM_ALTA_SUSPEITA : Z := 1.

(** The test both lookups apply to the lowered contract type. *)
Definition eh_obra (tipo_contrato : pystr) : bool :=
  str_in (str "obra") (lower tipo_contrato)
  || str_in (str "empreitada") (lower tipo_contrato).

Definition get_limite_ajuste_direto (tipo_contrato : pystr) : Z :=
  if eh_obra tipo_contrato then AJUSTE_DIRETO_OBRAS
  else AJUSTE_DIRETO_BENS_SERVICOS.

Definition get_limite_consulta_previa (tipo_contrato : pystr) : Z :=
  if eh_obra tipo_contrato then CONSULTA_PREVIA_OBRAS
  else CONSULTA_PREVIA_BENS_SERVICOS.

(** The two contract categories and the three ceilings of each, as the
    constants above give them. *)
Inductive categoria := BensServicos | Obras.

Definition ajuste_direto (c : categoria) : Z :=
  match c with
  | BensServicos => AJUSTE_DIRETO_BENS_SERVICOS
  | Obras => AJUSTE_DIRETO_OBRAS
  end.

Definition consulta_previa (c : categoria) : Z :=
  match c with
  | BensServicos => CONSULTA_PREVIA_BENS_SERVICOS
  | Obras => CONSULTA_PREVIA_OBRAS
  end.

Definition limite_ue (c : categoria) : Z :=
  match c with
  | BensServicos => UE_BENS_SERVICOS
  | Obras => UE_OBRAS
  end.

Definition categoria_de (tipo_contrato : pystr) : categoria :=
  if eh_obra tipo_contrato then Obras else BensServicos.

(** The chain of ceilings the data model asks of a category. *)
Definition cadeia_estrita (c : categoria) : Prop :=
  ajuste_direto c < consulta_previa c /\ consulta_previa c < limite_ue c.

End LimitesLegais.

(** ** Dynamically typed values *)

Inductive pyval :=
| PyNone
| PyNum (q : Q)
| PyStr (s : pystr).

(** [bool(v)] *)
Definition truthy (v : pyval) : bool :=
  match v with
  | PyNone => false
  | PyNum q => negb (Qeq_bool q 0)
  | PyStr s => negb (pystr_eqb s [])
  end.

(** [a or b] *)
Definition py_or (a b : pyval) : pyval := if truthy a then a else b.

(** [a == b] *)
Definition py_eqb (a b : pyval) : bool :=
  match a, b with
  | PyNone, PyNone => true
  | PyNum p, PyNum q => Qeq_bool p q
  | PyStr s, PyStr t => pystr_eqb s t
  | _, _ => false
  end.

(** [v.lower()]: only a [str] has the method. *)
Definition py_lower (v : pyval) : result pystr :=
  match v with
  | PyStr s => Ok (lower s)
  | _ => Raise AttributeError
  end.

(** The number an ordering comparison or an addition with a number needs. *)
Definition py_num (v : pyval) : result Q :=
  match v with
  | PyNum q => Ok q
  | _ => Raise TypeError
  end.

(** [v[:n]] *)
Definition py_slice_to (n : nat) (v : pyval) : result pyval :=
  match v with
  | PyStr s => Ok (PyStr (take n s))
  | _ => Raise TypeError
  end.

Notation "x <~ r ;; k" := (rbind r (fun x => k))
  (at level 100, r at next level, right associativity).

(** [sum(vs)]: starts from the integer 0.  The numbers are exact: the
    rounding of floats is not modelled. *)
Fixpoint py_sum_from (acc : Q) (vs : list pyval) : result Q :=
  match vs with
  | [] => Ok acc
  | v :: vs' => q <~ py_num v ;; py_sum_from (acc + q)%Q vs'
  end.

Definition py_sum (vs : list pyval) : result Q := py_sum_from 0%Q vs.

Definition Qlt_bool (a b : Q) : bool := negb (Qle_bool b a).

(** ** The state-and-exception monad *)

Definition M (S A : Type) : Type := S -> result A * S.

Definition ret {S A} (a : A) : M S A := fun s => (Ok a, s).

Definition raise {S A} (e : exn) : M S A := fun s => (Raise e, s).

Definition bind {S A B} (m : M S A) (f : A -> M S B) : M S B :=
  fun s =>
    match m s with
    | (Ok a, s') => f a s'
    | (Raise e, s') => (Raise e, s')
    end.

Definition lift {S A} (r : result A) : M S A := fun s => (r, s).

Definition gets {S A} (f : S -> A) : M S A := fun s => (Ok (f s), s).

Definition modify {S} (f : S -> S) : M S unit := fun s => (Ok tt, f s).

Notation "x <- m ;; k" := (bind m (fun x => k))
  (at level 100, m at next level, right associativity).

(** [for x in l: acc.extend(body(x))] *)
Fixpoint for_extend {S A B} (l : list A) (body : A -> M S (list B)) : M S (list B) :=
  match l with
  | [] => ret []
  | x :: l' => r <- body x ;; rs <- for_extend l' body ;; ret (r ++ rs)
  end.

(** [[f(x) for x in l]] *)
Fixpoint for_map {S A B} (l : list A) (f : A -> M S B) : M S (list B) :=
  match l with
  | [] => ret []
  | x :: l' => y <- f x ;; ys <- for_map l' f ;; ret (y :: ys)
  end.

(** [[x for x in l if p(x)]] *)
Fixpoint for_filter {S A} (l : list A) (p : A -> M S bool) : M S (list A) :=
  match l with
  | [] => ret []
  | x :: l' =>
      b <- p x ;; xs <- for_filter l' p ;; ret (if b : bool then x :: xs else xs)
  end.

(** ** Contracts *)

(** A contract dict.  A field is [None] when the dict has no such key and
    [Some PyNone] when the key holds [None] (a NULL column of a database
    row).  The keys the analysis never reads (distrito, concelho, cpv,
    prazo_execucao, link_base) are left out. *)
Record contrato := {
  id_contrato : option pyval;
  adjudicante : option pyval;
  adjudicante_nif : option pyval;
  adjudicataria : option pyval;
  adjudicataria_nif : option pyval;
  valor : option pyval;
  data_contrato : option pyval;
  data_publicacao : option pyval;
  tipo_contrato : option pyval;
  tipo_procedimento : option pyval;
  descricao : option pyval;
  objeto_contrato : option pyval
}.

(** [d.get(key, dflt)] and [d.get(key)] *)
Definition get (field : option pyval) (dflt : pyval) : pyval :=
  match field with
  | Some v => v
  | None => dflt
  end.

Definition get_ (field : option pyval) : pyval := get field PyNone.

(** [d[key]] *)
Definition index (field : option pyval) : result pyval :=
  match field with
  | Some v => Ok v
  | None => Raise KeyError
  end.

(** The contract dicts are objects: the lists the analysis handles hold
    references to them, and the store maps a reference to the present
    content of its dict. *)
Definition ref := nat.
Definition heap := ref -> contrato.

Definition read (r : ref) : M heap contrato := gets (fun h => h r).

(** ** Dates: [datetime.strptime(s, '%Y-%m-%d')] and what is done with it *)

Record datetime := { year : Z; month : Z; day : Z }.

Definition digit (c : N) : option Z :=
  if ((48 <=? c) && (c <=? 57))%N then Some (Z.of_N c - 48) else None.

Definition digit_between (lo hi : Z) (c : N) : option Z :=
  match digit c with
  | Some d => if (lo <=? d) && (d <=? hi) then Some d else None
  | None => None
  end.

(** The directive [%m]: [1[0-2]|0[1-9]|[1-9]]; gives the month and the rest. *)
Definition parse_month (s : pystr) : option (Z * pystr) :=
  match s with
  | m1 :: m2 :: r =>
      match digit_between 1 1 m1, digit_between 0 2 m2 with
      | Some _, Some d => Some (10 + d, r)
      | _, _ =>
          match digit_between 0 0 m1, digit_between 1 9 m2 with
          | Some _, Some d => Some (d, r)
          | _, _ =>
              match digit_between 1 9 m1 with
              | Some d => Some (d, m2 :: r)
              | None => None
              end
          end
      end
  | [m1] =>
      match digit_between 1 9 m1 with
      | Some d => Some (d, [])
      | None => None
      end
  | [] => None
  end.

(** The directive [%d] up to the end of the input:
    [3[01]|[12]\d|0[1-9]|[1-9]| [1-9]]. *)
Definition parse_day (s : pystr) : option Z :=
  match s with
  | [d1; d2] =>
      match digit_between 3 3 d1, digit_between 0 1 d2 with
      | Some _, Some d => Some (30 + d)
      | _, _ =>
          match digit_between 1 2 d1, digit d2 with
          | Some a, Some d => Some (10 * a + d)
          | _, _ =>
              match digit_between 1 9 d2 with
              | Some d => if ((d1 =? 48) || (d1 =? 32))%N then Some d else None
              | None => None
              end
          end
      end
  | [d1] => digit_between 1 9 d1
  | _ => None
  end.

Definition is_leap (y : Z) : bool :=
  (y mod 4 =? 0) && (negb (y mod 100 =? 0) || (y mod 400 =? 0)).

Definition days_in_month (y m : Z) : Z :=
  if m =? 2 then (if is_leap y then 29 else 28)
  else if (m =? 4) || (m =? 6) || (m =? 9) || (m =? 11) then 30
  else 31.

Definition days_before_month (y m : Z) : Z :=
  List.fold_right Z.add 0
    (List.map (days_in_month y) (List.filter (fun k => k <? m) [1;2;3;4;5;6;7;8;9;10;11])).

(** [strptime] on a string: four digits, a dash, the month, a dash, the day,
    and then the check of the calendar ([year 0] and [30 February] are
    refused).  The digits are those of ASCII; [strptime] also reads the
    other decimal digits of Unicode. *)
Definition strptime_str (s : pystr) : result datetime :=
  match s with
  | y1 :: y2 :: y3 :: y4 :: dash :: r =>
      match digit y1, digit y2, digit y3, digit y4, parse_month r with
      | Some a, Some b, Some c, Some d, Some (m, dash' :: r') =>
          match parse_day r' with
          | Some dd =>
              let y := 1000 * a + 100 * b + 10 * c + d in
              if ((dash =? 45) && (dash' =? 45))%N
                 && (1 <=? y) && (dd <=? days_in_month y m)
              then Ok {| year := y; month := m; day := dd |}
              else Raise ValueError
          | None => Raise ValueError
          end
      | _, _, _, _, _ => Raise ValueError
      end
  | _ => Raise ValueError
  end.

(** [datetime.strptime(v, '%Y-%m-%d')]: anything but a [str] is a TypeError. *)
Definition strptime (v : pyval) : result datetime :=
  match v with
  | PyStr s => strptime_str s
  | _ => Raise TypeError
  end.

(** [d.toordinal()]: 1 is 1 January of year 1.  The datetimes of this
    format are at midnight, so the ordinal decides their order. *)
Definition toordinal (d : datetime) : Z :=
  let y := year d - 1 in
  y * 365 + y / 4 - y / 100 + y / 400 + days_before_month (year d) (month d) + day d.

Definition MAXORDINAL : Z := 3652059.

(** [d + timedelta(days=n)], as the ordinal of the sum. *)
Definition add_days (d : datetime) (n : Z) : result Z :=
  let o := toordinal d + n in
  if (1 <=? o) && (o <=? MAXORDINAL) then Ok o else Raise OverflowError.

(** [d.weekday()]: Monday is 0. *)
Definition weekday (d : datetime) : Z := (toordinal d + 6) mod 7.

Definition two_digits (n : Z) : pystr :=
  [Z.to_N (48 + n / 10); Z.to_N (48 + n mod 10)].

(** [d.strftime('%m-%d')] *)
Definition strftime_md (d : datetime) : pystr :=
  two_digits (month d) ++ [45%N] ++ two_digits (day d).

(** ** [list.sort(key=...)] *)

Definition is_str (v : pyval) : bool := match v with PyStr _ => true | _ => false end.
Definition is_num (v : pyval) : bool := match v with PyNum _ => true | _ => false end.

(** [a < b] on two keys of the same comparable type. *)
Definition key_ltb (a b : pyval) : bool :=
  match a, b with
  | PyStr s, PyStr t => pystr_ltb s t
  | PyNum p, PyNum q => Qlt_bool p q
  | _, _ => false
  end.

Fixpoint insert_sorted {A} (x : pyval * A) (l : list (pyval * A)) : list (pyval * A) :=
  match l with
  | [] => [x]
  | y :: l' => if key_ltb (fst y) (fst x) then y :: insert_sorted x l' else x :: y :: l'
  end.

Definition sort_decorated {A} (l : list (pyval * A)) : list (pyval * A) :=
  List.fold_right insert_sorted [] l.

(** The sort of a list whose keys are already computed.  It is stable.  A
    sort of two or more elements compares every element with another one, and
    the comparisons made connect all of them; so a TypeError is raised exactly
    when the keys are not all strings or all numbers. *)
Definition sort_by_key {A} (l : list (pyval * A)) : result (list A) :=
  if (List.length l <? 2)%nat then Ok (List.map snd l)
  else if forallb (fun x => is_str (fst x)) l || forallb (fun x => is_num (fst x)) l
  then Ok (List.map snd (sort_decorated l))
  else Raise TypeError.

(** ** The pattern detector (class SuspiciousPatternDetector) *)

(** The detector's configuration dict. *)
Record config := {
  detectar_valores_suspeitos : bool;
  margem_suspeita_percentagem : Q;
  margem_alta_suspeita_percentagem : Q;
  detectar_fracionamento : bool;
  janela_fracionamento_dias : Z;
  min_contratos_fracionamento : Z;
  detectar_contratos_repetidos : bool;
  min_contratos_repetidos : Z;
  detectar_concentracao_temporal : bool;
  janela_concentracao_dias : Z;
  min_contratos_concentracao : Z;
  detectar_valores_redondos : bool;
  valores_redondos_suspeitos : list Q;
  detectar_procedimento_inadequado : bool;
  detectar_vesperas_feriados : bool;
  detectar_finais_mandato : bool
}.

Definition _get_default_config : config := {|
  detectar_valores_suspeitos := true;
  margem_suspeita_percentagem := 5;
  margem_alta_suspeita_percentagem := 1;
  detectar_fracionamento := true;
  janela_fracionamento_dias := 365;
  min_contratos_fracionamento := 3;
  detectar_contratos_repetidos := true;
  min_contratos_repetidos := 5;
  detectar_concentracao_temporal := true;
  janela_concentracao_dias := 30;
  min_contratos_concentracao := 10;
  detectar_valores_redondos := true;
  valores_redondos_suspeitos :=
    [74900; 74950; 74990; 74999;
     149900; 149950; 149990; 149999;
     213900; 213950; 213990; 213999]%Q;
  detectar_procedimento_inadequado := true;
  detectar_vesperas_feriados := true;
  detectar_finais_mandato := true
|}.

Inductive gravidade := baixa | media | alta | critica.

Inductive procedimento_excedido := ajuste_acima | consulta_acima.
Inductive vespera := fim_semana | feriado.

(** A finding dict, by its ['tipo'].  The ['descricao'] text, a rendering of
    the other entries, is not modelled; the two findings of rule 6, which
    differ in that text only, are told apart by [procedimento_excedido].
    The text prints the values with [:,.2f], which raises OverflowError on
    an integer that no float holds ([numeros_formataveis] below). *)
Inductive padrao :=
| valor_suspeito_limite (g : gravidade) (id : pyval)
    (v limite distancia percentagem_abaixo : Q) (procedimento : pystr)
| fracionamento_suspeito (adjudicante_par adjudicataria_par : pyval)
    (num_contratos : Z) (valor_total : Q) (periodo_dias : Z)
    (contratos_ids : list pyval)
| contratos_repetidos (num_contratos : Z) (valor_total : Q)
| concentracao_temporal (data_inicio : pyval) (num_contratos : Z) (valor_total : Q)
| valor_exato_suspeito (id : pyval) (v : pyval)
| valor_calculado_suspeito (id : pyval) (v : Q) (limite_evitado : Z)
| procedimento_inadequado (qual : procedimento_excedido) (id : pyval)
    (v : Q) (procedimento : pystr)
| publicacao_vespera (subtipo : vespera) (id : pyval) (data : pyval).

(** [p['tipo']] *)
Definition padrao_tipo (p : padrao) : string :=
  match p with
  | valor_suspeito_limite _ _ _ _ _ _ _ => "valor_suspeito_limite"
  | fracionamento_suspeito _ _ _ _ _ _ => "fracionamento_suspeito"
  | contratos_repetidos _ _ => "contratos_repetidos"
  | concentracao_temporal _ _ _ => "concentracao_temporal"
  | valor_exato_suspeito _ _ => "valor_exato_suspeito"
  | valor_calculado_suspeito _ _ _ => "valor_calculado_suspeito"
  | procedimento_inadequado _ _ _ _ => "procedimento_inadequado"
  | publicacao_vespera _ _ _ => "publicacao_vespera"
  end.

(** [p['gravidade']] *)
Definition padrao_gravidade (p : padrao) : gravidade :=
  match p with
  | valor_suspeito_limite g _ _ _ _ _ _ => g
  | fracionamento_suspeito _ _ _ _ _ _ => alta
  | contratos_repetidos _ _ => media
  | concentracao_temporal _ _ _ => media
  | valor_exato_suspeito _ _ => alta
  | valor_calculado_suspeito _ _ _ => alta
  | procedimento_inadequado _ _ _ _ => alta
  | publicacao_vespera fim_semana _ _ => baixa
  | publicacao_vespera feriado _ _ => media
  end.

(** The rule of the detector a finding comes from (1 to 7). *)
Definition padrao_regra (p : padrao) : Z :=
  match p with
  | valor_suspeito_limite _ _ _ _ _ _ _ => 1
  | fracionamento_suspeito _ _ _ _ _ _ => 2
  | contratos_repetidos _ _ => 3
  | concentracao_temporal _ _ _ => 4
  | valor_exato_suspeito _ _ => 5
  | valor_calculado_suspeito _ _ _ => 5
  | procedimento_inadequado _ _ _ _ => 6
  | publicacao_vespera _ _ _ => 7
  end.

(** [LimitesLegais.get_limite_*] on a value read from a dict. *)
Definition limite_ajuste_direto (tipo : pyval) : result Z :=
  match tipo with
  | PyStr s => Ok (LimitesLegais.get_limite_ajuste_direto s)
  | _ => Raise AttributeError
  end.

Definition limite_consulta_previa (tipo : pyval) : result Z :=
  match tipo with
  | PyStr s => Ok (LimitesLegais.get_limite_consulta_previa s)
  | _ => Raise AttributeError
  end.

Section Detector.

Variable cfg : config.

(** *** Rule 1: values just below the direct-award ceiling *)

(** The body of the loop of [_detectar_valores_suspeitos], on one dict. *)
Definition valores_suspeitos_contrato (c : contrato) : result (list padrao) :=
  let valor_v := get (valor c) (PyNum 0) in
  let tipo := get (tipo_contrato c) (PyStr []) in
  procedimento <~ py_lower (get (tipo_procedimento c) (PyStr [])) ;;
  valor <~ py_num valor_v ;;
  if Qle_bool valor 0 then Ok []
  else
    limite_ajuste_z <~ limite_ajuste_direto tipo ;;
    limite_consulta <~ limite_consulta_previa tipo ;;
    let limite_ajuste := inject_Z limite_ajuste_z in
    let margem_normal := (limite_ajuste * (margem_suspeita_percentagem cfg / 100))%Q in
    let margem_alta := (limite_ajuste * (margem_alta_suspeita_percentagem cfg / 100))%Q in
    if Qle_bool (limite_ajuste - margem_normal) valor && Qle_bool valor limite_ajuste
    then
      let distancia := (limite_ajuste - valor)%Q in
      let percentagem := ((distancia / limite_ajuste) * 100)%Q in
      let g := if Qle_bool distancia margem_alta then alta else media in
      let g := if str_in (str "ajuste") procedimento then alta else g in
      Ok [valor_suspeito_limite g (get_ (id_contrato c)) valor limite_ajuste
            distancia percentagem procedimento]
    else Ok [].

Definition _detectar_valores_suspeitos (contratos : list ref) : M heap (list padrao) :=
  for_extend contratos (fun r => c <- read r ;; lift (valores_suspeitos_contrato c)).

(** *** Grouping, as a [defaultdict(list)] filled in the order of the input *)

Definition group_add {K} (eqb : K -> K -> bool) (k : K) (r : ref) :=
  fix go (g : list (K * list ref)) : list (K * list ref) :=
    match g with
    | [] => [(k, [r])]
    | (k', l) :: g' => if eqb k k' then (k', l ++ [r]) :: g' else (k', l) :: go g'
    end.

Fixpoint agrupar {K} (eqb : K -> K -> bool) (chave : contrato -> result K)
    (contratos : list ref) (g : list (K * list ref)) : M heap (list (K * list ref)) :=
  match contratos with
  | [] => ret g
  | r :: l =>
      c <- read r ;;
      k <- lift (chave c) ;;
      agrupar eqb chave l (group_add eqb k r g)
  end.

(** [sum(c.get('valor', 0) for c in l)] *)
Definition soma_valores (l : list ref) : M heap Q :=
  vs <- for_map l (fun r => c <- read r ;; ret (get (valor c) (PyNum 0))) ;;
  lift (py_sum vs).

(** [l.sort(key=chave)] on a list of references: the keys are read first. *)
Definition ordenar (chave : contrato -> result pyval) (l : list ref) : M heap (list ref) :=
  ks <- for_map l (fun r => c <- read r ;; k <- lift (chave c) ;; ret (k, r)) ;;
  lift (sort_by_key ks).

Definition len {A} (l : list A) : Z := Z.of_nat (List.length l).

(** The contracts of [l] dated up to [fim]: the list comprehension of a
    window.  With [guarded] the date is first tested for truth, as rule 2
    does. *)
Definition na_janela (guarded : bool) (fim : Z) (l : list ref) : M heap (list ref) :=
  for_filter l (fun r =>
    c <- read r ;;
    if guarded && negb (truthy (get_ (data_contrato c))) then ret false
    else
      v <- lift (index (data_contrato c)) ;;
      d <- lift (strptime v) ;;
      ret (toordinal d <=? fim)).

(** *** Rule 2: splitting of contracts *)

Definition par4 : Type := pyval * pyval * pyval * pyval.

Definition par4_eqb (a b : par4) : bool :=
  let '(a1, a2, a3, a4) := a in
  let '(b1, b2, b3, b4) := b in
  py_eqb a1 b1 && py_eqb a2 b2 && py_eqb a3 b3 && py_eqb a4 b4.

Definition par4_de (c : contrato) : result par4 :=
  objeto <~ py_slice_to 50 (get (objeto_contrato c) (PyStr [])) ;;
  Ok (get (adjudicante c) (PyStr []), get (adjudicataria c) (PyStr []),
      get (tipo_contrato c) (PyStr []), objeto).

(** The loop over the window starts of one sorted group; [l] is
    [contratos_par[i:]]. *)
Fixpoint janelas_fracionamento (par : par4) (l : list ref) : M heap (list padrao) :=
  match l with
  | [] => ret []
  | r :: l' =>
      c <- read r ;;
      let data_inicio := get_ (data_contrato c) in
      if negb (truthy data_inicio) then janelas_fracionamento par l'
      else
        dt_inicio <- lift (strptime data_inicio) ;;
        dt_fim <- lift (add_days dt_inicio (janela_fracionamento_dias cfg)) ;;
        contratos_janela <- na_janela true dt_fim l ;;
        if min_contratos_fracionamento cfg <=? len contratos_janela then
          valor_total <- soma_valores contratos_janela ;;
          match contratos_janela with
          | [] => raise IndexError
          | r0 :: _ =>
              c0 <- read r0 ;;
              limite <- lift (limite_ajuste_direto (get (tipo_contrato c0) (PyStr []))) ;;
              if Qlt_bool (inject_Z limite) valor_total then
                ids <- for_map contratos_janela
                         (fun r' => c' <- read r' ;; ret (get_ (id_contrato c'))) ;;
                ret [fracionamento_suspeito (fst (fst (fst par))) (snd (fst (fst par)))
                       (len contratos_janela) valor_total
                       (janela_fracionamento_dias cfg) ids]
              else janelas_fracionamento par l'
          end
        else janelas_fracionamento par l'
  end.

Definition fracionamento_par (g : par4 * list ref) : M heap (list padrao) :=
  let '(par, contratos_par) := g in
  if len contratos_par <? min_contratos_fracionamento cfg then ret []
  else
    ordenados <- ordenar (fun c => Ok (get (data_contrato c) (PyStr []))) contratos_par ;;
    janelas_fracionamento par ordenados.

Definition _detectar_fracionamento (contratos : list ref) : M heap (list padrao) :=
  pares <- agrupar par4_eqb par4_de contratos [] ;;
  for_extend pares fracionamento_par.

(** *** Rule 3: repeated contracts between the same two parties *)

Definition par2_eqb (a b : pyval * pyval) : bool :=
  py_eqb (fst a) (fst b) && py_eqb (snd a) (snd b).

Definition par2_de (c : contrato) : result (pyval * pyval) :=
  Ok (get (adjudicante c) (PyStr []), get (adjudicataria c) (PyStr [])).

Definition repetidos_par (g : (pyval * pyval) * list ref) : M heap (list padrao) :=
  let '(par, contratos_par) := g in
  if min_contratos_repetidos cfg <=? len contratos_par then
    valor_total <- soma_valores contratos_par ;;
    ret [contratos_repetidos (len contratos_par) valor_total]
  else ret [].

Definition _detectar_contratos_repetidos (contratos : list ref) : M heap (list padrao) :=
  pares <- agrupar par2_eqb par2_de contratos [] ;;
  for_extend pares repetidos_par.

(** *** Rule 4: many contracts in a short period *)

(** The loop over the window starts; [l] is [datas[i:]]. *)
Fixpoint janelas_concentracao (l : list ref) : M heap (list padrao) :=
  match l with
  | [] => ret []
  | r :: l' =>
      c <- read r ;;
      v <- lift (index (data_contrato c)) ;;
      data_inicio <- lift (strptime v) ;;
      data_fim <- lift (add_days data_inicio (janela_concentracao_dias cfg)) ;;
      contratos_janela <- na_janela false data_fim l ;;
      if min_contratos_concentracao cfg <=? len contratos_janela then
        valor_total <- soma_valores contratos_janela ;;
        ret [concentracao_temporal v (len contratos_janela) valor_total]
      else janelas_concentracao l'
  end.

Definition _detectar_concentracao_temporal (contratos : list ref) : M heap (list padrao) :=
  datas <- for_filter contratos
             (fun r => c <- read r ;; ret (truthy (get_ (data_contrato c)))) ;;
  match datas with
  | [] => ret []
  | _ :: _ =>
      ordenadas <- ordenar (fun c => index (data_contrato c)) datas ;;
      janelas_concentracao ordenadas
  end.

(** *** Rule 5: values computed to stay below a ceiling *)

Definition limites_redondos : list Z := [75000; 150000; 214000; 548000].

Definition diferencas_redondas : list Q := [1; 10; 50; 100]%Q.

(** The inner loop over the four ceilings, on the value of one dict. *)
Fixpoint quase_redondos (id valor_v : pyval) (limites : list Z) : result (list padrao) :=
  match limites with
  | [] => Ok []
  | limite :: limites' =>
      valor <~ py_num valor_v ;;
      let lim := inject_Z limite in
      let aqui :=
        if Qle_bool (lim - 100) valor && Qlt_bool valor lim
           && existsb (Qeq_bool (lim - valor)) diferencas_redondas
        then [valor_calculado_suspeito id valor limite] else [] in
      resto <~ quase_redondos id valor_v limites' ;;
      Ok (aqui ++ resto)
  end.

Definition valores_redondos_contrato (c : contrato) : result (list padrao) :=
  let valor_v := get (valor c) (PyNum 0) in
  let id := get_ (id_contrato c) in
  let exato :=
    if existsb (fun q => py_eqb valor_v (PyNum q)) (valores_redondos_suspeitos cfg)
    then [valor_exato_suspeito id valor_v] else [] in
  quase <~ quase_redondos id valor_v limites_redondos ;;
  Ok (exato ++ quase).

Definition _detectar_valores_redondos (contratos : list ref) : M heap (list padrao) :=
  for_extend contratos (fun r => c <- read r ;; lift (valores_redondos_contrato c)).

(** *** Rule 6: a procedure the value does not allow *)

Definition procedimento_inadequado_contrato (c : contrato) : result (list padrao) :=
  let valor_v := get (valor c) (PyNum 0) in
  procedimento <~ py_lower (get (tipo_procedimento c) (PyStr [])) ;;
  let tipo := get (tipo_contrato c) (PyStr []) in
  valor <~ py_num valor_v ;;
  if Qle_bool valor 0 || pystr_eqb procedimento [] then Ok []
  else
    limite_ajuste <~ limite_ajuste_direto tipo ;;
    limite_consulta <~ limite_consulta_previa tipo ;;
    let id := get_ (id_contrato c) in
    Ok ((if str_in (str "ajuste") procedimento && Qlt_bool (inject_Z limite_ajuste) valor
         then [procedimento_inadequado ajuste_acima id valor procedimento] else [])
        ++
        (if str_in (str "consulta") procedimento && Qlt_bool (inject_Z limite_consulta) valor
         then [procedimento_inadequado consulta_acima id valor procedimento] else [])).

Definition _detectar_procedimento_inadequado (contratos : list ref) : M heap (list padrao) :=
  for_extend contratos (fun r => c <- read r ;; lift (procedimento_inadequado_contrato c)).

(** *** Rule 7: publication on the eve of a weekend or on a holiday *)

Definition feriados : list pystr :=
  List.map str ["01-01"; "04-25"; "05-01"; "06-10"; "08-15";
                "10-05"; "11-01"; "12-01"; "12-08"; "12-25"]%string.

(** The body of the loop; whatever the [try] block raises is caught and
    the contract is passed over. *)
Definition vesperas_feriados_contrato (c : contrato) : list padrao :=
  let data_str := py_or (get_ (data_publicacao c)) (get_ (data_contrato c)) in
  if negb (truthy data_str) then []
  else
    match strptime data_str with
    | Raise _ => []
    | Ok data =>
        let id := get_ (id_contrato c) in
        (if weekday data =? 4 then [publicacao_vespera fim_semana id data_str] else [])
        ++
        (if existsb (pystr_eqb (strftime_md data)) feriados
         then [publicacao_vespera feriado id data_str] else [])
    end.

Definition _detectar_vesperas_feriados (contratos : list ref) : M heap (list padrao) :=
  for_extend contratos (fun r => c <- read r ;; ret (vesperas_feriados_contrato c)).

(** *** The entry point *)

Definition quando (b : bool) (m : M heap (list padrao)) : M heap (list padrao) :=
  if b then m else ret [].

(** [analisar_contratos(contratos)]; the argument [figura_id], which the
    function never reads, is left out. *)
Definition analisar_contratos (contratos : list ref) : M heap (list padrao) :=
  p1 <- quando (detectar_valores_suspeitos cfg) (_detectar_valores_suspeitos contratos) ;;
  p2 <- quando (detectar_fracionamento cfg) (_detectar_fracionamento contratos) ;;
  p3 <- quando (detectar_contratos_repetidos cfg) (_detectar_contratos_repetidos contratos) ;;
  p4 <- quando (detectar_concentracao_temporal cfg) (_detectar_concentracao_temporal contratos) ;;
  p5 <- quando (detectar_valores_redondos cfg) (_detectar_valores_redondos contratos) ;;
  p6 <- quando (detectar_procedimento_inadequado cfg) (_detectar_procedimento_inadequado contratos) ;;
  p7 <- quando (detectar_vesperas_feriados cfg) (_detectar_vesperas_feriados contratos) ;;
  ret (p1 ++ p2 ++ p3 ++ p4 ++ p5 ++ p6 ++ p7).

End Detector.

(** The date of a contract does not stop rule 4: it is false (absent, None or
    empty), or it is a date whose window of [janela] days has an end. *)
Definition data_utilizavel (janela : Z) (c : contrato) : Prop :=
  truthy (get_ (data_contrato c)) = false
  \/ exists d fim, strptime (get_ (data_contrato c)) = Ok d /\ add_days d janela = Ok fim.

(** *** Contracts of the test suite (test_advanced_features.py) *)

Module Exemplos.

Definition contrato_teste (id adj adja : string) (v : Q) (tipo proc data : string)
  : contrato := {|
  id_contrato := Some (PyStr (str id));
  adjudicante := Some (PyStr (str adj));
  adjudicante_nif := None;
  adjudicataria := Some (PyStr (str adja));
  adjudicataria_nif := None;
  valor := Some (PyNum v);
  data_contrato := Some (PyStr (str data));
  data_publicacao := None;
  tipo_contrato := Some (PyStr (str tipo));
  tipo_procedimento := Some (PyStr (str proc));
  descricao := None;
  objeto_contrato := None
|}.

Definition TEST001 : contrato :=
  contrato_teste "TEST001" "Câmara Municipal de Lisboa" "Empresa Suspeita Lda"
    74999 "Aquisição de Serviços" "Ajuste Direto" "2024-01-15".

Definition TEST004 : contrato :=
  contrato_teste "TEST004" "Câmara Municipal de Lisboa" "Empresa Suspeita Lda"
    50000 "Aquisição de Serviços" "Ajuste Direto" "2024-01-20".

(** A contract whose date is written day first. *)
Definition DATA_DMA : contrato :=
  contrato_teste "TEST006" "Câmara Municipal de Lisboa" "Empresa Suspeita Lda"
    1000 "Aquisição de Serviços" "Ajuste Direto" "15/01/2024".

(** The dict of a row whose value is NULL. *)
Definition SEM_VALOR : contrato := {|
  id_contrato := Some (PyStr (str "TEST007"));
  adjudicante := Some (PyStr (str "Câmara Municipal de Lisboa"));
  adjudicante_nif := Some PyNone;
  adjudicataria := Some (PyStr (str "Empresa Suspeita Lda"));
  adjudicataria_nif := Some PyNone;
  valor := Some PyNone;
  data_contrato := Some (PyStr (str "2024-01-15"));
  data_publicacao := Some PyNone;
  tipo_contrato := Some (PyStr (str "Aquisição de Serviços"));
  tipo_procedimento := Some (PyStr (str "Ajuste Direto"));
  descricao := Some PyNone;
  objeto_contrato := Some (PyStr [])
|}.

(** A store in which every reference holds the given dict. *)
Definition so (c : contrato) : heap := fun _ => c.

End Exemplos.

(** *** Computations that only read the store *)

(** Two stores agree on the references of [P]. *)
Definition concorda (P : ref -> Prop) (h h' : heap) : Prop :=
  forall r, P r -> h r = h' r.

(** [so_le P Q m]: the computation [m] leaves the store as it found it, its
    value satisfies [Q] when it returns one, and its outcome (value or
    exception) is the same in every store that holds the same dicts at the
    references of [P]. *)
Definition so_le (P : ref -> Prop) {A} (Q : A -> Prop) (m : M heap A) : Prop :=
  forall h,
    snd (m h) = h
    /\ (forall a, fst (m h) = Ok a -> Q a)
    /\ (forall h', concorda P h h' -> fst (m h') = fst (m h)).

(** The postcondition that asks nothing. *)
Definition tudo {A} : A -> Prop := fun _ => True.

(** ** The repository (src/database.py and the tables of src/associations.py)

    A table is the list of its rows, in the order of insertion.  A TEXT
    column is a [pystr], an [option pystr] when it may hold NULL; a row is
    read by the code through [dict(row)], where [.get(key, dflt)] gives None
    for a NULL column since the key is present.  The columns filled by the
    clock of the database (data_adicao, data_recolha, data_detecao) and the
    columns the analysis never reads are left out.  The columns declared
    DATE have NUMERIC affinity, and hold as a number a text that reads as
    one: the dates of the tables here are NULL or text ([bd_fiel] below). *)

Module TContratos.
Record t := {
  id_contrato : pystr;
  adjudicante : option pystr;
  adjudicante_nif : option pystr;
  adjudicataria : option pystr;
  adjudicataria_nif : option pystr;
  valor : option Q;
  data_contrato : option pystr;
  data_publicacao : option pystr;
  tipo_contrato : option pystr;
  tipo_procedimento : option pystr;
  descricao : option pystr;
  objeto_contrato : option pystr
}.
End TContratos.

Module TFiguras.
Record t := {
  id : Z;
  nome : pystr;
  nif : option pystr;
  tipo : option pystr;
  cargo_governamental : option pystr;
  partido : option pystr;
  notas : option pystr;
  ativo : Z
}.
End TFiguras.

Module TPessoas.
Record t := {
  id : Z;
  nome : pystr;
  cargo_politico : option pystr;
  partido : option pystr;
  funcao_atual : option pystr;
  notas : option pystr
}.
End TPessoas.

Module TCargos.
Record t := {
  id : Z;
  pessoa_id : Z;
  cargo : pystr;
  entidade : option pystr;
  partido : option pystr;
  data_inicio : option pystr;
  data_fim : option pystr;
  ativo : Z
}.
End TCargos.

Module TAssociacoes.
Record t := {
  id : Z;
  pessoa_id : Z;
  empresa_nome : pystr;
  empresa_nif : option pystr;
  tipo_relacao : option pystr;
  percentagem_participacao : option Q;
  data_inicio : option pystr;
  data_fim : option pystr;
  ativo : Z;
  fonte : option pystr;
  notas : option pystr
}.
End TAssociacoes.

Module TConflitos.
Record t := {
  id : Z;
  pessoa_id : Z;
  empresa_nome : pystr;
  id_contrato : pystr;
  tipo_conflito : pystr;
  descricao : pystr;
  gravidade : gravidade;
  verificado : Z
}.
End TConflitos.

Record db := {
  contratos : list TContratos.t;
  figuras_interesse : list TFiguras.t;
  pessoas : list TPessoas.t;
  cargos_politicos : list TCargos.t;
  associacoes_pessoa_empresa : list TAssociacoes.t;
  conflitos_interesse : list TConflitos.t
}.

Definition com_conflitos (d : db) (tabela : list TConflitos.t) : db := {|
  contratos := contratos d;
  figuras_interesse := figuras_interesse d;
  pessoas := pessoas d;
  cargos_politicos := cargos_politicos d;
  associacoes_pessoa_empresa := associacoes_pessoa_empresa d;
  conflitos_interesse := tabela
|}.

Module SQL.

Definition lower_ascii (c : N) : N :=
  if ((65 <=? c) && (c <=? 90))%N then (c + 32)%N else c.

(** [s LIKE pat]: [%] stands for any run of characters, [_] for any one
    character, and the letters of ASCII match without regard to case.
    SQLite reads the pattern and the text up to the first NUL, and refuses
    a pattern of more than 50 000 bytes ([padrao_aceite] below). *)
Fixpoint like (pat : pystr) : pystr -> bool :=
  match pat with
  | [] => fun s => match s with [] => true | _ :: _ => false end
  | c :: pat' =>
      if (c =? 37)%N then
        fix estrela (s : pystr) : bool :=
          like pat' s || match s with [] => false | _ :: s' => estrela s' end
      else
        fun s =>
          match s with
          | [] => false
          | x :: s' =>
              ((c =? 95) || (lower_ascii c =? lower_ascii x))%N && like pat' s'
          end
  end.

(** A comparison with NULL selects no row. *)
Definition like_null (pat : pystr) (o : option pystr) : bool :=
  match o with
  | Some s => like pat s
  | None => false
  end.

Definition eq_null (a : pystr) (o : option pystr) : bool :=
  match o with
  | Some s => pystr_eqb a s
  | None => false
  end.

(** The pattern [f"%{nome}%"]. *)
Definition contem (nome : pystr) : pystr := [37%N] ++ nome ++ [37%N].

(** The order of TEXT values, NULL first. *)
Definition texto_ltb (a b : option pystr) : bool :=
  match a, b with
  | None, Some _ => true
  | Some x, Some y => pystr_ltb x y
  | _, _ => false
  end.

(** Two values are not distinct (NULL is not distinct from NULL). *)
Definition texto_eqb (a b : option pystr) : bool :=
  match a, b with
  | None, None => true
  | Some x, Some y => pystr_eqb x y
  | _, _ => false
  end.

Fixpoint inserir_ordenado {A} (antes : A -> A -> bool) (x : A) (l : list A) : list A :=
  match l with
  | [] => [x]
  | y :: l' => if antes y x then y :: inserir_ordenado antes x l' else x :: y :: l'
  end.

(** [ORDER BY]: [antes y x] tells that [y] sorts strictly before [x]; rows
    that tie, whose order SQL leaves open, keep the order of the table. *)
Definition order_by {A} (antes : A -> A -> bool) (l : list A) : list A :=
  List.fold_right (inserir_ordenado antes) [] l.

(** [SELECT DISTINCT]: the first of each run of equal rows is kept. *)
Fixpoint distinct_ {A} (eqb : A -> A -> bool) (vistos l : list A) : list A :=
  match l with
  | [] => []
  | x :: l' =>
      if existsb (eqb x) vistos then distinct_ eqb vistos l'
      else x :: distinct_ eqb (x :: vistos) l'
  end.

Definition distinct {A} (eqb : A -> A -> bool) (l : list A) : list A :=
  distinct_ eqb [] l.

End SQL.

Definition nao_vazio (s : pystr) : bool := negb (pystr_eqb s []).

(** *** DatabaseManager *)

(** The dict of filters of [pesquisar_contratos]; only the two keys that the
    callers modelled here set are kept. *)
Record filtros := {
  filtro_adjudicante : option pystr;
  filtro_adjudicataria : option pystr
}.

Definition por_adjudicante (nome : pystr) : filtros :=
  {| filtro_adjudicante := Some nome; filtro_adjudicataria := None |}.

Definition por_adjudicataria (nome : pystr) : filtros :=
  {| filtro_adjudicante := None; filtro_adjudicataria := Some nome |}.

(** [if filtros.get(key): query += " AND coluna LIKE ?"] *)
Definition filtro_like (f : option pystr) (coluna : option pystr) : bool :=
  match f with
  | Some nome => if nao_vazio nome then SQL.like_null (SQL.contem nome) coluna else true
  | None => true
  end.

Definition data_contrato_desc (y x : TContratos.t) : bool :=
  SQL.texto_ltb (TContratos.data_contrato x) (TContratos.data_contrato y).

Definition pesquisar_contratos (d : db) (f : filtros) : list TContratos.t :=
  SQL.order_by data_contrato_desc
    (List.filter
       (fun c => filtro_like (filtro_adjudicante f) (TContratos.adjudicante c)
                 && filtro_like (filtro_adjudicataria f) (TContratos.adjudicataria c))
       (contratos d)).

Definition listar_figuras_interesse (d : db) (apenas_ativas : bool) : list TFiguras.t :=
  SQL.order_by (fun y x => pystr_ltb (TFiguras.nome y) (TFiguras.nome x))
    (List.filter (fun f => negb apenas_ativas || (TFiguras.ativo f =? 1))
       (figuras_interesse d)).

Definition pesquisar_contratos_por_figura (d : db) (figura_id : Z) : list TContratos.t :=
  match List.find (fun f => TFiguras.id f =? figura_id) (figuras_interesse d) with
  | None => []
  | Some figura =>
      let padrao_nome := SQL.contem (TFiguras.nome figura) in
      let por_nif (coluna : option pystr) :=
        match TFiguras.nif figura with
        | Some nif => nao_vazio nif && SQL.eq_null nif coluna
        | None => false
        end in
      SQL.order_by data_contrato_desc
        (List.filter
           (fun c => SQL.like_null padrao_nome (TContratos.adjudicante c)
                     || SQL.like_null padrao_nome (TContratos.adjudicataria c)
                     || por_nif (TContratos.adjudicante_nif c)
                     || por_nif (TContratos.adjudicataria_nif c))
           (contratos d))
  end.

(** ** Associations between people and companies (class AssociationsManager) *)

(** [SELECT * FROM pessoas WHERE nome LIKE ? ORDER BY nome] *)
Definition pesquisar_pessoa (d : db) (nome : pystr) : list TPessoas.t :=
  SQL.order_by (fun y x => pystr_ltb (TPessoas.nome y) (TPessoas.nome x))
    (List.filter (fun p => SQL.like (SQL.contem nome) (TPessoas.nome p)) (pessoas d)).

Definition ativo_data_inicio_desc (y x : TAssociacoes.t) : bool :=
  (TAssociacoes.ativo x <? TAssociacoes.ativo y)
  || ((TAssociacoes.ativo x =? TAssociacoes.ativo y)
      && SQL.texto_ltb (TAssociacoes.data_inicio x) (TAssociacoes.data_inicio y)).

(** [SELECT * FROM associacoes_pessoa_empresa WHERE pessoa_id = ?
     ORDER BY ativo DESC, data_inicio DESC] *)
Definition listar_associacoes_pessoa (d : db) (pessoa_id : Z) : list TAssociacoes.t :=
  SQL.order_by ativo_data_inicio_desc
    (List.filter (fun a => TAssociacoes.pessoa_id a =? pessoa_id)
       (associacoes_pessoa_empresa d)).

(** *** The person-centred search *)

(** A contract dict to which the search has added the two keys
    [_empresa_associada] and [_tipo_associacao]. *)
Record contrato_anotado := {
  contrato_de : TContratos.t;
  _empresa_associada : pystr;
  _tipo_associacao : option pystr
}.

Record resultado := {
  pessoa : pystr;
  contratos_diretos : list TContratos.t;
  contratos_empresas : list contrato_anotado;
  empresas_associadas : list pystr;
  total_contratos : Z;
  valor_total : Q
}.

Definition resultado_vazio (nome_pessoa : pystr) : resultado := {|
  pessoa := nome_pessoa;
  contratos_diretos := [];
  contratos_empresas := [];
  empresas_associadas := [];
  total_contratos := 0;
  valor_total := 0
|}.

(** [c.get('valor', 0)] on the dict of a row. *)
Definition valor_da_linha (c : TContratos.t) : pyval :=
  match TContratos.valor c with
  | Some q => PyNum q
  | None => PyNone
  end.

Definition pesquisar_contratos_por_pessoa (nome_pessoa : pystr) : M db resultado :=
  pessoas <- gets (fun d => pesquisar_pessoa d nome_pessoa) ;;
  match pessoas with
  | [] => ret (resultado_vazio nome_pessoa)
  | pessoa :: _ =>
      let pessoa_id := TPessoas.id pessoa in
      diretos1 <- gets (fun d => pesquisar_contratos d (por_adjudicante nome_pessoa)) ;;
      diretos2 <- gets (fun d => pesquisar_contratos d (por_adjudicataria nome_pessoa)) ;;
      let contratos_diretos := diretos1 ++ diretos2 in
      associacoes <- gets (fun d => listar_associacoes_pessoa d pessoa_id) ;;
      let empresas := List.map TAssociacoes.empresa_nome associacoes in
      contratos_empresas <-
        for_extend empresas (fun empresa =>
          contratos_empresa <- gets (fun d => pesquisar_contratos d (por_adjudicataria empresa)) ;;
          let tipo :=
            match List.find (fun a => pystr_eqb (TAssociacoes.empresa_nome a) empresa)
                    associacoes with
            | Some a => TAssociacoes.tipo_relacao a
            | None => Some (str "desconhecido")
            end in
          ret (List.map (fun c => {| contrato_de := c;
                                     _empresa_associada := empresa;
                                     _tipo_associacao := tipo |}) contratos_empresa)) ;;
      let todos_contratos := contratos_diretos ++ List.map contrato_de contratos_empresas in
      valor_total <- lift (py_sum (List.map valor_da_linha todos_contratos)) ;;
      ret {| pessoa := nome_pessoa;
             contratos_diretos := contratos_diretos;
             contratos_empresas := contratos_empresas;
             empresas_associadas := empresas;
             total_contratos := len todos_contratos;
             valor_total := valor_total |}
  end.

(** *** The detection of conflicts of interest *)

(** A row of the join of [pessoas] with [cargos_politicos]: the columns of
    the person, and the [cargo] and [entidade] of one of its positions. *)
Record pessoa_politica := {
  pp_pessoa : TPessoas.t;
  pp_cargo : pystr;
  pp_entidade : option pystr
}.

Definition pessoa_eqb (p q : TPessoas.t) : bool :=
  (TPessoas.id p =? TPessoas.id q)
  && pystr_eqb (TPessoas.nome p) (TPessoas.nome q)
  && SQL.texto_eqb (TPessoas.cargo_politico p) (TPessoas.cargo_politico q)
  && SQL.texto_eqb (TPessoas.partido p) (TPessoas.partido q)
  && SQL.texto_eqb (TPessoas.funcao_atual p) (TPessoas.funcao_atual q)
  && SQL.texto_eqb (TPessoas.notas p) (TPessoas.notas q).

Definition pessoa_politica_eqb (a b : pessoa_politica) : bool :=
  pessoa_eqb (pp_pessoa a) (pp_pessoa b)
  && pystr_eqb (pp_cargo a) (pp_cargo b)
  && SQL.texto_eqb (pp_entidade a) (pp_entidade b).

(** [if pessoa_id:] for an argument that is None or an integer. *)
Definition id_dado (pessoa_id : option Z) : option Z :=
  match pessoa_id with
  | Some i => if i =? 0 then None else Some i
  | None => None
  end.

(** [SELECT DISTINCT p.*, c.cargo, c.entidade
     FROM pessoas p JOIN cargos_politicos c ON p.id = c.pessoa_id
     WHERE c.ativo = 1], with [p.id = ?] added when an id is given.  The
    rows are taken person by person, and position by position within (an
    order SQL leaves open). *)
Definition pessoas_politicas (d : db) (pessoa_id : option Z) : list pessoa_politica :=
  SQL.distinct pessoa_politica_eqb
    (List.flat_map
       (fun p =>
          List.map
            (fun c => {| pp_pessoa := p;
                         pp_cargo := TCargos.cargo c;
                         pp_entidade := TCargos.entidade c |})
            (List.filter
               (fun c => (TPessoas.id p =? TCargos.pessoa_id c) && (TCargos.ativo c =? 1))
               (cargos_politicos d)))
       (List.filter
          (fun p => match id_dado pessoa_id with
                    | Some i => TPessoas.id p =? i
                    | None => true
                    end)
          (pessoas d))).

(** A conflict dict. *)
Module Conflito.
Record t := {
  tipo : pystr;
  pessoa_id : Z;
  pessoa_nome : pystr;
  cargo : pystr;
  empresa : pystr;
  id_contrato : pystr;
  adjudicante : option pystr;
  valor : pyval;
  gravidade : gravidade;
  descricao : pystr
}.
End Conflito.

Definition entidades_publicas : list pystr :=
  List.map str ["câmara"; "junta"; "assembleia"; "governo"; "ministério";
                "instituto"; "agência"; "autarquia"; "município"; "freguesia"]%string.

Definition cargos_altos : list pystr :=
  List.map str ["ministro"; "secretário"; "presidente"; "deputado"]%string.

(** [dict(row).get(key, '').lower()] on a column that may be NULL. *)
Definition lower_da_coluna (coluna : option pystr) : result pystr :=
  match coluna with
  | Some s => Ok (lower s)
  | None => Raise AttributeError
  end.

(** What an f-string prints for a column. *)
Definition formatar (coluna : option pystr) : pystr :=
  match coluna with
  | Some s => s
  | None => str "None"
  end.

Definition proximo_id (tabela : list TConflitos.t) : Z :=
  1 + List.fold_right Z.max 0 (List.map TConflitos.id tabela).

(** The row with the person and the contract of the conflict is there. *)
Definition ja_registado (c : Conflito.t) (tabela : list TConflitos.t) : bool :=
  existsb (fun linha =>
             (TConflitos.pessoa_id linha =? Conflito.pessoa_id c)
             && pystr_eqb (TConflitos.id_contrato linha) (Conflito.id_contrato c))
    tabela.

Definition linha_do_conflito (c : Conflito.t) (tabela : list TConflitos.t) : TConflitos.t := {|
  TConflitos.id := proximo_id tabela;
  TConflitos.pessoa_id := Conflito.pessoa_id c;
  TConflitos.empresa_nome := Conflito.empresa c;
  TConflitos.id_contrato := Conflito.id_contrato c;
  TConflitos.tipo_conflito := Conflito.tipo c;
  TConflitos.descricao := Conflito.descricao c;
  TConflitos.gravidade := Conflito.gravidade c;
  TConflitos.verificado := 0
|}.

(** What [_registar_conflito] makes of the table. *)
Definition registar_na_tabela (c : Conflito.t) (tabela : list TConflitos.t)
  : list TConflitos.t :=
  if ja_registado c tabela then tabela else tabela ++ [linha_do_conflito c tabela].

Definition _registar_conflito (conflito : Conflito.t) : M db unit :=
  existe <- gets (fun d => ja_registado conflito (conflitos_interesse d)) ;;
  if existe : bool then ret tt
  else modify (fun d => com_conflitos d
                          (conflitos_interesse d
                           ++ [linha_do_conflito conflito (conflitos_interesse d)])).

Definition eh_entidade_publica (adjudicante : pystr) : bool :=
  existsb (fun kw => str_in kw adjudicante) entidades_publicas.

Definition eh_cargo_alto (cargo : pystr) : bool :=
  existsb (fun alto => str_in alto (lower cargo)) cargos_altos.

(** The severity, by three assignments in a row. *)
Definition determinar_gravidade (cargo entidade adjudicante : pystr) : gravidade :=
  let gravidade := media in
  let gravidade := if eh_cargo_alto cargo then alta else gravidade in
  let gravidade := if str_in entidade adjudicante then critica else gravidade in
  gravidade.

Definition descrever (pessoa : pessoa_politica) (assoc : TAssociacoes.t)
    (contrato : TContratos.t) : pystr :=
  TPessoas.nome (pp_pessoa pessoa) ++ str " (" ++ pp_cargo pessoa ++ str ") tem "
  ++ formatar (TAssociacoes.tipo_relacao assoc) ++ str " em "
  ++ TAssociacoes.empresa_nome assoc ++ str ", que tem contrato com "
  ++ formatar (TContratos.adjudicante contrato).

Definition fazer_conflito (pessoa : pessoa_politica) (assoc : TAssociacoes.t)
    (contrato : TContratos.t) (g : gravidade) : Conflito.t := {|
  Conflito.tipo := str "cargo_politico_empresa_contratos";
  Conflito.pessoa_id := TPessoas.id (pp_pessoa pessoa);
  Conflito.pessoa_nome := TPessoas.nome (pp_pessoa pessoa);
  Conflito.cargo := pp_cargo pessoa;
  Conflito.empresa := TAssociacoes.empresa_nome assoc;
  Conflito.id_contrato := TContratos.id_contrato contrato;
  Conflito.adjudicante := TContratos.adjudicante contrato;
  Conflito.valor := valor_da_linha contrato;
  Conflito.gravidade := g;
  Conflito.descricao := descrever pessoa assoc contrato
|}.

(** The body of the loop over the contracts of an associated company, up to
    the conflict dict it builds ([None]: the awarder is no public body). *)
Definition avaliar_contrato (pessoa : pessoa_politica) (assoc : TAssociacoes.t)
    (contrato : TContratos.t) : result (option Conflito.t) :=
  adjudicante <~ lower_da_coluna (TContratos.adjudicante contrato) ;;
  if eh_entidade_publica adjudicante then
    entidade <~ lower_da_coluna (pp_entidade pessoa) ;;
    let gravidade := determinar_gravidade (pp_cargo pessoa) entidade adjudicante in
    Ok (Some (fazer_conflito pessoa assoc contrato gravidade))
  else Ok None.

(** The whole body: the conflict is appended to the list and registered. *)
Definition conflito_do_contrato (pessoa : pessoa_politica) (assoc : TAssociacoes.t)
    (contrato : TContratos.t) : M db (list Conflito.t) :=
  avaliado <- lift (avaliar_contrato pessoa assoc contrato) ;;
  match avaliado with
  | Some conflito => _ <- _registar_conflito conflito ;; ret [conflito]
  | None => ret []
  end.

Definition conflitos_da_associacao (pessoa : pessoa_politica) (assoc : TAssociacoes.t)
  : M db (list Conflito.t) :=
  if TAssociacoes.ativo assoc =? 0 then ret []
  else
    let empresa := TAssociacoes.empresa_nome assoc in
    contratos <- gets (fun d => pesquisar_contratos d (por_adjudicataria empresa)) ;;
    for_extend contratos (conflito_do_contrato pessoa assoc).

Definition conflitos_da_pessoa (pessoa : pessoa_politica) : M db (list Conflito.t) :=
  associacoes <- gets (fun d => listar_associacoes_pessoa d (TPessoas.id (pp_pessoa pessoa))) ;;
  for_extend associacoes (conflitos_da_associacao pessoa).

Definition detectar_conflitos_interesse (pessoa_id : option Z) : M db (list Conflito.t) :=
  pessoas_politicas <- gets (fun d => pessoas_politicas d pessoa_id) ;;
  for_extend pessoas_politicas conflitos_da_pessoa.

(** *** What a run does to the table of conflicts *)

Definition par_da_linha (linha : TConflitos.t) : Z * pystr :=
  (TConflitos.pessoa_id linha, TConflitos.id_contrato linha).

(** At most one row for each pair of a person and a contract. *)
Definition um_por_par (tabela : list TConflitos.t) : Prop :=
  NoDup (List.map par_da_linha tabela).

(** The table after the conflicts of [cs] were registered, one after the
    other. *)
Definition registar_todos (cs : list Conflito.t) (tabela : list TConflitos.t)
  : list TConflitos.t :=
  List.fold_left (fun t c => registar_na_tabela c t) cs tabela.

(** [regista d0 m]: on the repository [d0], whatever its table of conflicts,
    the computation [m] has one and the same outcome, changes nothing but
    that table, and changes it by registering one and the same list of
    conflicts. *)
Definition regista (d0 : db) {A} (m : M db A) : Prop :=
  exists (r : result A) (cs : list Conflito.t),
    forall tabela,
      m (com_conflitos d0 tabela) = (r, com_conflitos d0 (registar_todos cs tabela)).

(** *** The conflicts of a run, read off the tables *)

(** [for x in l: acc.extend(body(x))] when the body has no effect. *)
Fixpoint for_extend_r {A B} (l : list A) (body : A -> result (list B)) : result (list B) :=
  match l with
  | [] => Ok []
  | x :: l' => r <~ body x ;; rs <~ for_extend_r l' body ;; Ok (r ++ rs)
  end.

Definition lista_de {A} (o : option A) : list A :=
  match o with
  | Some a => [a]
  | None => []
  end.

(** The contracts fetched for an association: none when it is not active. *)
Definition contratos_da_associacao (d : db) (assoc : TAssociacoes.t) : list TContratos.t :=
  if TAssociacoes.ativo assoc =? 0 then []
  else pesquisar_contratos d (por_adjudicataria (TAssociacoes.empresa_nome assoc)).

(** The outcome of [detectar_conflitos_interesse] without its writes. *)
Definition conflitos_encontrados (d : db) (pessoa_id : option Z) : result (list Conflito.t) :=
  for_extend_r (pessoas_politicas d pessoa_id) (fun pessoa =>
    for_extend_r (listar_associacoes_pessoa d (TPessoas.id (pp_pessoa pessoa))) (fun assoc =>
      for_extend_r (contratos_da_associacao d assoc) (fun contrato =>
        avaliado <~ avaliar_contrato pessoa assoc contrato ;;
        Ok (lista_de avaliado)))).

(** No contract without the name of its awarder, and no active position
    without the name of its entity: the two NULLs at which a run raises. *)
Definition sem_nulos (d : db) : Prop :=
  Forall (fun c => TContratos.adjudicante c <> None) (contratos d)
  /\ Forall (fun c => TCargos.ativo c = 1 -> TCargos.entidade c <> None) (cargos_politicos d).

(** The conflict is about this person and this contract. *)
Definition do_par (pessoa_id : Z) (id_contrato : pystr) (k : Conflito.t) : bool :=
  (Conflito.pessoa_id k =? pessoa_id) && pystr_eqb (Conflito.id_contrato k) id_contrato.

(** The awarder of the contract is a public body. *)
Definition adjudicante_publico (c : TContratos.t) : bool :=
  match TContratos.adjudicante c with
  | Some a => eh_entidade_publica (lower a)
  | None => false
  end.

(** The name [q] is part of the name [nome], whatever the case of the
    letters.  This is the match in the words of the specification (a
    case-insensitive substring), to be compared with the LIKE of
    [pesquisar_pessoa]. *)
Definition corresponde (q nome : pystr) : bool := str_in (lower q) (lower nome).

(** The name holds neither of the two wildcards of LIKE. *)
Definition sem_curingas (q : pystr) : Prop :=
  Forall (fun c => c <> 37%N /\ c <> 95%N) q.

(** The severity of the conflict of a joined row and a contract, from the
    names as they are (the empty name stands for a NULL). *)
Definition gravidade_do_par (pessoa : pessoa_politica) (contrato : TContratos.t) : gravidade :=
  determinar_gravidade (pp_cargo pessoa)
    (lower (default [] (pp_entidade pessoa)))
    (lower (default [] (TContratos.adjudicante contrato))).

(** The conflicts of one joined row when no NULL stops the run. *)
Definition conflitos_da_linha (d : db) (pessoa : pessoa_politica) : list Conflito.t :=
  List.flat_map
    (fun assoc =>
       List.flat_map
         (fun contrato =>
            if adjudicante_publico contrato
            then [fazer_conflito pessoa assoc contrato (gravidade_do_par pessoa contrato)]
            else [])
         (contratos_da_associacao d assoc))
    (listar_associacoes_pessoa d (TPessoas.id (pp_pessoa pessoa))).

(** The joined rows of one person among those of a run. *)
Definition linhas_da_pessoa (d : db) (pessoa_id : option Z) (pid : Z) : list pessoa_politica :=
  List.filter (fun pp => TPessoas.id (pp_pessoa pp) =? pid) (pessoas_politicas d pessoa_id).

(** The times a contract of a public body comes up among the contracts
    fetched for the associations of a person. *)
Definition ocorrencias_do_contrato (d : db) (pid : Z) (id_contrato : pystr)
  : list TContratos.t :=
  List.filter
    (fun c => pystr_eqb (TContratos.id_contrato c) id_contrato && adjudicante_publico c)
    (List.flat_map (contratos_da_associacao d) (listar_associacoes_pessoa d pid)).

(** *** The repository of the test suite (test_advanced_features.py) *)

Module ExemplosBD.

Definition contrato_teste (id adj adja : string) (v : Q) (tipo data : string)
  : TContratos.t := {|
  TContratos.id_contrato := str id;
  TContratos.adjudicante := Some (str adj);
  TContratos.adjudicante_nif := None;
  TContratos.adjudicataria := Some (str adja);
  TContratos.adjudicataria_nif := None;
  TContratos.valor := Some v;
  TContratos.data_contrato := Some (str data);
  TContratos.data_publicacao := None;
  TContratos.tipo_contrato := Some (str tipo);
  TContratos.tipo_procedimento := None;
  TContratos.descricao := None;
  TContratos.objeto_contrato := None
|}.

Definition ASSOC001 : TContratos.t :=
  contrato_teste "ASSOC001" "Câmara Municipal de Lisboa" "Construtora Silva & Filhos Lda"
    250000 "Empreitadas de Obras Públicas" "2024-01-15".

Definition ASSOC002 : TContratos.t :=
  contrato_teste "ASSOC002" "Junta de Freguesia de Belém" "Consultoria JPS Lda"
    50000 "Aquisição de Serviços" "2024-02-01".

Definition joao_silva : TPessoas.t := {|
  TPessoas.id := 1;
  TPessoas.nome := str "João Silva";
  TPessoas.cargo_politico := Some (str "Presidente da Câmara");
  TPessoas.partido := Some (str "Partido X");
  TPessoas.funcao_atual := Some (str "Presidente CM Lisboa");
  TPessoas.notas := Some []
|}.

Definition associacao_teste (id : Z) (empresa tipo : string) (percentagem : Q)
  : TAssociacoes.t := {|
  TAssociacoes.id := id;
  TAssociacoes.pessoa_id := 1;
  TAssociacoes.empresa_nome := str empresa;
  TAssociacoes.empresa_nif := Some [];
  TAssociacoes.tipo_relacao := Some (str tipo);
  TAssociacoes.percentagem_participacao := Some percentagem;
  TAssociacoes.data_inicio := None;
  TAssociacoes.data_fim := None;
  TAssociacoes.ativo := 1;
  TAssociacoes.fonte := Some (str "Registo Comercial");
  TAssociacoes.notas := Some []
|}.

Definition cargo_teste (id : Z) (cargo entidade : string) : TCargos.t := {|
  TCargos.id := id;
  TCargos.pessoa_id := 1;
  TCargos.cargo := str cargo;
  TCargos.entidade := Some (str entidade);
  TCargos.partido := Some (str "Partido X");
  TCargos.data_inicio := Some (str "2021-10-01");
  TCargos.data_fim := None;
  TCargos.ativo := 1
|}.

Definition presidente : TCargos.t :=
  cargo_teste 1 "Presidente da Câmara" "Câmara Municipal de Lisboa".

(** The repository of the test, with the given positions of João Silva. *)
Definition base_com (cargos : list TCargos.t) : db := {|
  contratos := [ASSOC001; ASSOC002];
  figuras_interesse := [];
  pessoas := [joao_silva];
  cargos_politicos := cargos;
  associacoes_pessoa_empresa :=
    [associacao_teste 1 "Construtora Silva & Filhos Lda" "dono" 60;
     associacao_teste 2 "Consultoria JPS Lda" "socio" 40];
  conflitos_interesse := []
|}.

Definition base : db := base_com [presidente].

(** João Silva sits in the national assembly as well. *)
Definition base_dois_cargos : db :=
  base_com [presidente; cargo_teste 2 "Deputado" "Assembleia da República"].

(** A first position that names no entity, as [adicionar_cargo_politico]
    records it when none is given, and the seat in the assembly. *)
Definition base_entidade_vazia : db :=
  base_com [cargo_teste 1 "Vereador" ""; cargo_teste 2 "Deputado" "Assembleia da República"].

(** The position that names no entity is the only one. *)
Definition base_so_entidade_vazia : db := base_com [cargo_teste 1 "Vereador" ""].

(** The joined row of João Silva and his position in [base]. *)
Definition linha_presidente : pessoa_politica := {|
  pp_pessoa := joao_silva;
  pp_cargo := str "Presidente da Câmara";
  pp_entidade := Some (str "Câmara Municipal de Lisboa")
|}.

End ExemplosBD.

(** ** Connections between entities (class EntitiesManager) *)

(** The dict ['contrato'] of a connection. *)
Record referencia := {
  ref_id : pystr;
  ref_descricao : option pystr;
  ref_valor : option Q;
  ref_data : option pystr
}.

(** A connection dict. *)
Module Conexao.
Record t := {
  origem_id : Z;
  destino_id : Z;
  destino_nome : pystr;
  tipo_conexao : pystr;
  nivel : Z;
  contrato : referencia
}.
End Conexao.

Definition entidade_de (nome nif : option pystr) (papel : string)
  : list (pystr * option pystr * pystr) :=
  match nome with
  | Some n => if nao_vazio n then [(n, nif, str papel)] else []
  | None => []
  end.

(** The named parties of a contract: (name, tax id, role). *)
Definition _extrair_entidades_contrato (contrato : TContratos.t)
  : list (pystr * option pystr * pystr) :=
  entidade_de (TContratos.adjudicante contrato) (TContratos.adjudicante_nif contrato)
    "adjudicante"
  ++ entidade_de (TContratos.adjudicataria contrato) (TContratos.adjudicataria_nif contrato)
       "adjudicataria".

(** The id of the first active figure whose name is that of the entity, the
    case of the letters apart. *)
Definition figura_com_nome (d : db) (entidade_nome : pystr) : option Z :=
  match List.find (fun fig => pystr_eqb (lower (TFiguras.nome fig)) (lower entidade_nome))
          (listar_figuras_interesse d true) with
  | Some fig => Some (TFiguras.id fig)
  | None => None
  end.

(** The connection a party of a contract gives, if any: the party is a
    figure, not the present one, and not visited. *)
Definition conexao_da_entidade (d : db) (visitados : gset Z) (atual_id nivel : Z)
    (contrato : TContratos.t) (entidade : pystr * option pystr * pystr)
  : list Conexao.t :=
  let '(entidade_nome, entidade_nif, papel) := entidade in
  match figura_com_nome d entidade_nome with
  | Some entidade_id =>
      if negb (entidade_id =? 0) && negb (entidade_id =? atual_id)
         && negb (bool_decide (entidade_id ∈ visitados))
      then [{| Conexao.origem_id := atual_id;
               Conexao.destino_id := entidade_id;
               Conexao.destino_nome := entidade_nome;
               Conexao.tipo_conexao := papel;
               Conexao.nivel := nivel + 1;
               Conexao.contrato :=
                 {| ref_id := TContratos.id_contrato contrato;
                    ref_descricao := TContratos.descricao contrato;
                    ref_valor := TContratos.valor contrato;
                    ref_data := TContratos.data_contrato contrato |} |}]
      else []
  | None => []
  end.

(** The two inner loops of [detetar_conexoes] for the figure taken from the
    queue: the connections they append, in order. *)
Definition explorar (d : db) (visitados : gset Z) (atual_id nivel : Z) : list Conexao.t :=
  List.flat_map
    (fun contrato =>
       List.flat_map (conexao_da_entidade d visitados atual_id nivel contrato)
         (_extrair_entidades_contrato contrato))
    (pesquisar_contratos_por_figura d atual_id).

Definition entrada : Type := Z * Z * option pystr.

(** What the loops append to the queue: an entry for each connection, when
    the next level is still within the depth. *)
Definition enfileirar (profundidade nivel : Z) (novas : list Conexao.t) : list entrada :=
  if nivel + 1 <? profundidade
  then List.map (fun k => (Conexao.destino_id k, nivel + 1,
                           Some (ref_id (Conexao.contrato k)))) novas
  else [].

(** The [while fila:] loop, bounded by [n] turns; [None] when the turns are
    used up before the queue is empty. *)
Fixpoint ciclo (d : db) (profundidade : Z) (n : nat) (conexoes : list Conexao.t)
    (visitados : gset Z) (fila : list entrada) : option (list Conexao.t) :=
  match n with
  | O => None
  | S n' =>
      match fila with
      | [] => Some conexoes
      | (atual_id, nivel, contrato_origem) :: fila' =>
          if bool_decide (atual_id ∈ visitados) || (profundidade <=? nivel)
          then ciclo d profundidade n' conexoes visitados fila'
          else
            let visitados' := visitados ∪ {[atual_id]} in
            let novas := explorar d visitados' atual_id nivel in
            ciclo d profundidade n' (conexoes ++ novas) visitados'
              (fila' ++ enfileirar profundidade nivel novas)
      end
  end.

(** The figures that can ever be in the queue. *)
Definition candidatos (d : db) (figura_id : Z) : gset Z :=
  {[figura_id]} ∪ list_to_set (List.map TFiguras.id (figuras_interesse d)).

Definition peso (d : db) : nat := (2 * List.length (contratos d))%nat.

(** Turns enough for every run of the loop from [figura_id]. *)
Definition voltas (d : db) (figura_id : Z) : nat :=
  (2 + peso d * size (candidatos d figura_id))%nat.

Definition detetar_conexoes (d : db) (figura_id : Z) (profundidade : Z)
  : option (list Conexao.t) :=
  ciclo d profundidade (voltas d figura_id) [] ∅ [(figura_id, 0, None)].

(** *** A repository with two figures that contract with each other *)

Module ExemplosFiguras.

Definition figura_teste (id : Z) (nome : string) : TFiguras.t := {|
  TFiguras.id := id;
  TFiguras.nome := str nome;
  TFiguras.nif := None;
  TFiguras.tipo := Some (str "empresa");
  TFiguras.cargo_governamental := None;
  TFiguras.partido := None;
  TFiguras.notas := Some [];
  TFiguras.ativo := 1
|}.

Definition base : db := {|
  contratos := [ExemplosBD.ASSOC001; ExemplosBD.ASSOC002];
  figuras_interesse :=
    [figura_teste 1 "Câmara Municipal de Lisboa";
     figura_teste 2 "Construtora Silva & Filhos Lda"];
  pessoas := [];
  cargos_politicos := [];
  associacoes_pessoa_empresa := [];
  conflitos_interesse := []
|}.

End ExemplosFiguras.

(** ** Further parts of the code, and what the properties about them need *)

(** *** Contract dicts on which the seven rules raise nothing *)

Definition texto_ou_ausente (f : option pyval) : Prop :=
  f = None \/ exists s, f = Some (PyStr s).

Definition numero_ou_ausente (f : option pyval) : Prop :=
  f = None \/ exists q, f = Some (PyNum q).

(** The date is absent, the empty string, or a date in the format of the
    rules whose two windows have an end. *)
Definition data_aceite (cfg : config) (f : option pyval) : Prop :=
  f = None \/ f = Some (PyStr [])
  \/ exists s d fim2 fim4,
       f = Some (PyStr s) /\ strptime_str s = Ok d
       /\ add_days d (janela_fracionamento_dias cfg) = Ok fim2
       /\ add_days d (janela_concentracao_dias cfg) = Ok fim4.

Record bem_formado (cfg : config) (c : contrato) : Prop := {
  bf_valor : numero_ou_ausente (valor c);
  bf_tipo_contrato : texto_ou_ausente (tipo_contrato c);
  bf_tipo_procedimento : texto_ou_ausente (tipo_procedimento c);
  bf_objeto_contrato : texto_ou_ausente (objeto_contrato c);
  bf_data_contrato : data_aceite cfg (data_contrato c)
}.

(** In the store [h], the computation returns a value that satisfies [Q]
    and leaves the store as it is. *)
Definition devolve (h : heap) {A} (Q : A -> Prop) (m : M heap A) : Prop :=
  exists a, m h = (Ok a, h) /\ Q a.

(** The date of the dict is true: rule 4 takes the contract. *)
Definition tem_data (c : contrato) : bool := truthy (get_ (data_contrato c)).

(** *** Further contract dicts *)

Module ExemplosNulos.

(** The dict of a row whose date is NULL. *)
Definition SEM_DATA : contrato := {|
  id_contrato := Some (PyStr (str "TEST008"));
  adjudicante := Some (PyStr (str "Câmara Municipal de Lisboa"));
  adjudicante_nif := Some PyNone;
  adjudicataria := Some (PyStr (str "Empresa Suspeita Lda"));
  adjudicataria_nif := Some PyNone;
  valor := Some (PyNum 74999);
  data_contrato := Some PyNone;
  data_publicacao := Some PyNone;
  tipo_contrato := Some (PyStr (str "Aquisição de Serviços"));
  tipo_procedimento := Some (PyStr (str "Ajuste Direto"));
  descricao := Some PyNone;
  objeto_contrato := Some (PyStr [])
|}.

(** A row of the table with the date: every column is a key. *)
Definition COM_DATA : contrato := {|
  id_contrato := Some (PyStr (str "TEST001"));
  adjudicante := Some (PyStr (str "Câmara Municipal de Lisboa"));
  adjudicante_nif := Some PyNone;
  adjudicataria := Some (PyStr (str "Empresa Suspeita Lda"));
  adjudicataria_nif := Some PyNone;
  valor := Some (PyNum 74999);
  data_contrato := Some (PyStr (str "2024-01-15"));
  data_publicacao := Some PyNone;
  tipo_contrato := Some (PyStr (str "Aquisição de Serviços"));
  tipo_procedimento := Some (PyStr (str "Ajuste Direto"));
  descricao := Some PyNone;
  objeto_contrato := Some (PyStr [])
|}.

(** A store whose first dict has the NULL date. *)
Definition um_nulo : heap :=
  fun r => match r with O => SEM_DATA | _ => COM_DATA end.

End ExemplosNulos.

(** *** The graph of connections (EntitiesManager.criar_grafo_conexoes) *)

Definition com_figuras (d : db) (tabela : list TFiguras.t) : db := {|
  contratos := contratos d;
  figuras_interesse := tabela;
  pessoas := pessoas d;
  cargos_politicos := cargos_politicos d;
  associacoes_pessoa_empresa := associacoes_pessoa_empresa d;
  conflitos_interesse := conflitos_interesse d
|}.

(** [UPDATE figuras_interesse SET ativo = 0 WHERE id = ?] *)
Definition desativar_figura_interesse (d : db) (figura_id : Z) : db :=
  com_figuras d
    (List.map
       (fun f =>
          if TFiguras.id f =? figura_id then
            {| TFiguras.id := TFiguras.id f;
               TFiguras.nome := TFiguras.nome f;
               TFiguras.nif := TFiguras.nif f;
               TFiguras.tipo := TFiguras.tipo f;
               TFiguras.cargo_governamental := TFiguras.cargo_governamental f;
               TFiguras.partido := TFiguras.partido f;
               TFiguras.notas := TFiguras.notas f;
               TFiguras.ativo := 0 |}
          else f)
       (figuras_interesse d)).

(** [obter_figura]: the first figure of the list of all, by name, that has
    the id. *)
Definition obter_figura (d : db) (figura_id : Z) : option TFiguras.t :=
  List.find (fun figura => TFiguras.id figura =? figura_id)
    (listar_figuras_interesse d false).

Module No.
Record t := {
  id : Z;
  label : pystr;
  tipo : option pystr;
  central : bool
}.
End No.

(** An edge dict; [de] and [para] are its keys 'from' and 'to'. *)
Module Aresta.
Record t := {
  de : Z;
  para : Z;
  label : pystr;
  valor : option Q;
  nivel : Z
}.
End Aresta.

Record grafo := {
  nodes : list No.t;
  edges : list Aresta.t
}.

Definition no_da_figura (id : Z) (figura : TFiguras.t) (central : bool) : No.t := {|
  No.id := id;
  No.label := TFiguras.nome figura;
  No.tipo := TFiguras.tipo figura;
  No.central := central
|}.

Definition aresta_da_conexao (conexao : Conexao.t) : Aresta.t := {|
  Aresta.de := Conexao.origem_id conexao;
  Aresta.para := Conexao.destino_id conexao;
  Aresta.label :=
    Conexao.tipo_conexao conexao ++ [10%N] ++ ref_id (Conexao.contrato conexao);
  Aresta.valor := ref_valor (Conexao.contrato conexao);
  Aresta.nivel := Conexao.nivel conexao
|}.

(** One turn of the loop over the connections, on the graph and the set
    [nodes_ids]. *)
Definition juntar_conexao (d : db) (estado : grafo * gset Z) (conexao : Conexao.t)
  : grafo * gset Z :=
  let '(g, nodes_ids) := estado in
  let destino := Conexao.destino_id conexao in
  let '(nos, ids) :=
    if bool_decide (destino ∈ nodes_ids) then (nodes g, nodes_ids)
    else
      match obter_figura d destino with
      | Some figura_destino =>
          (nodes g ++ [no_da_figura destino figura_destino false],
           nodes_ids ∪ {[destino]})
      | None => (nodes g, nodes_ids)
      end in
  ({| nodes := nos; edges := edges g ++ [aresta_da_conexao conexao] |}, ids).

Definition grafo_inicial (d : db) (figura_id : Z) : grafo * gset Z :=
  match obter_figura d figura_id with
  | Some figura_central =>
      ({| nodes := [no_da_figura figura_id figura_central true]; edges := [] |},
       {[figura_id]})
  | None => ({| nodes := []; edges := [] |}, ∅)
  end.

Definition criar_grafo_conexoes (d : db) (figura_id : Z) : option grafo :=
  match detetar_conexoes d figura_id 2 with
  | Some conexoes =>
      Some (fst (List.fold_left (juntar_conexao d) conexoes (grafo_inicial d figura_id)))
  | None => None
  end.

(** *** What the properties of the exploration say *)

(** The figure of a connection's destination: an active figure of that id
    whose name is the name of the party, the case of the letters apart. *)
Definition destino_ativo (d : db) (k : Conexao.t) : Prop :=
  exists figura,
    In figura (figuras_interesse d) /\ TFiguras.ativo figura = 1
    /\ TFiguras.id figura = Conexao.destino_id k
    /\ lower (TFiguras.nome figura) = lower (Conexao.destino_nome k).

(** A connection starts at the origin, at level 1, or where a connection of
    the level before ends. *)
Definition encadeada (figura_id : Z) (cs : list Conexao.t) (k : Conexao.t) : Prop :=
  (Conexao.origem_id k = figura_id /\ Conexao.nivel k = 1)
  \/ exists k', In k' cs /\ Conexao.destino_id k' = Conexao.origem_id k
                /\ Conexao.nivel k' + 1 = Conexao.nivel k.

(** An entry of the queue is the origin at level 0 or the end of a
    connection, at its level. *)
Definition entrada_encadeada (figura_id : Z) (cs : list Conexao.t) (e : entrada) : Prop :=
  (e.1.1 = figura_id /\ e.1.2 = 0)
  \/ exists k', In k' cs /\ Conexao.destino_id k' = e.1.1 /\ Conexao.nivel k' = e.1.2.

Definition tem_figura (d : db) (id : Z) : Prop :=
  exists figura, In figura (figuras_interesse d) /\ TFiguras.id figura = id.

(** The set [nodes_ids] holds the ids of the nodes, each once. *)
Definition ids_dos_nos (estado : grafo * gset Z) : Prop :=
  (forall x, x ∈ estado.2 <-> In x (List.map No.id (nodes estado.1)))
  /\ List.NoDup (List.map No.id (nodes estado.1)).

(** ** The analysis of the contracts of a figure
       (EntitiesManager.analisar_contratos_figura) *)

Module Analise.
Record t := {
  figura : TFiguras.t;
  total_contratos : Z;
  valor_total : Q;
  como_adjudicante : Z;
  como_adjudicataria : Z;
  contratos_recentes : list TContratos.t;
  top_parceiros : list (pystr * Z);
  distribuicao_anos : list (pystr * Z);
  tipos_contrato : list (option pystr * Z)
}.
End Analise.

(** [d[k] = d.get(k, 0) + n] on a dict of counts, kept as the list of its
    items in the order of insertion. *)
Fixpoint somar_em {K} (eqb : K -> K -> bool) (k : K) (n : Z) (l : list (K * Z))
  : list (K * Z) :=
  match l with
  | [] => [(k, n)]
  | (k', m) :: l' =>
      if eqb k k' then (k', m + n) :: l' else (k', m) :: somar_em eqb k n l'
  end.

(** [a == b] on two columns read from a row. *)
Definition coluna_eqb (a b : option pystr) : bool :=
  match a, b with
  | None, None => true
  | Some x, Some y => pystr_eqb x y
  | _, _ => false
  end.

(** A column as a sort key. *)
Definition chave_de_texto (coluna : option pystr) : pyval :=
  match coluna with
  | Some s => PyStr s
  | None => PyNone
  end.

(** [sorted(l, key=..., reverse=True)] on the keys already computed: the
    list is reversed, sorted and reversed again, which keeps the order of
    the elements that tie. *)
Definition sorted_reverse {A} (l : list (pyval * A)) : result (list A) :=
  s <~ sort_by_key (List.rev l) ;;
  Ok (List.rev s).

(** The counters of the loop: the dict [analise] and the two defaultdicts. *)
Record contadores := {
  analise : Analise.t;
  parceiros_adjudicante : list (pystr * Z);
  parceiros_adjudicataria : list (pystr * Z)
}.

(** [nome_figura in nome or (nif_figura and nif_figura == nif)], as the
    [if] takes it. *)
Definition eh_parte (nome_figura : pystr) (nif_figura : option pystr)
    (nome : pystr) (nif : option pystr) : bool :=
  str_in nome_figura nome
  || match nif_figura with
     | Some n => nao_vazio n && coluna_eqb (Some n) nif
     | None => false
     end.

(** [if contrato.get(key): parceiros[contrato[key]] += 1] *)
Definition contar_parceiro (coluna : option pystr) (parceiros : list (pystr * Z))
  : list (pystr * Z) :=
  match coluna with
  | Some nome => if nao_vazio nome then somar_em pystr_eqb nome 1 parceiros else parceiros
  | None => parceiros
  end.

(** The body of the loop over the contracts. *)
Definition contar_contrato (figura : TFiguras.t) (s : contadores) (contrato : TContratos.t)
  : contadores :=
  let a := analise s in
  let nome_figura := lower (TFiguras.nome figura) in
  let nif_figura := TFiguras.nif figura in
  let adjudicante := lower (default [] (TContratos.adjudicante contrato)) in
  let adjudicataria := lower (default [] (TContratos.adjudicataria contrato)) in
  let eh_adjudicante :=
    eh_parte nome_figura nif_figura adjudicante (TContratos.adjudicante_nif contrato) in
  let eh_adjudicataria :=
    eh_parte nome_figura nif_figura adjudicataria (TContratos.adjudicataria_nif contrato) in
  {| analise := {|
       Analise.figura := Analise.figura a;
       Analise.total_contratos := Analise.total_contratos a;
       Analise.valor_total :=
         match TContratos.valor contrato with
         | Some v => if Qeq_bool v 0 then Analise.valor_total a
                     else (Analise.valor_total a + v)%Q
         | None => Analise.valor_total a
         end;
       Analise.como_adjudicante :=
         if eh_adjudicante then Analise.como_adjudicante a + 1
         else Analise.como_adjudicante a;
       Analise.como_adjudicataria :=
         if eh_adjudicataria then Analise.como_adjudicataria a + 1
         else Analise.como_adjudicataria a;
       Analise.contratos_recentes := Analise.contratos_recentes a;
       Analise.top_parceiros := Analise.top_parceiros a;
       Analise.distribuicao_anos :=
         match TContratos.data_contrato contrato with
         | Some data =>
             if nao_vazio data
             then somar_em pystr_eqb (take 4 data) 1 (Analise.distribuicao_anos a)
             else Analise.distribuicao_anos a
         | None => Analise.distribuicao_anos a
         end;
       Analise.tipos_contrato :=
         somar_em coluna_eqb (TContratos.tipo_contrato contrato) 1
           (Analise.tipos_contrato a)
     |};
     parceiros_adjudicante :=
       if eh_adjudicataria
       then contar_parceiro (TContratos.adjudicante contrato) (parceiros_adjudicante s)
       else parceiros_adjudicante s;
     parceiros_adjudicataria :=
       if eh_adjudicante
       then contar_parceiro (TContratos.adjudicataria contrato) (parceiros_adjudicataria s)
       else parceiros_adjudicataria s
  |}.

Definition contadores_iniciais (figura : TFiguras.t) (contratos : list TContratos.t)
  : contadores := {|
  analise := {|
    Analise.figura := figura;
    Analise.total_contratos := len contratos;
    Analise.valor_total := 0;
    Analise.como_adjudicante := 0;
    Analise.como_adjudicataria := 0;
    Analise.contratos_recentes := [];
    Analise.top_parceiros := [];
    Analise.distribuicao_anos := [];
    Analise.tipos_contrato := []
  |};
  parceiros_adjudicante := [];
  parceiros_adjudicataria := []
|}.

(** The two loops that fill [todos_parceiros]. *)
Definition todos_parceiros (s : contadores) : list (pystr * Z) :=
  List.fold_left (fun todos p => somar_em pystr_eqb (fst p) (snd p) todos)
    (parceiros_adjudicataria s)
    (List.fold_left (fun todos p => somar_em pystr_eqb (fst p) (snd p) todos)
       (parceiros_adjudicante s) []).

(** [analisar_contratos_figura(figura_id)]; [None] is the empty dict
    returned when no figure has the id. *)
Definition analisar_contratos_figura (d : db) (figura_id : Z)
  : result (option Analise.t) :=
  match obter_figura d figura_id with
  | None => Ok None
  | Some figura =>
      let contratos := pesquisar_contratos_por_figura d figura_id in
      let s := List.fold_left (contar_contrato figura) contratos
                 (contadores_iniciais figura contratos) in
      contratos_ordenados <~
        sorted_reverse
          (List.map (fun x => (chave_de_texto (TContratos.data_contrato x), x)) contratos) ;;
      top <~
        sorted_reverse
          (List.map (fun x => (PyNum (inject_Z (snd x)), x)) (todos_parceiros s)) ;;
      let a := analise s in
      Ok (Some {|
        Analise.figura := Analise.figura a;
        Analise.total_contratos := Analise.total_contratos a;
        Analise.valor_total := Analise.valor_total a;
        Analise.como_adjudicante := Analise.como_adjudicante a;
        Analise.como_adjudicataria := Analise.como_adjudicataria a;
        Analise.contratos_recentes := take 10 contratos_ordenados;
        Analise.top_parceiros := take 5 top;
        Analise.distribuicao_anos := Analise.distribuicao_anos a;
        Analise.tipos_contrato := Analise.tipos_contrato a
      |})
  end.

(** The sum of the counts of a dict. *)
Definition soma_contagens {K} (l : list (K * Z)) : Z :=
  List.fold_right (fun p acc => snd p + acc) 0 l.

(** The ids of the figures are a key of the table. *)
Definition ids_unicos (d : db) : Prop :=
  List.NoDup (List.map TFiguras.id (figuras_interesse d)).

(** The figure counted as one of the parties of a contract. *)
Definition em_algum_papel (figura : TFiguras.t) (contrato : TContratos.t) : bool :=
  eh_parte (lower (TFiguras.nome figura)) (TFiguras.nif figura)
    (lower (default [] (TContratos.adjudicante contrato)))
    (TContratos.adjudicante_nif contrato)
  || eh_parte (lower (TFiguras.nome figura)) (TFiguras.nif figura)
       (lower (default [] (TContratos.adjudicataria contrato)))
       (TContratos.adjudicataria_nif contrato).

(** ** Insertion of contracts (DatabaseManager.inserir_contrato and
       ContratosPublicosScraper.processar_lote_contratos) *)

(** A contract dict as the scraper builds it: under each key a string (a
    number under 'valor', an integer under 'prazo_execucao'), or None, which
    is also what [.get] gives for a key the dict does not have. *)
Module Dados.
Record t := {
  id_contrato : option pystr;
  adjudicante : option pystr;
  adjudicante_nif : option pystr;
  adjudicataria : option pystr;
  adjudicataria_nif : option pystr;
  valor : option Q;
  data_contrato : option pystr;
  data_publicacao : option pystr;
  tipo_contrato : option pystr;
  tipo_procedimento : option pystr;
  descricao : option pystr;
  objeto_contrato : option pystr;
  distrito : option pystr;
  concelho : option pystr;
  cpv : option pystr;
  prazo_execucao : option Z;
  link_base : option pystr
}.
End Dados.

Definition com_contratos (d : db) (tabela : list TContratos.t) : db := {|
  contratos := tabela;
  figuras_interesse := figuras_interesse d;
  pessoas := pessoas d;
  cargos_politicos := cargos_politicos d;
  associacoes_pessoa_empresa := associacoes_pessoa_empresa d;
  conflitos_interesse := conflitos_interesse d
|}.

(** The row the INSERT writes, in the columns the analyses read, when the
    dict is one the table holds as given ([guardado_como_dado] below). *)
Definition linha_do_contrato (id : pystr) (contrato : Dados.t) : TContratos.t := {|
  TContratos.id_contrato := id;
  TContratos.adjudicante := Dados.adjudicante contrato;
  TContratos.adjudicante_nif := Dados.adjudicante_nif contrato;
  TContratos.adjudicataria := Dados.adjudicataria contrato;
  TContratos.adjudicataria_nif := Dados.adjudicataria_nif contrato;
  TContratos.valor := Dados.valor contrato;
  TContratos.data_contrato := Dados.data_contrato contrato;
  TContratos.data_publicacao := Dados.data_publicacao contrato;
  TContratos.tipo_contrato := Dados.tipo_contrato contrato;
  TContratos.tipo_procedimento := Dados.tipo_procedimento contrato;
  TContratos.descricao := Dados.descricao contrato;
  TContratos.objeto_contrato := Dados.objeto_contrato contrato
|}.

(** [inserir_contrato]: the column id_contrato is NOT NULL and UNIQUE, and
    the IntegrityError of a row that breaks either is caught and answered
    with False.  This is the call on a dict whose values can all be bound:
    on another the binding raises an exception that is no sqlite3.Error
    and leaves the method. *)
Definition inserir_contrato (contrato : Dados.t) (d : db) : bool * db :=
  match Dados.id_contrato contrato with
  | None => (false, d)
  | Some id =>
      if existsb (fun linha => pystr_eqb (TContratos.id_contrato linha) id) (contratos d)
      then (false, d)
      else (true, com_contratos d (contratos d ++ [linha_do_contrato id contrato]))
  end.

(** [SELECT * FROM contratos WHERE id_contrato = ?], [fetchone]. *)
Definition obter_contrato_por_id (d : db) (id_contrato : pystr) : option TContratos.t :=
  List.find (fun linha => pystr_eqb (TContratos.id_contrato linha) id_contrato)
    (contratos d).

(** [validar_contrato]: the only required key is 'id_contrato'. *)
Definition validar_contrato (contrato : Dados.t) : bool :=
  match Dados.id_contrato contrato with
  | Some id => nao_vazio id
  | None => false
  end.

Module Stats.
Record t := {
  total : Z;
  inseridos : Z;
  duplicados : Z;
  invalidos : Z
}.
End Stats.

(** The body of the loop of [processar_lote_contratos]. *)
Definition processar_contrato (estado : Stats.t * db) (contrato : Dados.t) : Stats.t * db :=
  let '(stats, d) := estado in
  if negb (validar_contrato contrato) then
    ({| Stats.total := Stats.total stats;
        Stats.inseridos := Stats.inseridos stats;
        Stats.duplicados := Stats.duplicados stats;
        Stats.invalidos := Stats.invalidos stats + 1 |}, d)
  else
    let '(inserido, d') := inserir_contrato contrato d in
    if inserido then
      ({| Stats.total := Stats.total stats;
          Stats.inseridos := Stats.inseridos stats + 1;
          Stats.duplicados := Stats.duplicados stats;
          Stats.invalidos := Stats.invalidos stats |}, d')
    else
      ({| Stats.total := Stats.total stats;
          Stats.inseridos := Stats.inseridos stats;
          Stats.duplicados := Stats.duplicados stats + 1;
          Stats.invalidos := Stats.invalidos stats |}, d').

Definition processar_lote_contratos (contratos : list Dados.t) (d : db) : Stats.t * db :=
  List.fold_left processar_contrato contratos
    ({| Stats.total := len contratos;
        Stats.inseridos := 0;
        Stats.duplicados := 0;
        Stats.invalidos := 0 |}, d).

(** The ids of the contracts are a key of the table. *)
Definition contratos_unicos (d : db) : Prop :=
  List.NoDup (List.map TContratos.id_contrato (contratos d)).

Module ExemplosLote.

Definition dados_teste (id : option pystr) (v : Q) : Dados.t := {|
  Dados.id_contrato := id;
  Dados.adjudicante := Some (str "Câmara Municipal de Lisboa");
  Dados.adjudicante_nif := None;
  Dados.adjudicataria := Some (str "Empresa Suspeita Lda");
  Dados.adjudicataria_nif := None;
  Dados.valor := Some v;
  Dados.data_contrato := Some (str "2024-01-15");
  Dados.data_publicacao := None;
  Dados.tipo_contrato := Some (str "Aquisição de Serviços");
  Dados.tipo_procedimento := Some (str "Ajuste Direto");
  Dados.descricao := None;
  Dados.objeto_contrato := None;
  Dados.distrito := Some (str "Lisboa");
  Dados.concelho := Some (str "Lisboa");
  Dados.cpv := None;
  Dados.prazo_execucao := Some 30;
  Dados.link_base := None
|}.

(** A batch with a contract given twice, one without id and one whose id
    is in the table already. *)
Definition lote : list Dados.t :=
  [dados_teste (Some (str "TEST001")) 74999;
   dados_teste None 10;
   dados_teste (Some (str "TEST001")) 74999;
   dados_teste (Some (str "ASSOC001")) 20;
   dados_teste (Some (str "TEST004")) 50000].

End ExemplosLote.

(** ** People and positions (AssociationsManager.adicionar_pessoa and
       adicionar_cargo_politico) *)

Definition com_pessoas (d : db) (tabela : list TPessoas.t) : db := {|
  contratos := contratos d;
  figuras_interesse := figuras_interesse d;
  pessoas := tabela;
  cargos_politicos := cargos_politicos d;
  associacoes_pessoa_empresa := associacoes_pessoa_empresa d;
  conflitos_interesse := conflitos_interesse d
|}.

Definition com_cargos (d : db) (tabela : list TCargos.t) : db := {|
  contratos := contratos d;
  figuras_interesse := figuras_interesse d;
  pessoas := pessoas d;
  cargos_politicos := tabela;
  associacoes_pessoa_empresa := associacoes_pessoa_empresa d;
  conflitos_interesse := conflitos_interesse d
|}.

(** [cursor.lastrowid] of an INSERT into a table with the given ids: no row
    is ever deleted, so the next id is one more than the greatest. *)
Definition lastrowid (ids : list Z) : Z := 1 + List.fold_right Z.max 0 ids.

(** [adicionar_pessoa]: the column nome is UNIQUE; the IntegrityError of a
    second row of the name is caught, and the id of the first row of that
    name is returned. *)
Definition adicionar_pessoa (nome : pystr)
    (cargo_politico partido funcao_atual notas : option pystr) (d : db) : Z * db :=
  match List.find (fun p => pystr_eqb (TPessoas.nome p) nome) (pessoas d) with
  | Some row => (TPessoas.id row, d)
  | None =>
      let pessoa_id := lastrowid (List.map TPessoas.id (pessoas d)) in
      (pessoa_id,
       com_pessoas d
         (pessoas d ++ [{| TPessoas.id := pessoa_id;
                           TPessoas.nome := nome;
                           TPessoas.cargo_politico := cargo_politico;
                           TPessoas.partido := partido;
                           TPessoas.funcao_atual := funcao_atual;
                           TPessoas.notas := notas |}]))
  end.

(** [1 if not data_fim else 0] *)
Definition ativo_sem_fim (data_fim : option pystr) : Z :=
  match data_fim with
  | Some s => if nao_vazio s then 0 else 1
  | None => 1
  end.

(** [adicionar_cargo_politico] *)
Definition adicionar_cargo_politico (pessoa_id : Z) (cargo : pystr)
    (entidade partido data_inicio data_fim : option pystr) (d : db) : Z * db :=
  let id := lastrowid (List.map TCargos.id (cargos_politicos d)) in
  (id,
   com_cargos d
     (cargos_politicos d ++ [{| TCargos.id := id;
                                TCargos.pessoa_id := pessoa_id;
                                TCargos.cargo := cargo;
                                TCargos.entidade := entidade;
                                TCargos.partido := partido;
                                TCargos.data_inicio := data_inicio;
                                TCargos.data_fim := data_fim;
                                TCargos.ativo := ativo_sem_fim data_fim |}])).

(** The names of the people are a key of the table, and so are the ids. *)
Definition pessoas_unicas (d : db) : Prop :=
  List.NoDup (List.map TPessoas.nome (pessoas d))
  /\ List.NoDup (List.map TPessoas.id (pessoas d)).

(** ** Figures of interest (DatabaseManager.adicionar_figura_interesse) *)

(** What a call gives: the id it returns, or the IntegrityError it raises
    again. *)
Inductive adicionada :=
| Adicionada (figura_id : Z)
| IntegrityError.

(** [CHECK(tipo IN ('pessoa', 'empresa', 'entidade_publica'))]; a NULL
    passes a CHECK. *)
Definition tipo_aceite (tipo : option pystr) : bool :=
  match tipo with
  | Some t => existsb (pystr_eqb t) (List.map str ["pessoa"; "empresa"; "entidade_publica"]%string)
  | None => true
  end.

(** The row stands against [UNIQUE(nome, nif)]: no NULL equals another. *)
Definition mesma_figura (nome : pystr) (nif : option pystr) (f : TFiguras.t) : bool :=
  pystr_eqb (TFiguras.nome f) nome
  && match nif with
     | Some n => SQL.eq_null n (TFiguras.nif f)
     | None => false
     end.

(** [WHERE nome = ? AND (nif = ? OR (nif IS NULL AND ? IS NULL))] *)
Definition figura_existente (nome : pystr) (nif : option pystr) (f : TFiguras.t) : bool :=
  pystr_eqb (TFiguras.nome f) nome
  && match nif with
     | Some n => SQL.eq_null n (TFiguras.nif f)
     | None => match TFiguras.nif f with None => true | Some _ => false end
     end.

Definition adicionar_figura_interesse (nome : pystr) (nif tipo notas : option pystr)
    (cargo_governamental partido : option pystr) (d : db) : adicionada * db :=
  if tipo_aceite tipo && negb (existsb (mesma_figura nome nif) (figuras_interesse d)) then
    let figura_id := lastrowid (List.map TFiguras.id (figuras_interesse d)) in
    (Adicionada figura_id,
     com_figuras d
       (figuras_interesse d ++ [{| TFiguras.id := figura_id;
                                   TFiguras.nome := nome;
                                   TFiguras.nif := nif;
                                   TFiguras.tipo := tipo;
                                   TFiguras.cargo_governamental := cargo_governamental;
                                   TFiguras.partido := partido;
                                   TFiguras.notas := notas;
                                   TFiguras.ativo := 1 |}]))
  else
    match List.find (figura_existente nome nif) (figuras_interesse d) with
    | Some row => (Adicionada (TFiguras.id row), d)
    | None => (IntegrityError, d)
    end.

(** ** The analysis of the whole table (analisar_todos_contratos) *)

(** [dict(row)]: every column is a key of the dict, and a NULL is None. *)
Definition valor_da_coluna (coluna : option pystr) : option pyval :=
  Some (chave_de_texto coluna).

Definition dict_da_linha (linha : TContratos.t) : contrato := {|
  id_contrato := Some (PyStr (TContratos.id_contrato linha));
  adjudicante := valor_da_coluna (TContratos.adjudicante linha);
  adjudicante_nif := valor_da_coluna (TContratos.adjudicante_nif linha);
  adjudicataria := valor_da_coluna (TContratos.adjudicataria linha);
  adjudicataria_nif := valor_da_coluna (TContratos.adjudicataria_nif linha);
  valor := Some (valor_da_linha linha);
  data_contrato := valor_da_coluna (TContratos.data_contrato linha);
  data_publicacao := valor_da_coluna (TContratos.data_publicacao linha);
  tipo_contrato := valor_da_coluna (TContratos.tipo_contrato linha);
  tipo_procedimento := valor_da_coluna (TContratos.tipo_procedimento linha);
  descricao := valor_da_coluna (TContratos.descricao linha);
  objeto_contrato := valor_da_coluna (TContratos.objeto_contrato linha)
|}.

Definition dict_vazio : contrato := {|
  id_contrato := None;
  adjudicante := None;
  adjudicante_nif := None;
  adjudicataria := None;
  adjudicataria_nif := None;
  valor := None;
  data_contrato := None;
  data_publicacao := None;
  tipo_contrato := None;
  tipo_procedimento := None;
  descricao := None;
  objeto_contrato := None
|}.

(** The store with the dicts of the rows fetched, the n-th at the reference
    n; no other reference is read. *)
Definition dicts_das_linhas (linhas : list TContratos.t) : heap :=
  fun r =>
    match List.nth_error linhas r with
    | Some linha => dict_da_linha linha
    | None => dict_vazio
    end.

(** The dict of filters [{}]. *)
Definition sem_filtros : filtros :=
  {| filtro_adjudicante := None; filtro_adjudicataria := None |}.

(** [analisar_todos_contratos]; [cfg] is the configuration of the detector:
    the one given or, when none is, the default one. *)
Definition analisar_todos_contratos (cfg : config) (d : db) : result (list padrao) :=
  let contratos := pesquisar_contratos d sem_filtros in
  fst (analisar_contratos cfg (List.seq 0 (List.length contratos))
         (dicts_das_linhas contratos)).

(** ** The list of conflicts (AssociationsManager.listar_conflitos) *)

(** The TEXT the column gravidade holds. *)
Definition texto_da_gravidade (g : gravidade) : pystr :=
  match g with
  | baixa => str "baixa"
  | media => str "media"
  | alta => str "alta"
  | critica => str "critica"
  end.

(** A row of the join: the conflict, and the two columns of its person. *)
Record conflito_listado := {
  cl_conflito : TConflitos.t;
  cl_pessoa_nome : pystr;
  cl_cargo_politico : option pystr
}.

Section ListarConflitos.

(** The column data_detecao, which the clock of the database fills and
    the rows of the model leave out. *)
Variable data_detecao : TConflitos.t -> pystr.

(** [ORDER BY c.gravidade DESC, c.data_detecao DESC] *)
Definition gravidade_data_desc (y x : conflito_listado) : bool :=
  let gy := texto_da_gravidade (TConflitos.gravidade (cl_conflito y)) in
  let gx := texto_da_gravidade (TConflitos.gravidade (cl_conflito x)) in
  pystr_ltb gx gy
  || (pystr_eqb gx gy
      && pystr_ltb (data_detecao (cl_conflito x)) (data_detecao (cl_conflito y))).

(** [SELECT c.*, p.nome as pessoa_nome, p.cargo_politico
     FROM conflitos_interesse c JOIN pessoas p ON c.pessoa_id = p.id],
    with [WHERE c.verificado = 0] when only the conflicts not verified are
    asked for. *)
Definition listar_conflitos (d : db) (apenas_nao_verificados : bool)
  : list conflito_listado :=
  SQL.order_by gravidade_data_desc
    (List.flat_map
       (fun c =>
          List.map
            (fun p => {| cl_conflito := c;
                         cl_pessoa_nome := TPessoas.nome p;
                         cl_cargo_politico := TPessoas.cargo_politico p |})
            (List.filter (fun p => TConflitos.pessoa_id c =? TPessoas.id p) (pessoas d)))
       (List.filter
          (fun c => negb apenas_nao_verificados || (TConflitos.verificado c =? 0))
          (conflitos_interesse d))).

End ListarConflitos.

(** The place of a severity in the list: 'media' first, then 'critica',
    'baixa' and 'alta'. *)
Definition lugar_na_lista (g : gravidade) : Z :=
  match g with
  | media => 0
  | critica => 1
  | baixa => 2
  | alta => 3
  end.

(** The rows [pesquisar_contratos] selects. *)
Definition selecionado (f : filtros) (c : TContratos.t) : bool :=
  filtro_like (filtro_adjudicante f) (TContratos.adjudicante c)
  && filtro_like (filtro_adjudicataria f) (TContratos.adjudicataria c).

(** ** What a conflict found stands on *)

(** The conflict [k] is founded in the repository: the person holds an
    active position of that name, has an association that is not ended with
    the company, and a contract of the table awarded by a public body goes
    to a party whose name the query matches with the company's. *)
Definition fundado (d : db) (k : Conflito.t) : Prop :=
  exists cargo assoc contrato,
    In cargo (cargos_politicos d)
    /\ TCargos.ativo cargo = 1
    /\ TCargos.pessoa_id cargo = Conflito.pessoa_id k
    /\ TCargos.cargo cargo = Conflito.cargo k
    /\ In assoc (associacoes_pessoa_empresa d)
    /\ TAssociacoes.pessoa_id assoc = Conflito.pessoa_id k
    /\ TAssociacoes.ativo assoc <> 0
    /\ TAssociacoes.empresa_nome assoc = Conflito.empresa k
    /\ In contrato (contratos d)
    /\ TContratos.id_contrato contrato = Conflito.id_contrato k
    /\ adjudicante_publico contrato = true
    /\ filtro_like (Some (Conflito.empresa k)) (TContratos.adjudicataria contrato) = true.

(** A repository in which João Silva has an association without the name
    of the company. *)
Module ExemplosEmpresaVazia.

Definition base : db := {|
  contratos := [ExemplosBD.ASSOC001; ExemplosBD.ASSOC002];
  figuras_interesse := [];
  pessoas := [ExemplosBD.joao_silva];
  cargos_politicos := [ExemplosBD.presidente];
  associacoes_pessoa_empresa := [ExemplosBD.associacao_teste 1 "" "outro" 0];
  conflitos_interesse := []
|}.

End ExemplosEmpresaVazia.

(** ** The queue of the exploration *)

(** The queue holds the entries of one level and then those of the next. *)
Definition fila_por_niveis (fila : list entrada) : Prop :=
  exists m A B,
    fila = A ++ B
    /\ Forall (fun e : entrada => e.1.2 = m) A
    /\ Forall (fun e : entrada => e.1.2 = m + 1) B.

(** The entries of the queue that a run to the depth [p] would hold. *)
Definition ate_ao_nivel (p : Z) (fila : list entrada) : list entrada :=
  List.filter (fun e : entrada => e.1.2 <? p) fila.

(** ** Alerts (AlertsManager.verificar_novos_contratos and
       DatabaseManager.criar_alerta)

    The table alertas is a state of its own beside the repository.  The
    column id_contrato is declared TEXT: it holds a string or None as the
    dict gives it (a number it would hold as text: the batches of the
    properties below have none). *)

Module TAlertas.
Record t := {
  id : Z;
  id_contrato : pyval;
  figura_interesse_id : Z;
  tipo_alerta : pystr;
  mensagem : pystr;
  lido : Z
}.
End TAlertas.

(** An alert dict of the list returned. *)
Module Alerta.
Record t := {
  id : Z;
  figura : pystr;
  contrato_id : pyval;
  tipo : pystr;
  mensagem : pystr
}.
End Alerta.

(** [_determinar_tipo_alerta] *)
Definition _determinar_tipo_alerta (contrato : contrato) : result pystr :=
  valor <~ py_num (get (valor contrato) (PyNum 0)) ;;
  Ok (if Qlt_bool 500000 valor then str "alto_valor" else str "normal").

(** [nome_figura in nome or (nif_figura and nif_figura == nif)], as the
    [if] takes it. *)
Definition figura_envolvida (figura : TFiguras.t) (nome : pystr) (nif : pyval) : bool :=
  str_in (lower (TFiguras.nome figura)) nome
  || match TFiguras.nif figura with
     | Some n => nao_vazio n && py_eqb (PyStr n) nif
     | None => false
     end.

(** [' e '.join(papel)] *)
Definition papel_str (match_adjudicante match_adjudicataria : bool) : pystr :=
  match match_adjudicante, match_adjudicataria with
  | true, true => str "adjudicante e adjudicatária"
  | true, false => str "adjudicante"
  | false, true => str "adjudicatária"
  | false, false => []
  end.

Section Alertas.

(** Whether SQLite refuses the INSERT with an sqlite3.Error (the file is
    locked or cannot be written, the disk is full), which the tables do
    not tell. *)
Variable erro_sqlite : list TAlertas.t -> pyval -> Z -> pystr -> pystr -> bool.

(** [criar_alerta]: the row is written with lido at its default 0, and its
    id is returned; an sqlite3.Error is answered with -1. *)
Definition criar_alerta (id_contrato : pyval) (figura_interesse_id : Z)
    (tipo_alerta mensagem : pystr) : M (list TAlertas.t) Z :=
  tabela <- gets (fun t => t) ;;
  if erro_sqlite tabela id_contrato figura_interesse_id tipo_alerta mensagem
  then ret (-1)
  else
    let alerta_id := lastrowid (List.map TAlertas.id tabela) in
    _ <- modify (fun t => t ++ [{| TAlertas.id := alerta_id;
                                   TAlertas.id_contrato := id_contrato;
                                   TAlertas.figura_interesse_id := figura_interesse_id;
                                   TAlertas.tipo_alerta := tipo_alerta;
                                   TAlertas.mensagem := mensagem;
                                   TAlertas.lido := 0 |}]) ;;
    ret alerta_id.

(** [_criar_mensagem_alerta], whose text prints a float: the message it
    gives for a contract, a figure and a role, or what it raises. *)
Variable _criar_mensagem_alerta : contrato -> TFiguras.t -> pystr -> result pystr.

(** The body of the loop over the figures. *)
Definition verificar_figura (contrato : contrato) (adjudicante adjudicataria : pystr)
    (adjudicante_nif adjudicataria_nif : pyval) (figura : TFiguras.t)
  : M (list TAlertas.t) (list Alerta.t) :=
  let match_adjudicante := figura_envolvida figura adjudicante adjudicante_nif in
  let match_adjudicataria := figura_envolvida figura adjudicataria adjudicataria_nif in
  if match_adjudicante || match_adjudicataria then
    mensagem <- lift (_criar_mensagem_alerta contrato figura
                        (papel_str match_adjudicante match_adjudicataria)) ;;
    tipo_alerta <- lift (_determinar_tipo_alerta contrato) ;;
    id_contrato <- lift (index (id_contrato contrato)) ;;
    alerta_id <- criar_alerta id_contrato (TFiguras.id figura) tipo_alerta mensagem ;;
    if 0 <? alerta_id then
      ret [{| Alerta.id := alerta_id;
              Alerta.figura := TFiguras.nome figura;
              Alerta.contrato_id := id_contrato;
              Alerta.tipo := tipo_alerta;
              Alerta.mensagem := mensagem |}]
    else ret []
  else ret [].

Definition _verificar_contrato_individual (contrato : contrato)
    (figuras : list TFiguras.t) : M (list TAlertas.t) (list Alerta.t) :=
  adjudicante <- lift (py_lower (py_or (get_ (adjudicante contrato)) (PyStr []))) ;;
  adjudicataria <- lift (py_lower (py_or (get_ (adjudicataria contrato)) (PyStr []))) ;;
  let adjudicante_nif := get (adjudicante_nif contrato) (PyStr []) in
  let adjudicataria_nif := get (adjudicataria_nif contrato) (PyStr []) in
  for_extend figuras
    (verificar_figura contrato adjudicante adjudicataria adjudicante_nif adjudicataria_nif).

Definition verificar_novos_contratos (d : db) (contratos_novos : list contrato)
  : M (list TAlertas.t) (list Alerta.t) :=
  match listar_figuras_interesse d true with
  | [] => ret []
  | figuras =>
      for_extend contratos_novos
        (fun contrato => _verificar_contrato_individual contrato figuras)
  end.

End Alertas.

(** The row is the one written for the alert: for a contract of the batch
    and an active figure that is a party to it, of a type that tells whether
    the value is above 500 000, and not read yet. *)
Definition linha_do_alerta (d : db) (contratos_novos : list contrato)
    (linha : TAlertas.t) (alerta : Alerta.t) : Prop :=
  TAlertas.id linha = Alerta.id alerta
  /\ TAlertas.id_contrato linha = Alerta.contrato_id alerta
  /\ TAlertas.tipo_alerta linha = Alerta.tipo alerta
  /\ TAlertas.mensagem linha = Alerta.mensagem alerta
  /\ TAlertas.lido linha = 0
  /\ exists contrato figura v,
       In contrato contratos_novos
       /\ In figura (listar_figuras_interesse d true)
       /\ TAlertas.figura_interesse_id linha = TFiguras.id figura
       /\ Alerta.figura alerta = TFiguras.nome figura
       /\ id_contrato contrato = Some (Alerta.contrato_id alerta)
       /\ get (valor contrato) (PyNum 0) = PyNum v
       /\ Alerta.tipo alerta
          = (if Qlt_bool 500000 v then str "alto_valor" else str "normal")
       /\ exists nome1 nome2,
            py_lower (py_or (get_ (adjudicante contrato)) (PyStr [])) = Ok nome1
            /\ py_lower (py_or (get_ (adjudicataria contrato)) (PyStr [])) = Ok nome2
            /\ (figura_envolvida figura nome1 (get (adjudicante_nif contrato) (PyStr []))
                || figura_envolvida figura nome2
                     (get (adjudicataria_nif contrato) (PyStr []))) = true.

(** [cresce Q m]: the computation [m] only adds rows to the table, also
    when it raises, and [Q] holds of the rows added and of its value when
    it returns one. *)
Definition cresce {A} (Q : list TAlertas.t -> A -> Prop) (m : M (list TAlertas.t) A) : Prop :=
  forall t, exists novas,
    snd (m t) = t ++ novas /\ forall a, fst (m t) = Ok a -> Q novas a.

(** ** Inputs that Python and SQLite take as the model does

    The model folds the case of the letters of ASCII and Latin-1 only, reads
    a LIKE pattern whole and of any length, keeps in a column the text that
    was written to it, binds every value and prints every number.  Python
    and SQLite do the same on the inputs described here, and otherwise on
    others:
    - [str.lower] folds every cased letter of Unicode, and the capital
      sigma by its place in the word;
    - LIKE reads its pattern and its text up to the first NUL, and refuses
      a pattern of more than 50 000 bytes (OperationalError);
    - a string with a surrogate code point cannot be bound
      (UnicodeEncodeError), nor an integer outside 64 bits (OverflowError),
      and neither exception is an sqlite3.Error;
    - the columns data_contrato and data_publicacao are declared DATE and
      have NUMERIC affinity: a text that reads as a number is stored as
      that number; the column valor is declared REAL and holds a float;
    - a format [:,.2f] raises OverflowError on an integer that no float
      holds.
    The properties that depend on one of these assume the inputs below. *)

(** The string is written with the characters of Latin-1, on which
    [str.lower] is [lower]. *)
Definition latin1 (s : pystr) : bool := forallb (fun c => (c <? 256)%N) s.

(** A code point that UTF-8 encodes: any but the surrogates. *)
Definition escalar (c : N) : bool :=
  ((c <? 55296) || ((57344 <=? c) && (c <=? 1114111)))%N.

Definition sem_substitutos (s : pystr) : bool := forallb escalar s.

Definition sem_nul (s : pystr) : bool := forallb (fun c => negb (c =? 0)%N) s.

(** [len(s.encode('utf-8'))] *)
Definition bytes_utf8 (s : pystr) : Z :=
  List.fold_right
    (fun c n => (if (c <? 128)%N then 1
                 else if (c <? 2048)%N then 2
                 else if (c <? 65536)%N then 3 else 4) + n)
    0 s.

(** SQLITE_MAX_LIKE_PATTERN_LENGTH, in bytes. *)
Definition limite_padrao_like : Z := 50000.

(** The pattern ['%' + s + '%'] is one LIKE takes, and takes whole. *)
Definition padrao_aceite (s : pystr) : bool :=
  sem_nul s && sem_substitutos s && (bytes_utf8 s + 2 <=? limite_padrao_like).

(** A property of the text of a column, when it has one. *)
Definition na_coluna (p : pystr -> bool) (coluna : option pystr) : bool :=
  match coluna with
  | Some s => p s
  | None => true
  end.

Definition algarismo (c : N) : bool := ((48 <=? c) && (c <=? 57))%N.

(** Somewhere in the string, a digit is followed by [-] or [/]: so are the
    dates written with either, and no number. *)
Fixpoint algarismo_e_separador (s : pystr) : bool :=
  match s with
  | a :: ((b :: _) as r) =>
      (algarismo a && ((b =? 45) || (b =? 47))%N) || algarismo_e_separador r
  | _ => false
  end.

(** A column of NUMERIC affinity keeps the text as text: it is empty, or a
    date as above. *)
Definition fica_texto (s : pystr) : bool :=
  match s with
  | [] => true
  | _ => algarismo_e_separador s
  end.

(** A float holds the number exactly: it is [m / 2^k] with [m] below 2^53
    and [k] up to 1074.  (Enough for it, not needed: 2^60 is held too.) *)
Definition guardado_exato (q : Q) : bool :=
  let r := Qred q in
  let k := Z.log2 (Zpos (Qden r)) in
  (Z.abs (Qnum r) <? 2 ^ 53) && (Zpos (Qden r) =? 2 ^ k) && (k <=? 1074).

(** The tables hold what the queries of the model read: no NUL in the names
    LIKE is applied to, dates kept as text, and the names that are made
    patterns (of the figures and of the companies of the associations) are
    patterns LIKE takes. *)
Definition bd_fiel (d : db) : bool :=
  forallb (fun c => na_coluna sem_nul (TContratos.adjudicante c)
                    && na_coluna sem_nul (TContratos.adjudicataria c)
                    && na_coluna fica_texto (TContratos.data_contrato c)
                    && na_coluna fica_texto (TContratos.data_publicacao c))
    (contratos d)
  && forallb (fun f => padrao_aceite (TFiguras.nome f)) (figuras_interesse d)
  && forallb (fun p => sem_nul (TPessoas.nome p)) (pessoas d)
  && forallb (fun a => padrao_aceite (TAssociacoes.empresa_nome a))
       (associacoes_pessoa_empresa d).

(** The names whose case the code folds are written in Latin-1: the parties
    to the contracts, the offices and their entities, the figures. *)
Definition nomes_latinos (d : db) : bool :=
  forallb (fun c => na_coluna latin1 (TContratos.adjudicante c)
                    && na_coluna latin1 (TContratos.adjudicataria c))
    (contratos d)
  && forallb (fun c => latin1 (TCargos.cargo c) && na_coluna latin1 (TCargos.entidade c))
       (cargos_politicos d)
  && forallb (fun f => latin1 (TFiguras.nome f)) (figuras_interesse d).

(** A value or a row of at most SQLITE_MAX_LENGTH (10^9) bytes is stored;
    this is the share of one text among the seventeen columns. *)
Definition limite_texto : Z := 50000000.

(** The text can be bound and stored. *)
Definition texto_ligavel (coluna : option pystr) : bool :=
  na_coluna (fun s => sem_substitutos s && (bytes_utf8 s <=? limite_texto)) coluna.

(** The INSERT of [inserir_contrato] binds every value of the dict, and the
    row holds them as the dict gives them. *)
Definition guardado_como_dado (c : Dados.t) : bool :=
  texto_ligavel (Dados.id_contrato c)
  && texto_ligavel (Dados.adjudicante c)
  && texto_ligavel (Dados.adjudicante_nif c)
  && texto_ligavel (Dados.adjudicataria c)
  && texto_ligavel (Dados.adjudicataria_nif c)
  && match Dados.valor c with
     | Some q => guardado_exato q
     | None => true
     end
  && texto_ligavel (Dados.data_contrato c)
  && na_coluna fica_texto (Dados.data_contrato c)
  && texto_ligavel (Dados.data_publicacao c)
  && na_coluna fica_texto (Dados.data_publicacao c)
  && texto_ligavel (Dados.tipo_contrato c)
  && texto_ligavel (Dados.tipo_procedimento c)
  && texto_ligavel (Dados.descricao c)
  && texto_ligavel (Dados.objeto_contrato c)
  && texto_ligavel (Dados.distrito c)
  && texto_ligavel (Dados.concelho c)
  && texto_ligavel (Dados.cpv c)
  && match Dados.prazo_execucao c with
     | Some n => Z.abs n <? 2 ^ 63
     | None => true
     end
  && texto_ligavel (Dados.link_base c).

(** *** Numbers the findings can print *)

(** Below it, an integer is converted to a float without overflow. *)
Definition limite_de_float : Q := inject_Z (2 ^ 1023).

(** [abs(q)] *)
Definition modulo (q : Q) : Q := if Qle_bool 0 q then q else (- q)%Q.

Definition modulo_do_valor (c : contrato) : Q :=
  match valor c with
  | Some (PyNum q) => modulo q
  | _ => 0%Q
  end.

Definition soma_dos_modulos (h : heap) (contratos : list ref) : Q :=
  List.fold_right (fun r s => (modulo_do_valor (h r) + s)%Q) 0%Q contratos.

(** The two margins of the configuration and every sum of values of the
    contracts are numbers the descriptions of the findings print with
    [:,.2f], and that [/] divides. *)
Definition numeros_formataveis (cfg : config) (contratos : list ref) (h : heap) : bool :=
  Qlt_bool (modulo (margem_suspeita_percentagem cfg)) limite_de_float
  && Qlt_bool (modulo (margem_alta_suspeita_percentagem cfg)) limite_de_float
  && Qlt_bool (soma_dos_modulos h contratos) limite_de_float.

(** *** Contract dicts of a batch for the alerts *)

Definition texto_latino (f : option pyval) : bool :=
  match f with
  | Some (PyStr s) => latin1 s
  | _ => true
  end.

(** The id under 'id_contrato' is a string that can be bound, which the
    column (declared TEXT) holds as it is, or None; the names of the two
    parties are written in Latin-1. *)
Definition contrato_de_alerta (c : contrato) : bool :=
  match id_contrato c with
  | Some (PyStr s) => sem_substitutos s && (bytes_utf8 s <=? limite_texto)
  | Some PyNone => true
  | Some (PyNum _) => false
  | None => true
  end
  && texto_latino (adjudicante c)
  && texto_latino (adjudicataria c).

(** *** A repository with a NULL date *)

Module ExemplosFieis.

(** A second contract of the chamber, whose date is NULL. *)
Definition SEM_DATA : TContratos.t := {|
  TContratos.id_contrato := str "ASSOC003";
  TContratos.adjudicante := Some (str "Câmara Municipal de Lisboa");
  TContratos.adjudicante_nif := None;
  TContratos.adjudicataria := Some (str "Consultoria JPS Lda");
  TContratos.adjudicataria_nif := None;
  TContratos.valor := Some 50000%Q;
  TContratos.data_contrato := None;
  TContratos.data_publicacao := None;
  TContratos.tipo_contrato := Some (str "Aquisição de Serviços");
  TContratos.tipo_procedimento := Some (str "Ajuste Direto");
  TContratos.descricao := None;
  TContratos.objeto_contrato := None
|}.

Definition base_com_nulo : db :=
  com_contratos ExemplosFiguras.base [ExemplosBD.ASSOC001; SEM_DATA].

End ExemplosFieis.

(** * Properties *)

(** ** The legal thresholds *)

Lemma get_limite_por_categoria (tipo : pystr) :
  LimitesLegais.get_limite_ajuste_direto tipo
    = LimitesLegais.ajuste_direto (LimitesLegais.categoria_de tipo)
  /\ LimitesLegais.get_limite_consulta_previa tipo
    = LimitesLegais.consulta_previa (LimitesLegais.categoria_de tipo).
Proof.
  unfold LimitesLegais.get_limite_ajuste_direto,
    LimitesLegais.get_limite_consulta_previa, LimitesLegais.categoria_de.
  destruct (LimitesLegais.eh_obra tipo); split; reflexivity.
Qed.

(** C1, as stated, fails: for goods and services the prior-consultation
    ceiling (214 000) is not below the EU ceiling (140 000). *)
Lemma C1_cadeia_falha_bens_servicos :
  ~ LimitesLegais.cadeia_estrita LimitesLegais.BensServicos.
Proof.
  unfold LimitesLegais.cadeia_estrita. cbn. intros [_ H]. discriminate H.
Qed.

(** C1, amended: the constants have the stated values; in both categories the
    direct-award ceiling is strictly below the prior-consultation ceiling and
    below the EU ceiling (also through the two lookups, for every contract
    type); the prior-consultation ceiling is below the EU ceiling for works
    only, and for goods and services the EU ceiling lies strictly between the
    other two. *)
Theorem C1_limites_legais :
  (LimitesLegais.ajuste_direto LimitesLegais.BensServicos = 75000
   /\ LimitesLegais.ajuste_direto LimitesLegais.Obras = 150000
   /\ LimitesLegais.consulta_previa LimitesLegais.BensServicos = 214000
   /\ LimitesLegais.consulta_previa LimitesLegais.Obras = 548000
   /\ LimitesLegais.limite_ue LimitesLegais.BensServicos = 140000
   /\ LimitesLegais.limite_ue LimitesLegais.Obras = 5382000)
  /\ (forall c, LimitesLegais.ajuste_direto c < LimitesLegais.consulta_previa c)
  /\ (forall c, LimitesLegais.ajuste_direto c < LimitesLegais.limite_ue c)
  /\ (forall tipo, LimitesLegais.get_limite_ajuste_direto tipo
                   < LimitesLegais.get_limite_consulta_previa tipo)
  /\ LimitesLegais.cadeia_estrita LimitesLegais.Obras
  /\ (LimitesLegais.ajuste_direto LimitesLegais.BensServicos
      < LimitesLegais.limite_ue LimitesLegais.BensServicos
      < LimitesLegais.consulta_previa LimitesLegais.BensServicos).
Proof.
  assert (Hc : forall c, LimitesLegais.ajuste_direto c < LimitesLegais.consulta_previa c)
    by (intros []; reflexivity).
  repeat split; try reflexivity; try exact Hc.
  - intros []; reflexivity.
  - intros tipo. destruct (get_limite_por_categoria tipo) as [-> ->]. apply Hc.
Qed.

(** ** The monad *)

Lemma bind_ok {S A B} (m : M S A) (f : A -> M S B) (s s' : S) (a : A) :
  m s = (Ok a, s') -> bind m f s = f a s'.
Proof. intros H. unfold bind. rewrite H. reflexivity. Qed.

Lemma bind_raise {S A B} (m : M S A) (f : A -> M S B) (s s' : S) (e : exn) :
  m s = (Raise e, s') -> bind m f s = (Raise e, s').
Proof. intros H. unfold bind. rewrite H. reflexivity. Qed.

Lemma for_extend_um {S A B} (body : A -> M S (list B)) (x : A) (s s' : S) (l : list B) :
  body x s = (Ok l, s') -> for_extend [x] body s = (Ok l, s').
Proof.
  intros H. cbn [for_extend]. rewrite (bind_ok _ _ _ _ _ H).
  unfold bind, ret. rewrite app_nil_r. reflexivity.
Qed.

Lemma ler_e_calcular {A} (f : contrato -> result A) (r : ref) (h : heap) :
  (c <- read r ;; lift (f c)) h = (f (h r), h).
Proof. reflexivity. Qed.

(** ** Rule 1 *)

Lemma limites_bens_servicos (s : pystr) :
  LimitesLegais.eh_obra s = false ->
  limite_ajuste_direto (PyStr s) = Ok 75000 /\ limite_consulta_previa (PyStr s) = Ok 214000.
Proof.
  intros H. unfold limite_ajuste_direto, limite_consulta_previa,
    LimitesLegais.get_limite_ajuste_direto, LimitesLegais.get_limite_consulta_previa.
  rewrite H. split; reflexivity.
Qed.

Lemma valores_suspeitos_74999 (c : contrato) (s p : pystr) :
  get (tipo_contrato c) (PyStr []) = PyStr s ->
  LimitesLegais.eh_obra s = false ->
  get (tipo_procedimento c) (PyStr []) = PyStr p ->
  valor c = Some (PyNum 74999) ->
  valores_suspeitos_contrato _get_default_config c
  = Ok [valor_suspeito_limite alta (get_ (id_contrato c)) 74999 75000 1 (100 # 75000) (lower p)].
Proof.
  intros Ht Hs Hp Hv. unfold valores_suspeitos_contrato.
  rewrite Ht, Hp, Hv. destruct (limites_bens_servicos s Hs) as [-> ->].
  cbn [get py_lower py_num rbind].
  destruct (str_in (str "ajuste") (lower p)); reflexivity.
Qed.

Lemma valores_suspeitos_50000 (c : contrato) (s p : pystr) :
  get (tipo_contrato c) (PyStr []) = PyStr s ->
  LimitesLegais.eh_obra s = false ->
  get (tipo_procedimento c) (PyStr []) = PyStr p ->
  valor c = Some (PyNum 50000) ->
  valores_suspeitos_contrato _get_default_config c = Ok [].
Proof.
  intros Ht Hs Hp Hv. unfold valores_suspeitos_contrato.
  rewrite Ht, Hp, Hv. destruct (limites_bens_servicos s Hs) as [-> ->].
  reflexivity.
Qed.

(** C6: under rule 1 with the default configuration, a goods-and-services
    contract of value 74 999 yields one finding, of severity [alta] whatever
    its procedure (the shortfall 1 is within 1% of the ceiling), and one of
    value 50 000 yields none (it is below the ceiling less 5%). *)
Theorem C6_valor_proximo_do_limite (h : heap) (r : ref) (s p : pystr) :
  get (tipo_contrato (h r)) (PyStr []) = PyStr s ->
  LimitesLegais.eh_obra s = false ->
  get (tipo_procedimento (h r)) (PyStr []) = PyStr p ->
  (valor (h r) = Some (PyNum 74999) ->
   exists f,
     _detectar_valores_suspeitos _get_default_config [r] h = (Ok [f], h)
     /\ padrao_tipo f = "valor_suspeito_limite"%string
     /\ padrao_gravidade f = alta)
  /\ (valor (h r) = Some (PyNum 50000) ->
      _detectar_valores_suspeitos _get_default_config [r] h = (Ok [], h))
  /\ (inject_Z (LimitesLegais.get_limite_ajuste_direto s) - 74999
      <= inject_Z (LimitesLegais.get_limite_ajuste_direto s)
         * (margem_alta_suspeita_percentagem _get_default_config / 100))%Q
  /\ (50000 < inject_Z (LimitesLegais.get_limite_ajuste_direto s)
              - inject_Z (LimitesLegais.get_limite_ajuste_direto s)
                * (margem_suspeita_percentagem _get_default_config / 100))%Q.
Proof.
  intros Ht Hs Hp. split; [|split; [|split]].
  - intros Hv. eexists. split; [|split].
    + apply for_extend_um. rewrite ler_e_calcular.
      rewrite (valores_suspeitos_74999 _ s p Ht Hs Hp Hv). reflexivity.
    + reflexivity.
    + reflexivity.
  - intros Hv. apply for_extend_um. rewrite ler_e_calcular.
    rewrite (valores_suspeitos_50000 _ s p Ht Hs Hp Hv). reflexivity.
  - unfold LimitesLegais.get_limite_ajuste_direto. rewrite Hs. discriminate.
  - unfold LimitesLegais.get_limite_ajuste_direto. rewrite Hs. reflexivity.
Qed.

Lemma C6_witness :
  (exists f,
     _detectar_valores_suspeitos _get_default_config [0%nat] (Exemplos.so Exemplos.TEST001)
       = (Ok [f], Exemplos.so Exemplos.TEST001)
     /\ padrao_tipo f = "valor_suspeito_limite"%string
     /\ padrao_gravidade f = alta)
  /\ _detectar_valores_suspeitos _get_default_config [0%nat] (Exemplos.so Exemplos.TEST004)
       = (Ok [], Exemplos.so Exemplos.TEST004).
Proof.
  split.
  - apply (C6_valor_proximo_do_limite (Exemplos.so Exemplos.TEST001) 0%nat
             (str "Aquisição de Serviços") (str "Ajuste Direto"));
      reflexivity.
  - apply (C6_valor_proximo_do_limite (Exemplos.so Exemplos.TEST004) 0%nat
             (str "Aquisição de Serviços") (str "Ajuste Direto"));
      reflexivity.
Defined.

(** ** One contract through the seven rules *)

Lemma agrupar_um {K} (eqb : K -> K -> bool) (chave : contrato -> result K)
    (r : ref) (h : heap) (k : K) :
  chave (h r) = Ok k ->
  agrupar eqb chave [r] [] h = (Ok [(k, [r])], h).
Proof.
  intros Hk. cbn [agrupar]. unfold bind, read, gets, lift. rewrite Hk. reflexivity.
Qed.

Lemma fracionamento_um (r : ref) (h : heap) (o : pystr) :
  get (objeto_contrato (h r)) (PyStr []) = PyStr o ->
  _detectar_fracionamento _get_default_config [r] h = (Ok [], h).
Proof.
  intros Ho. unfold _detectar_fracionamento.
  erewrite bind_ok; [|apply agrupar_um; unfold par4_de; rewrite Ho; reflexivity].
  reflexivity.
Qed.

Lemma repetidos_um (r : ref) (h : heap) :
  _detectar_contratos_repetidos _get_default_config [r] h = (Ok [], h).
Proof.
  unfold _detectar_contratos_repetidos.
  erewrite bind_ok; [|apply agrupar_um; reflexivity].
  reflexivity.
Qed.

Lemma concentracao_um (r : ref) (h : heap) :
  data_utilizavel 30 (h r) ->
  _detectar_concentracao_temporal _get_default_config [r] h = (Ok [], h).
Proof.
  unfold data_utilizavel, _detectar_concentracao_temporal, get_.
  intros [Hf | (d & fim & Hd & Hfim)].
  - cbn [for_filter]. unfold bind, read, gets, ret, get_. rewrite Hf. reflexivity.
  - destruct (data_contrato (h r)) as [v|] eqn:Hv; [|discriminate Hd].
    cbn [get] in Hd.
    assert (Ht : truthy v = true).
    { destruct v as [| q | s]; try discriminate Hd.
      destruct s; [discriminate Hd | reflexivity]. }
    cbn [for_filter]. unfold bind at 1 2 3. unfold read, gets, ret, get_.
    rewrite Hv. cbn [get]. rewrite Ht.
    unfold bind at 1. unfold ordenar, for_map, bind, read, gets, lift, ret.
    rewrite Hv. cbn [index sort_by_key List.length Nat.ltb Nat.leb List.map snd].
    cbn [janelas_concentracao]. unfold bind, read, gets, lift.
    rewrite Hv. cbn [index]. rewrite Hd.
    cbn [janela_concentracao_dias _get_default_config]. rewrite Hfim.
    unfold na_janela. cbn [for_filter andb]. unfold bind, read, gets, lift, ret.
    rewrite Hv. cbn [index]. rewrite Hd.
    destruct (toordinal d <=? fim); reflexivity.
Qed.

Lemma valores_redondos_74999 (c : contrato) :
  valor c = Some (PyNum 74999) ->
  valores_redondos_contrato _get_default_config c
  = Ok [valor_exato_suspeito (get_ (id_contrato c)) (PyNum 74999);
        valor_calculado_suspeito (get_ (id_contrato c)) 74999 75000].
Proof. intros Hv. unfold valores_redondos_contrato. rewrite Hv. reflexivity. Qed.

Lemma procedimento_inadequado_74999 (c : contrato) (s p : pystr) :
  get (tipo_contrato c) (PyStr []) = PyStr s ->
  LimitesLegais.eh_obra s = false ->
  get (tipo_procedimento c) (PyStr []) = PyStr p ->
  valor c = Some (PyNum 74999) ->
  procedimento_inadequado_contrato c = Ok [].
Proof.
  intros Ht Hs Hp Hv. unfold procedimento_inadequado_contrato.
  rewrite Ht, Hp, Hv. destruct (limites_bens_servicos s Hs) as [-> ->].
  cbn [get py_lower py_num rbind].
  destruct (pystr_eqb (lower p) []); [reflexivity|].
  destruct (str_in (str "ajuste") (lower p)), (str_in (str "consulta") (lower p));
    reflexivity.
Qed.

Lemma vesperas_feriados_regra (c : contrato) :
  Forall (fun f => padrao_regra f = 7) (vesperas_feriados_contrato c).
Proof.
  unfold vesperas_feriados_contrato.
  destruct (negb _); [constructor|].
  destruct (strptime _) as [d|e]; [|constructor].
  apply Forall_app. split.
  - destruct (weekday d =? 4); repeat constructor.
  - destruct (existsb _ _); repeat constructor.
Qed.

(** Rule 7 raises on no input: what its [try] block raises is caught. *)
Lemma vesperas_feriados_retorna (contratos : list ref) (h : heap) :
  exists ps, _detectar_vesperas_feriados contratos h = (Ok ps, h).
Proof.
  unfold _detectar_vesperas_feriados.
  induction contratos as [|r l [ps IH]]; [eexists; reflexivity|].
  eexists. cbn [for_extend].
  erewrite bind_ok; [|reflexivity].
  erewrite bind_ok; [|exact IH].
  reflexivity.
Qed.

(** C3, as stated, fails: the contract TEST001 of the test suite (goods and
    services, 74 999) alone gives three findings with the default
    configuration, not two. *)
Lemma C3_tres_padroes_nao_dois :
  ~ exists l,
      fst (analisar_contratos _get_default_config [0%nat] (Exemplos.so Exemplos.TEST001))
        = Ok l
      /\ List.length l = 2%nat.
Proof.
  intros (l & Hl & Hlen).
  assert (E : fst (analisar_contratos _get_default_config [0%nat]
                     (Exemplos.so Exemplos.TEST001))
              = Ok [valor_suspeito_limite alta (PyStr (str "TEST001")) 74999 75000 1
                      (100 # 75000) (str "ajuste direto");
                    valor_exato_suspeito (PyStr (str "TEST001")) (PyNum 74999);
                    valor_calculado_suspeito (PyStr (str "TEST001")) 74999 75000])
    by (vm_compute; reflexivity).
  rewrite E in Hl. injection Hl as <-. discriminate Hlen.
Qed.

(** C3, amended: a single goods-and-services contract of value 74 999, whose
    text fields are strings or absent and whose date is false (absent, None
    or empty) or a date in the format YYYY-MM-DD, written with the digits of
    ASCII and no later than 9999-12-01, so that the 30 days of the window of
    rule 4 end within the calendar,
    gives with the default configuration one finding of rule 1 and two
    findings of rule 5 (the exact value of the fixed list, and the value
    computed 1 below 75 000); rules 2, 3, 4 and 6 give none, and what
    follows are the findings of rule 7 on its date. *)
Theorem C3_valor_74999 (h : heap) (r : ref) (s p o : pystr) :
  valor (h r) = Some (PyNum 74999) ->
  get (tipo_contrato (h r)) (PyStr []) = PyStr s ->
  LimitesLegais.eh_obra s = false ->
  get (tipo_procedimento (h r)) (PyStr []) = PyStr p ->
  get (objeto_contrato (h r)) (PyStr []) = PyStr o ->
  data_utilizavel 30 (h r) ->
  analisar_contratos _get_default_config [r] h
  = (Ok ([valor_suspeito_limite alta (get_ (id_contrato (h r))) 74999 75000 1
            (100 # 75000) (lower p);
          valor_exato_suspeito (get_ (id_contrato (h r))) (PyNum 74999);
          valor_calculado_suspeito (get_ (id_contrato (h r))) 74999 75000]
         ++ vesperas_feriados_contrato (h r)), h)
  /\ Forall (fun f => padrao_regra f = 7) (vesperas_feriados_contrato (h r)).
Proof.
  intros Hv Ht Hs Hp Ho Hd. split; [|apply vesperas_feriados_regra].
  unfold analisar_contratos, quando.
  cbn [detectar_valores_suspeitos detectar_fracionamento detectar_contratos_repetidos
       detectar_concentracao_temporal detectar_valores_redondos
       detectar_procedimento_inadequado detectar_vesperas_feriados _get_default_config].
  erewrite bind_ok.
  2:{ apply for_extend_um. rewrite ler_e_calcular.
      rewrite (valores_suspeitos_74999 _ s p Ht Hs Hp Hv). reflexivity. }
  erewrite bind_ok; [|apply (fracionamento_um r h o Ho)].
  erewrite bind_ok; [|apply repetidos_um].
  erewrite bind_ok; [|apply (concentracao_um r h Hd)].
  erewrite bind_ok.
  2:{ apply for_extend_um. rewrite ler_e_calcular.
      rewrite (valores_redondos_74999 _ Hv). reflexivity. }
  erewrite bind_ok.
  2:{ apply for_extend_um. rewrite ler_e_calcular.
      rewrite (procedimento_inadequado_74999 _ s p Ht Hs Hp Hv). reflexivity. }
  erewrite bind_ok; [|apply for_extend_um; reflexivity].
  reflexivity.
Qed.

Lemma C3_witness :
  analisar_contratos _get_default_config [0%nat] (Exemplos.so Exemplos.TEST001)
  = (Ok ([valor_suspeito_limite alta (get_ (id_contrato Exemplos.TEST001)) 74999 75000 1
            (100 # 75000) (lower (str "Ajuste Direto"));
          valor_exato_suspeito (get_ (id_contrato Exemplos.TEST001)) (PyNum 74999);
          valor_calculado_suspeito (get_ (id_contrato Exemplos.TEST001)) 74999 75000]
         ++ vesperas_feriados_contrato Exemplos.TEST001), Exemplos.so Exemplos.TEST001)
  /\ Forall (fun f => padrao_regra f = 7) (vesperas_feriados_contrato Exemplos.TEST001).
Proof.
  apply (C3_valor_74999 (Exemplos.so Exemplos.TEST001) 0%nat
           (str "Aquisição de Serviços") (str "Ajuste Direto") []).
  - reflexivity.
  - reflexivity.
  - reflexivity.
  - reflexivity.
  - reflexivity.
  - right. exists {| year := 2024; month := 1; day := 15 |}, 738930.
    split; reflexivity.
Defined.

(** A date of the last 30 days of the calendar is none rule 4 can use: the
    end of its window is no date, and the analysis raises OverflowError. *)
Example valor_74999_data_tardia :
  fst (analisar_contratos _get_default_config [0%nat]
         (Exemplos.so
            (Exemplos.contrato_teste "TEST001" "Câmara Municipal de Lisboa"
               "Empresa Suspeita Lda" 74999 "Aquisição de Serviços" "Ajuste Direto"
               "9999-12-15")))
  = Raise OverflowError.
Proof. vm_compute. reflexivity. Qed.

(** The dates rule 4 can use are those up to 1 December 9999. *)
Example data_utilizavel_ate_dezembro :
  add_days {| year := 9999; month := 12; day := 1 |} 30 = Ok MAXORDINAL
  /\ add_days {| year := 9999; month := 12; day := 2 |} 30 = Raise OverflowError.
Proof. split; reflexivity. Qed.

(** C2 (the code departs from it): with the default configuration, a single
    contract whose date is written day first makes [analisar_contratos] raise
    ValueError; the exception comes from rule 4, while rule 7 passes over the
    same contract.  A single contract whose value is NULL makes the analysis
    raise TypeError. *)
Theorem C2_data_malformada_levanta :
  fst (analisar_contratos _get_default_config [0%nat] (Exemplos.so Exemplos.DATA_DMA))
  = Raise ValueError
  /\ fst (_detectar_concentracao_temporal _get_default_config [0%nat]
            (Exemplos.so Exemplos.DATA_DMA)) = Raise ValueError
  /\ fst (_detectar_vesperas_feriados [0%nat] (Exemplos.so Exemplos.DATA_DMA)) = Ok []
  /\ fst (analisar_contratos _get_default_config [0%nat] (Exemplos.so Exemplos.SEM_VALOR))
     = Raise TypeError.
Proof. repeat split; vm_compute; reflexivity. Qed.

(** Rule 3 on contracts between the same two parties: five give one finding,
    four give none. *)
Example contratos_repetidos_cinco_e_quatro :
  fst (_detectar_contratos_repetidos _get_default_config [0; 1; 2; 3; 4]%nat
         (Exemplos.so Exemplos.TEST004))
  = Ok [contratos_repetidos 5 250000]
  /\ fst (_detectar_contratos_repetidos _get_default_config [0; 1; 2; 3]%nat
            (Exemplos.so Exemplos.TEST004))
     = Ok [].
Proof. split; vm_compute; reflexivity. Qed.

(** ** The analysis only reads the contracts *)

Section SoLe.

Variable P : ref -> Prop.

Lemma so_le_ret {A} (Q : A -> Prop) (a : A) : Q a -> so_le P Q (ret a).
Proof.
  intros Ha h. split; [reflexivity|]. split; [|reflexivity].
  intros a' E. injection E as <-. exact Ha.
Qed.

Lemma so_le_raise {A} (Q : A -> Prop) (e : exn) : so_le P Q (raise e).
Proof.
  intros h. split; [reflexivity|]. split; [|reflexivity]. intros a E. discriminate E.
Qed.

Lemma so_le_lift {A} (Q : A -> Prop) (r : result A) :
  (forall a, r = Ok a -> Q a) -> so_le P Q (lift r).
Proof.
  intros Hr h. split; [reflexivity|]. split; [|reflexivity]. exact Hr.
Qed.

Lemma so_le_bind {A B} (Q : A -> Prop) (R : B -> Prop) (m : M heap A) (f : A -> M heap B) :
  so_le P Q m -> (forall a, Q a -> so_le P R (f a)) -> so_le P R (bind m f).
Proof.
  intros Hm Hf h. destruct (Hm h) as (Hs & Hq & Hl). unfold bind.
  destruct (m h) as [[a|e] s] eqn:E; cbn [fst snd] in *; subst s.
  - destruct (Hf a (Hq a eq_refl) h) as (Hs' & Hq' & Hl').
    split; [exact Hs'|]. split; [exact Hq'|].
    intros h' Hc. specialize (Hl h' Hc). destruct (Hm h') as (Hs2 & _ & _).
    destruct (m h') as [[a'|e'] s2]; cbn [fst snd] in *; subst s2;
      [injection Hl as ->|discriminate Hl].
    apply Hl'. exact Hc.
  - split; [reflexivity|]. split; [intros a E'; discriminate E'|].
    intros h' Hc. specialize (Hl h' Hc). destruct (Hm h') as (Hs2 & _ & _).
    destruct (m h') as [[a'|e'] s2]; cbn [fst snd] in *; subst s2;
      [discriminate Hl|injection Hl as ->; reflexivity].
Qed.

Lemma so_le_fraco {A} (Q Q' : A -> Prop) (m : M heap A) :
  so_le P Q m -> (forall a, Q a -> Q' a) -> so_le P Q' m.
Proof.
  intros Hm HQ h. destruct (Hm h) as (Hs & Hq & Hl).
  split; [exact Hs|]. split; [|exact Hl]. intros a E. apply HQ, Hq, E.
Qed.

(** Reading a dict and computing from what was read. *)
Lemma so_le_read {B} (R : B -> Prop) (r : ref) (f : contrato -> M heap B) :
  P r -> (forall c, so_le P R (f c)) -> so_le P R (c <- read r ;; f c).
Proof.
  intros Hr Hf h. unfold bind, read, gets.
  destruct (Hf (h r) h) as (Hs & Hq & Hl).
  split; [exact Hs|]. split; [exact Hq|].
  intros h' Hc. rewrite <- (Hc r Hr). apply Hl, Hc.
Qed.

Lemma so_le_for_extend {A B} (l : list A) (body : A -> M heap (list B)) :
  Forall (fun x => so_le P tudo (body x)) l -> so_le P tudo (for_extend l body).
Proof.
  induction 1 as [|x l Hx _ IH]; cbn [for_extend]; [apply so_le_ret; exact I|].
  eapply so_le_bind; [exact Hx|]. intros a _.
  eapply so_le_bind; [exact IH|]. intros b _. apply so_le_ret. exact I.
Qed.

Lemma so_le_for_map {A B} (Q : B -> Prop) (l : list A) (f : A -> M heap B) :
  Forall (fun x => so_le P Q (f x)) l -> so_le P (Forall Q) (for_map l f).
Proof.
  induction 1 as [|x l Hx _ IH]; cbn [for_map]; [apply so_le_ret; constructor|].
  eapply so_le_bind; [exact Hx|]. intros a Ha.
  eapply so_le_bind; [exact IH|]. intros b Hb. apply so_le_ret.
  constructor; assumption.
Qed.

Lemma so_le_for_filter {A} (Q : A -> Prop) (l : list A) (p : A -> M heap bool) :
  Forall Q l ->
  Forall (fun x => so_le P tudo (p x)) l -> so_le P (Forall Q) (for_filter l p).
Proof.
  intros HQ. induction 1 as [|x l Hx _ IH]; cbn [for_filter];
    [apply so_le_ret; constructor|].
  apply Forall_cons in HQ as [Hqx HQ].
  eapply so_le_bind; [exact Hx|]. intros b _.
  eapply so_le_bind; [exact (IH HQ)|]. intros xs Hxs. apply so_le_ret.
  destruct b; [constructor|]; assumption.
Qed.

End SoLe.

Section AnaliseSoLe.

Variable cfg : config.
Variable P : ref -> Prop.

Lemma so_le_corpo {A} (f : contrato -> result A) (r : ref) :
  P r -> so_le P tudo (c <- read r ;; lift (f c)).
Proof.
  intros Hr. apply so_le_read; [exact Hr|]. intros c. apply so_le_lift. intros; exact I.
Qed.

Lemma so_le_por_contrato (f : contrato -> result (list padrao)) (l : list ref) :
  Forall P l -> so_le P tudo (for_extend l (fun r => c <- read r ;; lift (f c))).
Proof.
  intros Hl. apply so_le_for_extend.
  eapply Forall_impl; [exact Hl|]. intros r Hr. apply so_le_corpo, Hr.
Qed.

Lemma group_add_refs {K} (eqb : K -> K -> bool) (k : K) (r : ref) (g : list (K * list ref)) :
  P r -> Forall (fun kl => Forall P (snd kl)) g ->
  Forall (fun kl => Forall P (snd kl)) (group_add eqb k r g).
Proof.
  intros Hr. induction 1 as [|[k' l] g Hl Hg IH]; cbn [group_add].
  - repeat constructor. exact Hr.
  - destruct (eqb k k'); constructor; try assumption.
    cbn [snd] in *. apply Forall_app. split; [exact Hl|]. repeat constructor. exact Hr.
Qed.

Lemma so_le_agrupar {K} (eqb : K -> K -> bool) (chave : contrato -> result K)
    (l : list ref) (g : list (K * list ref)) :
  Forall P l -> Forall (fun kl => Forall P (snd kl)) g ->
  so_le P (Forall (fun kl => Forall P (snd kl))) (agrupar eqb chave l g).
Proof.
  intros Hl. revert g. induction Hl as [|r l Hr _ IH]; intros g Hg; cbn [agrupar].
  - apply so_le_ret. exact Hg.
  - apply so_le_read; [exact Hr|]. intros c.
    eapply so_le_bind; [apply (so_le_lift P tudo); intros; exact I|].
    intros k _. apply IH. apply group_add_refs; assumption.
Qed.

Lemma so_le_soma_valores (l : list ref) : Forall P l -> so_le P tudo (soma_valores l).
Proof.
  intros Hl. unfold soma_valores.
  eapply so_le_bind.
  - apply (so_le_for_map P tudo). eapply Forall_impl; [exact Hl|].
    intros r Hr. apply so_le_read; [exact Hr|]. intros c. apply so_le_ret. exact I.
  - intros vs _. apply so_le_lift. intros; exact I.
Qed.

Lemma insert_sorted_snd {A} (Q : A -> Prop) (x : pyval * A) (l : list (pyval * A)) :
  Q (snd x) -> Forall (fun y => Q (snd y)) l ->
  Forall (fun y => Q (snd y)) (insert_sorted x l).
Proof.
  intros Hx. induction 1 as [|y l Hy Hl IH]; cbn [insert_sorted].
  - repeat constructor. exact Hx.
  - destruct (key_ltb _ _); repeat constructor; assumption.
Qed.

Lemma sort_by_key_snd {A} (Q : A -> Prop) (l : list (pyval * A)) (s : list A) :
  Forall (fun y => Q (snd y)) l -> sort_by_key l = Ok s -> Forall Q s.
Proof.
  intros Hl. unfold sort_by_key.
  assert (Hm : forall l' : list (pyval * A),
             Forall (fun y => Q (snd y)) l' -> Forall Q (List.map snd l')).
  { induction 1; cbn [List.map]; constructor; assumption. }
  destruct (_ <? _)%nat; [intros E; injection E as <-; apply Hm, Hl|].
  destruct (_ || _); [|discriminate].
  intros E; injection E as <-. apply Hm. unfold sort_decorated.
  induction Hl as [|y l Hy _ IH]; cbn [List.fold_right]; [constructor|].
  apply insert_sorted_snd; assumption.
Qed.

Lemma so_le_ordenar (chave : contrato -> result pyval) (l : list ref) :
  Forall P l -> so_le P (Forall P) (ordenar chave l).
Proof.
  intros Hl. unfold ordenar.
  eapply so_le_bind.
  - apply (so_le_for_map P (fun kr => P (snd kr))).
    eapply Forall_impl; [exact Hl|]. intros r Hr.
    apply so_le_read; [exact Hr|]. intros c.
    eapply so_le_bind; [apply (so_le_lift P tudo); intros; exact I|].
    intros k _. apply so_le_ret. exact Hr.
  - intros ks Hks. apply so_le_lift. intros s Hs.
    eapply sort_by_key_snd; [exact Hks|exact Hs].
Qed.

Lemma so_le_na_janela (guarded : bool) (fim : Z) (l : list ref) :
  Forall P l -> so_le P (Forall P) (na_janela guarded fim l).
Proof.
  intros Hl. unfold na_janela. apply so_le_for_filter; [exact Hl|].
  eapply Forall_impl; [exact Hl|]. intros r Hr.
  apply so_le_read; [exact Hr|]. intros c.
  destruct (_ && _); [apply so_le_ret; exact I|].
  eapply so_le_bind; [apply (so_le_lift P tudo); intros; exact I|]. intros v _.
  eapply so_le_bind; [apply (so_le_lift P tudo); intros; exact I|]. intros d _.
  apply so_le_ret. exact I.
Qed.


Lemma so_le_janelas_fracionamento (par : par4) (l : list ref) :
  Forall P l -> so_le P tudo (janelas_fracionamento cfg par l).
Proof.
  induction 1 as [|r l Hr Hl IH]; cbn [janelas_fracionamento];
    [apply so_le_ret; exact I|].
  apply so_le_read; [exact Hr|]. intros c.
  destruct (negb _); [exact IH|].
  eapply so_le_bind; [apply (so_le_lift P tudo); intros; exact I|]. intros dt_inicio _.
  eapply so_le_bind; [apply (so_le_lift P tudo); intros; exact I|]. intros dt_fim _.
  eapply so_le_bind; [apply so_le_na_janela; constructor; assumption|].
  intros contratos_janela Hj.
  destruct (_ <=? _); [|exact IH].
  eapply so_le_bind; [apply so_le_soma_valores, Hj|]. intros valor_total _.
  destruct Hj as [|r0 l0 Hr0 Hl0]; [apply so_le_raise|].
  apply so_le_read; [exact Hr0|]. intros c0.
  eapply so_le_bind; [apply (so_le_lift P tudo); intros; exact I|]. intros limite _.
  destruct (Qlt_bool _ _); [|exact IH].
  eapply so_le_bind.
  - apply (so_le_for_map P tudo). eapply Forall_impl; [|].
    + apply Forall_cons. split; [exact Hr0|exact Hl0].
    + intros r' Hr'. apply so_le_read; [exact Hr'|]. intros c'. apply so_le_ret. exact I.
  - intros ids _. apply so_le_ret. exact I.
Qed.

Lemma so_le_fracionamento (l : list ref) :
  Forall P l -> so_le P tudo (_detectar_fracionamento cfg l).
Proof.
  intros Hl. unfold _detectar_fracionamento.
  eapply so_le_bind; [apply so_le_agrupar; [exact Hl|constructor]|].
  intros pares Hp. apply so_le_for_extend.
  eapply Forall_impl; [exact Hp|]. intros [par contratos_par] Hc. cbn [snd] in Hc.
  unfold fracionamento_par. destruct (_ <? _); [apply so_le_ret; exact I|].
  eapply so_le_bind; [apply so_le_ordenar, Hc|].
  intros ordenados Ho. apply so_le_janelas_fracionamento, Ho.
Qed.

Lemma so_le_repetidos (l : list ref) :
  Forall P l -> so_le P tudo (_detectar_contratos_repetidos cfg l).
Proof.
  intros Hl. unfold _detectar_contratos_repetidos.
  eapply so_le_bind; [apply so_le_agrupar; [exact Hl|constructor]|].
  intros pares Hp. apply so_le_for_extend.
  eapply Forall_impl; [exact Hp|]. intros [par contratos_par] Hc. cbn [snd] in Hc.
  unfold repetidos_par. destruct (_ <=? _); [|apply so_le_ret; exact I].
  eapply so_le_bind; [apply so_le_soma_valores, Hc|].
  intros valor_total _. apply so_le_ret. exact I.
Qed.

Lemma so_le_janelas_concentracao (l : list ref) :
  Forall P l -> so_le P tudo (janelas_concentracao cfg l).
Proof.
  induction 1 as [|r l Hr Hl IH]; cbn [janelas_concentracao];
    [apply so_le_ret; exact I|].
  apply so_le_read; [exact Hr|]. intros c.
  eapply so_le_bind; [apply (so_le_lift P tudo); intros; exact I|]. intros v _.
  eapply so_le_bind; [apply (so_le_lift P tudo); intros; exact I|]. intros data_inicio _.
  eapply so_le_bind; [apply (so_le_lift P tudo); intros; exact I|]. intros data_fim _.
  eapply so_le_bind; [apply so_le_na_janela; constructor; assumption|].
  intros contratos_janela Hj.
  destruct (_ <=? _); [|exact IH].
  eapply so_le_bind; [apply so_le_soma_valores, Hj|]. intros valor_total _.
  apply so_le_ret. exact I.
Qed.

Lemma so_le_concentracao (l : list ref) :
  Forall P l -> so_le P tudo (_detectar_concentracao_temporal cfg l).
Proof.
  intros Hl. unfold _detectar_concentracao_temporal.
  eapply so_le_bind.
  - apply (so_le_for_filter P P); [exact Hl|].
    eapply Forall_impl; [exact Hl|]. intros r Hr.
    apply so_le_read; [exact Hr|]. intros c. apply so_le_ret. exact I.
  - intros datas Hd. destruct datas as [|r0 datas]; [apply so_le_ret; exact I|].
    eapply so_le_bind; [apply so_le_ordenar, Hd|].
    intros ordenadas Ho. apply so_le_janelas_concentracao, Ho.
Qed.

Lemma so_le_vesperas (l : list ref) :
  Forall P l -> so_le P tudo (_detectar_vesperas_feriados l).
Proof.
  intros Hl. apply so_le_for_extend.
  eapply Forall_impl; [exact Hl|]. intros r Hr.
  apply so_le_read; [exact Hr|]. intros c. apply so_le_ret. exact I.
Qed.

Lemma so_le_quando (b : bool) (m : M heap (list padrao)) :
  so_le P tudo m -> so_le P tudo (quando b m).
Proof. intros Hm. destruct b; [exact Hm|apply so_le_ret; exact I]. Qed.

Lemma so_le_analisar (l : list ref) :
  Forall P l -> so_le P tudo (analisar_contratos cfg l).
Proof.
  intros Hl. unfold analisar_contratos.
  eapply so_le_bind;
    [apply so_le_quando, so_le_por_contrato, Hl|]. intros p1 _.
  eapply so_le_bind; [apply so_le_quando, so_le_fracionamento, Hl|]. intros p2 _.
  eapply so_le_bind; [apply so_le_quando, so_le_repetidos, Hl|]. intros p3 _.
  eapply so_le_bind; [apply so_le_quando, so_le_concentracao, Hl|]. intros p4 _.
  eapply so_le_bind; [apply so_le_quando, so_le_por_contrato, Hl|]. intros p5 _.
  eapply so_le_bind; [apply so_le_quando, so_le_por_contrato, Hl|]. intros p6 _.
  eapply so_le_bind; [apply so_le_quando, so_le_vesperas, Hl|]. intros p7 _.
  apply so_le_ret. exact I.
Qed.

End AnaliseSoLe.

(** C9: [analisar_contratos] leaves every contract dict as it found it, also
    when it raises, and its outcome is a function of the configuration and of
    the dicts of the input list alone: in any store that holds the same dicts
    at the references of the list, the outcome is the same.  In particular a
    second run on the store the first one leaves gives the same outcome. *)
Theorem C9_analise_so_le (cfg : config) (contratos : list ref) (h : heap) :
  snd (analisar_contratos cfg contratos h) = h
  /\ (forall h' : heap,
        (forall r, In r contratos -> h r = h' r) ->
        fst (analisar_contratos cfg contratos h') = fst (analisar_contratos cfg contratos h))
  /\ analisar_contratos cfg contratos (snd (analisar_contratos cfg contratos h))
     = analisar_contratos cfg contratos h.
Proof.
  assert (Hl : Forall (fun r => In r contratos) contratos)
    by (apply List.Forall_forall; intros r Hr; exact Hr).
  destruct (so_le_analisar cfg _ contratos Hl h) as (Hs & _ & Hd).
  split; [exact Hs|]. split; [exact Hd|]. rewrite Hs. reflexivity.
Qed.

(** ** The table of conflicts *)

Lemma pystr_eqb_eq (a b : pystr) : pystr_eqb a b = true <-> a = b.
Proof.
  revert b. induction a as [|x a IH]; intros [|y b]; cbn [pystr_eqb];
    try (split; [discriminate|discriminate]); [split; reflexivity|].
  rewrite andb_true_iff, N.eqb_eq, IH. split.
  - intros [-> ->]. reflexivity.
  - intros E. injection E as -> ->. split; reflexivity.
Qed.

Lemma pystr_eqb_refl (a : pystr) : pystr_eqb a a = true.
Proof. apply pystr_eqb_eq. reflexivity. Qed.

Lemma ja_registado_In (c : Conflito.t) (tabela : list TConflitos.t) :
  ja_registado c tabela = true
  <-> In (Conflito.pessoa_id c, Conflito.id_contrato c) (List.map par_da_linha tabela).
Proof.
  unfold ja_registado. rewrite existsb_exists, in_map_iff. split.
  - intros (l & Hl & H). apply andb_true_iff in H as [Hp Hi].
    apply Z.eqb_eq in Hp. apply pystr_eqb_eq in Hi.
    exists l. split; [|exact Hl]. unfold par_da_linha. rewrite Hp, Hi. reflexivity.
  - intros (l & E & Hl). exists l. split; [exact Hl|].
    unfold par_da_linha in E. injection E as -> ->.
    rewrite Z.eqb_refl, pystr_eqb_refl. reflexivity.
Qed.

Lemma registar_na_tabela_regista (c : Conflito.t) (tabela : list TConflitos.t) :
  ja_registado c (registar_na_tabela c tabela) = true.
Proof.
  unfold registar_na_tabela. destruct (ja_registado c tabela) eqn:E; [exact E|].
  apply ja_registado_In. rewrite List.map_app. apply in_or_app. right. left. reflexivity.
Qed.

Lemma registar_na_tabela_conserva (c c' : Conflito.t) (tabela : list TConflitos.t) :
  ja_registado c tabela = true -> ja_registado c (registar_na_tabela c' tabela) = true.
Proof.
  intros H. unfold registar_na_tabela. destruct (ja_registado c' tabela); [exact H|].
  apply ja_registado_In. rewrite List.map_app. apply in_or_app. left.
  apply ja_registado_In, H.
Qed.

Lemma registar_todos_conserva (c : Conflito.t) (cs : list Conflito.t)
    (tabela : list TConflitos.t) :
  ja_registado c tabela = true -> ja_registado c (registar_todos cs tabela) = true.
Proof.
  revert tabela. induction cs as [|c' cs IH]; intros tabela H; [exact H|].
  change (ja_registado c (registar_todos cs (registar_na_tabela c' tabela)) = true).
  apply IH, registar_na_tabela_conserva, H.
Qed.

Lemma registar_todos_regista (cs : list Conflito.t) (tabela : list TConflitos.t) :
  Forall (fun c => ja_registado c (registar_todos cs tabela) = true) cs.
Proof.
  revert tabela. induction cs as [|c cs IH]; intros tabela; [constructor|].
  constructor.
  - change (ja_registado c (registar_todos cs (registar_na_tabela c tabela)) = true).
    apply (registar_todos_conserva c cs), registar_na_tabela_regista.
  - change (Forall (fun c' => ja_registado c' (registar_todos cs (registar_na_tabela c tabela)) = true) cs).
    apply IH.
Qed.

Lemma registar_todos_registados (cs : list Conflito.t) (tabela : list TConflitos.t) :
  Forall (fun c => ja_registado c tabela = true) cs -> registar_todos cs tabela = tabela.
Proof.
  induction 1 as [|c cs Hc _ IH]; [reflexivity|].
  change (registar_todos cs (registar_na_tabela c tabela) = tabela).
  replace (registar_na_tabela c tabela) with tabela; [exact IH|].
  unfold registar_na_tabela. rewrite Hc. reflexivity.
Qed.

(** Registering the same conflicts a second time changes nothing. *)
Lemma registar_todos_idempotente (cs : list Conflito.t) (tabela : list TConflitos.t) :
  registar_todos cs (registar_todos cs tabela) = registar_todos cs tabela.
Proof. apply registar_todos_registados, registar_todos_regista. Qed.

Lemma registar_na_tabela_um_por_par (c : Conflito.t) (tabela : list TConflitos.t) :
  um_por_par tabela -> um_por_par (registar_na_tabela c tabela).
Proof.
  unfold um_por_par, registar_na_tabela. intros H.
  destruct (ja_registado c tabela) eqn:E; [exact H|].
  rewrite List.map_app. cbn [List.map]. apply NoDup_app. split; [exact H|].
  split; [|apply NoDup_singleton].
  intros par Hin Hin'. apply list_elem_of_In in Hin.
  apply list_elem_of_singleton in Hin'. subst par.
  assert (ja_registado c tabela = true) by (apply ja_registado_In; exact Hin).
  congruence.
Qed.

Lemma registar_todos_um_por_par (cs : list Conflito.t) (tabela : list TConflitos.t) :
  um_por_par tabela -> um_por_par (registar_todos cs tabela).
Proof.
  revert tabela. induction cs as [|c cs IH]; intros tabela H; [exact H|].
  change (um_por_par (registar_todos cs (registar_na_tabela c tabela))).
  apply IH, registar_na_tabela_um_por_par, H.
Qed.

(** ** A run registers a list of conflicts *)

Section Regista.

Variable d0 : db.

Lemma regista_ret {A} (a : A) : regista d0 (ret a).
Proof. exists (Ok a), []. reflexivity. Qed.

Lemma regista_lift {A} (r : result A) : regista d0 (lift r).
Proof. exists r, []. reflexivity. Qed.

(** A query that does not look at the table of conflicts. *)
Lemma regista_gets {A} (f : db -> A) :
  (forall tabela, f (com_conflitos d0 tabela) = f d0) -> regista d0 (gets f).
Proof.
  intros Hf. exists (Ok (f d0)), []. intros tabela. unfold gets. rewrite Hf. reflexivity.
Qed.

Lemma regista_bind {A B} (m : M db A) (f : A -> M db B) :
  regista d0 m -> (forall a, regista d0 (f a)) -> regista d0 (bind m f).
Proof.
  intros (r & cs & Hm) Hf. destruct r as [a|e].
  - destruct (Hf a) as (r' & cs' & Hfa). exists r', (cs ++ cs'). intros tabela.
    unfold bind. rewrite Hm, Hfa. unfold registar_todos.
    rewrite List.fold_left_app. reflexivity.
  - exists (Raise e), cs. intros tabela. unfold bind. rewrite Hm. reflexivity.
Qed.

Lemma regista_for_extend {A B} (l : list A) (body : A -> M db (list B)) :
  (forall x, regista d0 (body x)) -> regista d0 (for_extend l body).
Proof.
  intros Hb. induction l as [|x l IH]; cbn [for_extend]; [apply regista_ret|].
  apply regista_bind; [apply Hb|]. intros r.
  apply regista_bind; [exact IH|]. intros rs. apply regista_ret.
Qed.

Lemma regista_registar (c : Conflito.t) : regista d0 (_registar_conflito c).
Proof.
  exists (Ok tt), [c]. intros tabela.
  unfold _registar_conflito, bind, gets, modify, ret.
  cbn [registar_todos List.fold_left conflitos_interesse com_conflitos].
  unfold registar_na_tabela. destruct (ja_registado c tabela); reflexivity.
Qed.

Lemma regista_detectar (pessoa_id : option Z) :
  regista d0 (detectar_conflitos_interesse pessoa_id).
Proof.
  unfold detectar_conflitos_interesse.
  apply regista_bind; [apply regista_gets; reflexivity|]. intros pps.
  apply regista_for_extend. intros pessoa. unfold conflitos_da_pessoa.
  apply regista_bind; [apply regista_gets; reflexivity|]. intros associacoes.
  apply regista_for_extend. intros assoc. unfold conflitos_da_associacao.
  destruct (_ =? 0); [apply regista_ret|].
  apply regista_bind; [apply regista_gets; reflexivity|]. intros cs.
  apply regista_for_extend. intros contrato. unfold conflito_do_contrato.
  apply regista_bind; [apply regista_lift|]. intros [conflito|]; [|apply regista_ret].
  apply regista_bind; [apply regista_registar|]. intros _. apply regista_ret.
Qed.

End Regista.

Lemma com_conflitos_proprio (d : db) : com_conflitos d (conflitos_interesse d) = d.
Proof. destruct d. reflexivity. Qed.

(** C4: a second run of [detectar_conflitos_interesse] on the repository the
    first run leaves changes nothing and has the outcome of the first; a run
    changes no table but that of the conflicts, and it keeps the table at
    one row at most for each pair of a person and a contract, since a row is
    written only after a look-up of its pair found none. *)
Theorem C4_detecao_idempotente (d : db) (pessoa_id : option Z) :
  let d1 := snd (detectar_conflitos_interesse pessoa_id d) in
  detectar_conflitos_interesse pessoa_id d1
    = (fst (detectar_conflitos_interesse pessoa_id d), d1)
  /\ d1 = com_conflitos d (conflitos_interesse d1)
  /\ (um_por_par (conflitos_interesse d) -> um_por_par (conflitos_interesse d1)).
Proof.
  destruct (regista_detectar d pessoa_id) as (r & cs & H).
  pose proof (H (conflitos_interesse d)) as H1.
  rewrite com_conflitos_proprio in H1. rewrite H1. cbn [fst snd].
  split; [|split].
  - rewrite H, registar_todos_idempotente. reflexivity.
  - reflexivity.
  - apply registar_todos_um_por_par.
Qed.

(** ** The queries give rows of the tables *)

Lemma inserir_ordenado_In {A} (antes : A -> A -> bool) (x y : A) (l : list A) :
  In y (SQL.inserir_ordenado antes x l) <-> y = x \/ In y l.
Proof.
  induction l as [|z l IH]; cbn [SQL.inserir_ordenado In]; [intuition congruence|].
  destruct (antes z x); cbn [In]; [rewrite IH|]; intuition congruence.
Qed.

Lemma order_by_In {A} (antes : A -> A -> bool) (y : A) (l : list A) :
  In y (SQL.order_by antes l) <-> In y l.
Proof.
  unfold SQL.order_by. induction l as [|x l IH]; cbn [List.fold_right In]; [reflexivity|].
  rewrite inserir_ordenado_In, IH. intuition congruence.
Qed.

Lemma distinct_In {A} (eqb : A -> A -> bool) (y : A) (vistos l : list A) :
  In y (SQL.distinct_ eqb vistos l) -> In y l.
Proof.
  revert vistos. induction l as [|x l IH]; intros vistos; cbn [SQL.distinct_ In];
    [tauto|].
  destruct (existsb _ _); cbn [In]; intros H.
  - right. eapply IH, H.
  - destruct H as [H|H]; [left; exact H|right; eapply IH, H].
Qed.

Lemma pesquisar_contratos_In (d : db) (f : filtros) (c : TContratos.t) :
  In c (pesquisar_contratos d f) -> In c (contratos d).
Proof.
  unfold pesquisar_contratos. rewrite order_by_In, List.filter_In. tauto.
Qed.

Lemma contratos_da_associacao_In (d : db) (a : TAssociacoes.t) (c : TContratos.t) :
  In c (contratos_da_associacao d a) -> In c (contratos d).
Proof.
  unfold contratos_da_associacao. destruct (_ =? 0); [intros []|].
  apply pesquisar_contratos_In.
Qed.

(** A joined row comes from an active position of its person. *)
Lemma pessoas_politicas_In (d : db) (pessoa_id : option Z) (pp : pessoa_politica) :
  In pp (pessoas_politicas d pessoa_id) ->
  exists c, In c (cargos_politicos d)
            /\ TCargos.pessoa_id c = TPessoas.id (pp_pessoa pp)
            /\ TCargos.ativo c = 1
            /\ TCargos.cargo c = pp_cargo pp
            /\ TCargos.entidade c = pp_entidade pp.
Proof.
  unfold pessoas_politicas, SQL.distinct. intros H. apply distinct_In in H.
  apply List.in_flat_map in H as (p & _ & H).
  apply List.in_map_iff in H as (c & <- & H).
  apply List.filter_In in H as [Hc H]. apply andb_true_iff in H as [Hp Ha].
  apply Z.eqb_eq in Hp, Ha. exists c. cbn. auto.
Qed.

(** ** The outcome of a run, without its writes *)

Lemma registar_em (d0 : db) (c : Conflito.t) (tabela : list TConflitos.t) :
  _registar_conflito c (com_conflitos d0 tabela)
  = (Ok tt, com_conflitos d0 (registar_na_tabela c tabela)).
Proof.
  unfold _registar_conflito, bind, gets, modify, ret.
  cbn [conflitos_interesse com_conflitos].
  unfold registar_na_tabela. destruct (ja_registado c tabela); reflexivity.
Qed.

Lemma for_extend_puro (d0 : db) {A B} (l : list A) (body : A -> M db (list B))
    (g : A -> result (list B)) :
  (forall x t, exists t', body x (com_conflitos d0 t) = (g x, com_conflitos d0 t')) ->
  forall t, exists t',
    for_extend l body (com_conflitos d0 t) = (for_extend_r l g, com_conflitos d0 t').
Proof.
  intros Hb. induction l as [|x l IH]; intros t; cbn [for_extend for_extend_r];
    [exists t; reflexivity|].
  destruct (Hb x t) as (t1 & H1). unfold bind at 1. rewrite H1.
  destruct (g x) as [r|e]; cbn [rbind]; [|exists t1; reflexivity].
  destruct (IH t1) as (t2 & H2). unfold bind at 1. rewrite H2.
  destruct (for_extend_r l g) as [rs|e]; cbn [rbind]; exists t2; reflexivity.
Qed.

Lemma detectar_puro (d : db) (pessoa_id : option Z) (t : list TConflitos.t) :
  exists t',
    detectar_conflitos_interesse pessoa_id (com_conflitos d t)
    = (conflitos_encontrados d pessoa_id, com_conflitos d t').
Proof.
  unfold detectar_conflitos_interesse, conflitos_encontrados. unfold bind at 1, gets at 1.
  change (pessoas_politicas (com_conflitos d t) pessoa_id) with (pessoas_politicas d pessoa_id).
  revert t. apply for_extend_puro. intros pessoa t.
  unfold conflitos_da_pessoa. unfold bind at 1, gets at 1.
  change (listar_associacoes_pessoa (com_conflitos d t) (TPessoas.id (pp_pessoa pessoa)))
    with (listar_associacoes_pessoa d (TPessoas.id (pp_pessoa pessoa))).
  revert t. apply for_extend_puro. intros assoc t.
  unfold conflitos_da_associacao, contratos_da_associacao.
  destruct (_ =? 0); [exists t; reflexivity|].
  unfold bind at 1, gets at 1.
  change (pesquisar_contratos (com_conflitos d t)) with (pesquisar_contratos d).
  revert t. apply for_extend_puro. intros contrato t.
  unfold conflito_do_contrato, bind, lift.
  destruct (avaliar_contrato pessoa assoc contrato) as [[k|]|e]; cbn [rbind lista_de].
  - rewrite registar_em. eexists. reflexivity.
  - exists t. reflexivity.
  - exists t. reflexivity.
Qed.

Lemma detectar_e_encontrados (d : db) (pessoa_id : option Z) :
  fst (detectar_conflitos_interesse pessoa_id d) = conflitos_encontrados d pessoa_id.
Proof.
  destruct (detectar_puro d pessoa_id (conflitos_interesse d)) as (t' & H).
  rewrite com_conflitos_proprio in H. rewrite H. reflexivity.
Qed.

(** ** Reading the outcome *)

Lemma for_extend_r_Forall {A B} (Q : B -> Prop) (l : list A) (g : A -> result (list B))
    (cs : list B) :
  (forall x r, In x l -> g x = Ok r -> Forall Q r) ->
  for_extend_r l g = Ok cs -> Forall Q cs.
Proof.
  revert cs. induction l as [|x l IH]; intros cs Hg; cbn [for_extend_r].
  - intros E. injection E as <-. constructor.
  - destruct (g x) as [r|e] eqn:Ex; cbn [rbind]; [|discriminate].
    destruct (for_extend_r l g) as [rs|e] eqn:El; cbn [rbind]; [|discriminate].
    intros E. injection E as <-. apply Forall_app. split.
    + apply (Hg x r); [left; reflexivity|exact Ex].
    + apply IH; [|reflexivity]. intros y r' Hy. apply Hg. right. exact Hy.
Qed.

Lemma for_extend_r_ok {A B} (l : list A) (g : A -> result (list B)) (f : A -> list B) :
  (forall x, In x l -> g x = Ok (f x)) -> for_extend_r l g = Ok (List.flat_map f l).
Proof.
  induction l as [|x l IH]; intros Hg; cbn [for_extend_r List.flat_map]; [reflexivity|].
  rewrite (Hg x (or_introl eq_refl)). cbn [rbind].
  rewrite IH; [reflexivity|]. intros y Hy. apply Hg. right. exact Hy.
Qed.

Lemma avaliar_contrato_sem_nulos (pessoa : pessoa_politica) (assoc : TAssociacoes.t)
    (contrato : TContratos.t) :
  TContratos.adjudicante contrato <> None ->
  pp_entidade pessoa <> None ->
  avaliar_contrato pessoa assoc contrato
  = Ok (if adjudicante_publico contrato
        then Some (fazer_conflito pessoa assoc contrato (gravidade_do_par pessoa contrato))
        else None).
Proof.
  unfold avaliar_contrato, adjudicante_publico, gravidade_do_par.
  destruct (TContratos.adjudicante contrato) as [a|]; [|congruence].
  destruct (pp_entidade pessoa) as [e|]; [|congruence].
  intros _ _. cbn [lower_da_coluna rbind from_option id].
  destruct (eh_entidade_publica (lower a)); reflexivity.
Qed.

Lemma encontrados_sem_nulos (d : db) (pessoa_id : option Z) :
  sem_nulos d ->
  conflitos_encontrados d pessoa_id
  = Ok (List.flat_map (conflitos_da_linha d) (pessoas_politicas d pessoa_id)).
Proof.
  intros [Hc Hp]. unfold conflitos_encontrados.
  apply for_extend_r_ok. intros pessoa Hpessoa. unfold conflitos_da_linha.
  apply for_extend_r_ok. intros assoc _.
  apply for_extend_r_ok. intros contrato Hcontrato.
  rewrite avaliar_contrato_sem_nulos.
  - cbn [rbind]. destruct (adjudicante_publico contrato); reflexivity.
  - rewrite List.Forall_forall in Hc. apply Hc.
    eapply contratos_da_associacao_In, Hcontrato.
  - destruct (pessoas_politicas_In d pessoa_id pessoa Hpessoa)
      as (c & Hin & _ & Ha & _ & <-).
    rewrite List.Forall_forall in Hp. apply (Hp c Hin Ha).
Qed.

(** ** Counting the conflicts of a person and a contract *)

Lemma filter_flat_map {A B} (p : B -> bool) (f : A -> list B) (l : list A) :
  List.filter p (List.flat_map f l) = List.flat_map (fun x => List.filter p (f x)) l.
Proof.
  induction l as [|x l IH]; cbn [List.flat_map]; [reflexivity|].
  rewrite List.filter_app, IH. reflexivity.
Qed.

Lemma length_flat_map_filter {A B} (p : A -> bool) (mk : A -> B) (q : B -> bool)
    (l : list A) :
  List.length (List.filter q (List.flat_map (fun c => if p c then [mk c] else []) l))
  = List.length (List.filter (fun c => q (mk c) && p c) l).
Proof.
  induction l as [|c l IH]; cbn [List.flat_map List.filter]; [reflexivity|].
  rewrite List.filter_app, List.length_app, IH.
  destruct (p c); cbn [List.filter]; [|rewrite andb_false_r; reflexivity].
  rewrite andb_true_r. destruct (q (mk c)); reflexivity.
Qed.

Lemma conflitos_da_linha_do_par (d : db) (pp : pessoa_politica) (pid : Z) (idc : pystr) :
  List.length (List.filter (do_par pid idc) (conflitos_da_linha d pp))
  = if TPessoas.id (pp_pessoa pp) =? pid
    then List.length (ocorrencias_do_contrato d (TPessoas.id (pp_pessoa pp)) idc)
    else 0%nat.
Proof.
  unfold conflitos_da_linha, ocorrencias_do_contrato.
  induction (listar_associacoes_pessoa d (TPessoas.id (pp_pessoa pp))) as [|a l IH];
    cbn [List.flat_map List.filter].
  - destruct (_ =? pid); reflexivity.
  - rewrite !List.filter_app, !List.length_app, IH, length_flat_map_filter.
    unfold do_par at 1. cbn [fazer_conflito Conflito.pessoa_id Conflito.id_contrato].
    destruct (_ =? pid); [reflexivity|].
    cbn [andb]. clear IH.
    induction (contratos_da_associacao d a) as [|c cs IHc]; [reflexivity|exact IHc].
Qed.

Lemma length_do_par (d : db) (pessoa_id : option Z) (pid : Z) (idc : pystr) :
  List.length (List.filter (do_par pid idc)
                 (List.flat_map (conflitos_da_linha d) (pessoas_politicas d pessoa_id)))
  = (List.length (linhas_da_pessoa d pessoa_id pid)
     * List.length (ocorrencias_do_contrato d pid idc))%nat.
Proof.
  unfold linhas_da_pessoa.
  induction (pessoas_politicas d pessoa_id) as [|pp l IH];
    cbn [List.flat_map List.filter]; [reflexivity|].
  rewrite List.filter_app, List.length_app, IH, conflitos_da_linha_do_par.
  destruct (_ =? pid) eqn:E; [|reflexivity].
  apply Z.eqb_eq in E. rewrite E. cbn [List.length]. lia.
Qed.

Lemma determinar_gravidade_cadeia (cargo entidade adjudicante : pystr) :
  determinar_gravidade cargo entidade adjudicante
  = if str_in entidade adjudicante then critica
    else if eh_cargo_alto cargo then alta else media.
Proof. reflexivity. Qed.

(** C5, as stated, fails: in the repository of the test with a second active
    position of João Silva (a seat in the assembly), the run returns two
    conflicts for him and the contract ASSOC001, of severities [critica] and
    [alta], while the first position names the awarder of the contract. *)
Lemma C5_dois_conflitos_para_o_par :
  In ExemplosBD.presidente (cargos_politicos ExemplosBD.base_dois_cargos)
  /\ corresponde (str "Câmara Municipal de Lisboa") (str "Câmara Municipal de Lisboa") = true
  /\ exists cs,
       fst (detectar_conflitos_interesse (Some 1) ExemplosBD.base_dois_cargos) = Ok cs
       /\ List.map Conflito.gravidade (List.filter (do_par 1 (str "ASSOC001")) cs)
          = [critica; alta].
Proof.
  split; [left; reflexivity|]. split; [reflexivity|].
  eexists. split; [vm_compute; reflexivity|]. vm_compute. reflexivity.
Qed.

(** C5, amended: in a repository where no NULL stops the run, whose names
    are written in Latin-1 (so that [str.lower] folds them as [lower] does)
    and whose tables hold what the queries read (no NUL in the names LIKE is
    applied to, names of companies that are patterns LIKE takes), for a
    joined row of a person and an active position whose entity is, letter
    case apart, part of the name of the awarder, an active association of
    that person and a contract of a public body fetched for the company of
    the association, [detectar_conflitos_interesse] returns the conflict of
    the three with severity [critica].  The conflicts returned for the
    person and the contract are as many as the joined rows of the person
    (the query is DISTINCT: one row for each office and entity among the
    active positions, also when two positions have the same) times the
    occurrences of the contract among the contracts fetched for the person's
    associations: one only when both numbers are 1.  And for every joined
    row, association of its person and contract of a public body fetched for
    it, the conflict returned is [critica] when the entity is part of the
    awarder's name, else [alta] for a high office, else [media]. *)
Theorem C5_conflito_critico (d : db) (pessoa_id : option Z) (pessoa : pessoa_politica)
    (assoc : TAssociacoes.t) (contrato : TContratos.t) (entidade adjudicante : pystr) :
  sem_nulos d ->
  bd_fiel d = true ->
  nomes_latinos d = true ->
  In pessoa (pessoas_politicas d pessoa_id) ->
  pp_entidade pessoa = Some entidade ->
  In assoc (listar_associacoes_pessoa d (TPessoas.id (pp_pessoa pessoa))) ->
  TAssociacoes.ativo assoc <> 0 ->
  In contrato (pesquisar_contratos d (por_adjudicataria (TAssociacoes.empresa_nome assoc))) ->
  TContratos.adjudicante contrato = Some adjudicante ->
  eh_entidade_publica (lower adjudicante) = true ->
  corresponde entidade adjudicante = true ->
  exists cs,
    fst (detectar_conflitos_interesse pessoa_id d) = Ok cs
    /\ In (fazer_conflito pessoa assoc contrato critica) cs
    /\ (forall pid idc,
          List.length (List.filter (do_par pid idc) cs)
          = (List.length (linhas_da_pessoa d pessoa_id pid)
             * List.length (ocorrencias_do_contrato d pid idc))%nat)
    /\ (forall p a c e adj,
          In p (pessoas_politicas d pessoa_id) ->
          pp_entidade p = Some e ->
          In a (listar_associacoes_pessoa d (TPessoas.id (pp_pessoa p))) ->
          In c (contratos_da_associacao d a) ->
          TContratos.adjudicante c = Some adj ->
          eh_entidade_publica (lower adj) = true ->
          In (fazer_conflito p a c
                (if corresponde e adj then critica
                 else if eh_cargo_alto (pp_cargo p) then alta else media)) cs).
Proof.
  intros Hn _ _ Hp He Ha Hat Hc Hadj Hpub Hcor.
  exists (List.flat_map (conflitos_da_linha d) (pessoas_politicas d pessoa_id)).
  assert (Hg : forall p a c e adj,
            In p (pessoas_politicas d pessoa_id) ->
            pp_entidade p = Some e ->
            In a (listar_associacoes_pessoa d (TPessoas.id (pp_pessoa p))) ->
            In c (contratos_da_associacao d a) ->
            TContratos.adjudicante c = Some adj ->
            eh_entidade_publica (lower adj) = true ->
            In (fazer_conflito p a c
                  (if corresponde e adj then critica
                   else if eh_cargo_alto (pp_cargo p) then alta else media))
               (List.flat_map (conflitos_da_linha d) (pessoas_politicas d pessoa_id))).
  { intros p a c e adj Hp' He' Ha' Hc' Hadj' Hpub'.
    apply List.in_flat_map. exists p. split; [exact Hp'|].
    unfold conflitos_da_linha. apply List.in_flat_map. exists a. split; [exact Ha'|].
    apply List.in_flat_map. exists c. split; [exact Hc'|].
    unfold adjudicante_publico, gravidade_do_par. rewrite Hadj', He', Hpub'.
    cbn [from_option id]. rewrite determinar_gravidade_cadeia.
    unfold corresponde. left. reflexivity. }
  split; [|split; [|split]].
  - rewrite detectar_e_encontrados. apply encontrados_sem_nulos, Hn.
  - specialize (Hg pessoa assoc contrato entidade adjudicante Hp He Ha).
    rewrite Hcor in Hg. apply Hg; [|exact Hadj|exact Hpub].
    unfold contratos_da_associacao.
    destruct (TAssociacoes.ativo assoc =? 0) eqn:E; [|exact Hc].
    apply Z.eqb_eq in E. contradiction.
  - intros pid idc. apply length_do_par.
  - exact Hg.
Qed.

Lemma C5_witness :
  exists cs,
    fst (detectar_conflitos_interesse (Some 1) ExemplosBD.base) = Ok cs
    /\ In (fazer_conflito ExemplosBD.linha_presidente
             (ExemplosBD.associacao_teste 1 "Construtora Silva & Filhos Lda" "dono" 60)
             ExemplosBD.ASSOC001 critica) cs
    /\ (forall pid idc,
          List.length (List.filter (do_par pid idc) cs)
          = (List.length (linhas_da_pessoa ExemplosBD.base (Some 1%Z) pid)
             * List.length (ocorrencias_do_contrato ExemplosBD.base pid idc))%nat)
    /\ (forall p a c e adj,
          In p (pessoas_politicas ExemplosBD.base (Some 1%Z)) ->
          pp_entidade p = Some e ->
          In a (listar_associacoes_pessoa ExemplosBD.base (TPessoas.id (pp_pessoa p))) ->
          In c (contratos_da_associacao ExemplosBD.base a) ->
          TContratos.adjudicante c = Some adj ->
          eh_entidade_publica (lower adj) = true ->
          In (fazer_conflito p a c
                (if corresponde e adj then critica
                 else if eh_cargo_alto (pp_cargo p) then alta else media)) cs).
Proof.
  apply (C5_conflito_critico ExemplosBD.base (Some 1) ExemplosBD.linha_presidente
           (ExemplosBD.associacao_teste 1 "Construtora Silva & Filhos Lda" "dono" 60)
           ExemplosBD.ASSOC001
           (str "Câmara Municipal de Lisboa") (str "Câmara Municipal de Lisboa")).
  - split; repeat constructor; discriminate.
  - vm_compute. reflexivity.
  - vm_compute. reflexivity.
  - vm_compute. left. reflexivity.
  - reflexivity.
  - vm_compute. left. reflexivity.
  - discriminate.
  - vm_compute. left. reflexivity.
  - reflexivity.
  - reflexivity.
  - reflexivity.
Defined.

(** Two active positions with the same office and entity are one joined
    row: the person has one conflict for the contract, not two. *)
Example C5_cargos_iguais_uma_linha :
  let d := ExemplosBD.base_com
             [ExemplosBD.presidente;
              ExemplosBD.cargo_teste 2 "Presidente da Câmara" "Câmara Municipal de Lisboa"] in
  List.length (List.filter (fun c => TCargos.ativo c =? 1) (cargos_politicos d)) = 2%nat
  /\ List.length (linhas_da_pessoa d (Some 1) 1) = 1%nat
  /\ exists cs,
       fst (detectar_conflitos_interesse (Some 1) d) = Ok cs
       /\ List.length (List.filter (do_par 1 (str "ASSOC001")) cs) = 1%nat.
Proof.
  split; [reflexivity|]. split; [vm_compute; reflexivity|].
  eexists. split; [vm_compute; reflexivity|]. vm_compute. reflexivity.
Qed.

(** In the repository of the test the run returns one conflict for João
    Silva and each of the two contracts: [critica] for the contract of his
    own chamber, [alta] for the other; and it writes the two rows. *)
Example detectar_na_base_de_teste :
  match detectar_conflitos_interesse (Some 1) ExemplosBD.base with
  | (Ok cs, d') =>
      List.map (fun k => (Conflito.id_contrato k, Conflito.gravidade k)) cs
      = [(str "ASSOC001", critica); (str "ASSOC002", alta)]
      /\ List.map (fun l => (TConflitos.id l, TConflitos.id_contrato l,
                              TConflitos.gravidade l)) (conflitos_interesse d')
         = [(1, str "ASSOC001", critica); (2, str "ASSOC002", alta)]
  | (Raise _, _) => False
  end.
Proof. vm_compute. split; reflexivity. Qed.

(** C10, as stated, fails: João Silva holds an active position that names no
    entity and a seat in the assembly; the run returns for him conflicts of
    severity [alta], through the second position. *)
Lemma C10_entidade_vazia_e_outro_cargo :
  In (ExemplosBD.cargo_teste 1 "Vereador" "")
     (cargos_politicos ExemplosBD.base_entidade_vazia)
  /\ exists cs,
       fst (detectar_conflitos_interesse None ExemplosBD.base_entidade_vazia) = Ok cs
       /\ List.map (fun k => (Conflito.pessoa_id k, Conflito.gravidade k)) cs
          = [(1, critica); (1, critica); (1, alta); (1, alta)].
Proof.
  split; [left; reflexivity|].
  eexists. split; [vm_compute; reflexivity|]. vm_compute. reflexivity.
Qed.

Lemma str_in_vazio (s : pystr) : str_in [] s = true.
Proof. destruct s; reflexivity. Qed.

(** A conflict built from a joined row that names the empty entity is
    [critica], whatever the office and the awarder. *)
Lemma avaliar_contrato_entidade_vazia (pessoa : pessoa_politica) (assoc : TAssociacoes.t)
    (contrato : TContratos.t) (k : Conflito.t) :
  pp_entidade pessoa = Some [] ->
  avaliar_contrato pessoa assoc contrato = Ok (Some k) ->
  Conflito.gravidade k = critica.
Proof.
  intros He. unfold avaliar_contrato. rewrite He.
  destruct (lower_da_coluna (TContratos.adjudicante contrato)) as [a|e]; cbn [rbind];
    [|discriminate].
  destruct (eh_entidade_publica a); cbn [lower_da_coluna rbind]; [|discriminate].
  intros E. injection E as <-. cbn [fazer_conflito Conflito.gravidade].
  rewrite determinar_gravidade_cadeia. cbn [lower List.map].
  rewrite str_in_vazio. reflexivity.
Qed.

Lemma avaliar_contrato_pessoa (pessoa : pessoa_politica) (assoc : TAssociacoes.t)
    (contrato : TContratos.t) (k : Conflito.t) :
  avaliar_contrato pessoa assoc contrato = Ok (Some k) ->
  Conflito.pessoa_id k = TPessoas.id (pp_pessoa pessoa).
Proof.
  unfold avaliar_contrato.
  destruct (lower_da_coluna (TContratos.adjudicante contrato)) as [a|e]; cbn [rbind];
    [|discriminate].
  destruct (eh_entidade_publica a); cbn [rbind]; [|discriminate].
  destruct (lower_da_coluna (pp_entidade pessoa)) as [e|e]; cbn [rbind]; [|discriminate].
  intros E. injection E as <-. reflexivity.
Qed.

(** C10, amended: when every active position of a person names the empty
    entity, every conflict a run returns for that person has severity
    [critica]; and the run returns when no NULL stops it. *)
Theorem C10_entidade_vazia_critica (d : db) (pessoa_id : option Z) (pid : Z) :
  (forall c, In c (cargos_politicos d) ->
             TCargos.pessoa_id c = pid -> TCargos.ativo c = 1 ->
             TCargos.entidade c = Some []) ->
  (forall cs,
     fst (detectar_conflitos_interesse pessoa_id d) = Ok cs ->
     Forall (fun k => Conflito.pessoa_id k = pid -> Conflito.gravidade k = critica) cs)
  /\ (sem_nulos d -> returns (fst (detectar_conflitos_interesse pessoa_id d))).
Proof.
  intros Hv. split.
  - intros cs. rewrite detectar_e_encontrados. unfold conflitos_encontrados.
    apply for_extend_r_Forall. intros pessoa r1 Hp.
    apply for_extend_r_Forall. intros assoc r2 _.
    apply for_extend_r_Forall. intros contrato r3 _.
    destruct (avaliar_contrato pessoa assoc contrato) as [[k|]|e] eqn:Ek; cbn [rbind];
      [| |discriminate]; intros E; injection E as <-; cbn [lista_de]; [|constructor].
    constructor; [|constructor]. intros Hid.
    apply (avaliar_contrato_entidade_vazia pessoa assoc contrato k); [|exact Ek].
    rewrite (avaliar_contrato_pessoa _ _ _ _ Ek) in Hid.
    destruct (pessoas_politicas_In d pessoa_id pessoa Hp) as (c & Hin & Hcp & Hca & _ & Hce).
    rewrite Hid in Hcp. rewrite <- Hce. apply (Hv c Hin Hcp Hca).
  - intros Hn. rewrite detectar_e_encontrados, (encontrados_sem_nulos d pessoa_id Hn).
    eexists. reflexivity.
Qed.

Lemma C10_witness :
  (forall cs,
     fst (detectar_conflitos_interesse None ExemplosBD.base_so_entidade_vazia) = Ok cs ->
     Forall (fun k => Conflito.pessoa_id k = 1 -> Conflito.gravidade k = critica) cs)
  /\ (sem_nulos ExemplosBD.base_so_entidade_vazia ->
      returns (fst (detectar_conflitos_interesse None ExemplosBD.base_so_entidade_vazia))).
Proof.
  apply (C10_entidade_vazia_critica ExemplosBD.base_so_entidade_vazia None 1).
  intros c [<-|[]] _ _. reflexivity.
Defined.

(** ** LIKE and the match of names *)

Lemma like_estrela (pat s : pystr) :
  SQL.like (37%N :: pat) s
  = SQL.like pat s || match s with [] => false | _ :: s' => SQL.like (37%N :: pat) s' end.
Proof. destruct s; reflexivity. Qed.

Lemma like_so_estrela (s : pystr) : SQL.like [37%N] s = true.
Proof.
  induction s as [|x s IH]; [reflexivity|].
  rewrite like_estrela, IH. apply orb_true_r.
Qed.

Lemma like_prefixo (q s : pystr) :
  sem_curingas q ->
  SQL.like (q ++ [37%N]) s
  = startswith (List.map SQL.lower_ascii q) (List.map SQL.lower_ascii s).
Proof.
  intros Hq. revert s. induction Hq as [|c q [Hc Hc'] _ IH]; intros s.
  - apply like_so_estrela.
  - cbn [app SQL.like List.map startswith].
    apply N.eqb_neq in Hc, Hc'. rewrite Hc, Hc'.
    destruct s as [|x s]; [reflexivity|]. cbn [List.map orb]. rewrite IH. reflexivity.
Qed.

(** For a name without wildcards, [nome LIKE '%q%'] tells that [q] is part
    of [nome], the case of the letters of ASCII apart. *)
Lemma like_contem (q s : pystr) :
  sem_curingas q ->
  SQL.like (SQL.contem q) s
  = str_in (List.map SQL.lower_ascii q) (List.map SQL.lower_ascii s).
Proof.
  intros Hq. unfold SQL.contem. cbn [app].
  induction s as [|x s IH].
  - rewrite like_estrela, (like_prefixo q [] Hq). reflexivity.
  - rewrite like_estrela, (like_prefixo q (x :: s) Hq), IH. reflexivity.
Qed.

Lemma lower_ascii_lower_cp (x y : N) :
  SQL.lower_ascii x = SQL.lower_ascii y -> lower_cp x = lower_cp y.
Proof.
  unfold SQL.lower_ascii, lower_cp.
  repeat match goal with
         | |- context [(?a <=? ?b)%N] => destruct (N.leb_spec a b)
         | |- context [(?a =? ?b)%N] => destruct (N.eqb_spec a b)
         end; cbn [andb negb]; lia.
Qed.

Lemma startswith_lower (q s : pystr) :
  startswith (List.map SQL.lower_ascii q) (List.map SQL.lower_ascii s) = true ->
  startswith (lower q) (lower s) = true.
Proof.
  revert s. induction q as [|c q IH]; intros s; [reflexivity|].
  destruct s as [|x s]; cbn [List.map startswith lower]; [discriminate|].
  intros H. apply andb_true_iff in H as [Hc Hq]. apply N.eqb_eq in Hc.
  rewrite (lower_ascii_lower_cp c x Hc), N.eqb_refl. apply IH, Hq.
Qed.

Lemma str_in_lower (q s : pystr) :
  str_in (List.map SQL.lower_ascii q) (List.map SQL.lower_ascii s) = true ->
  corresponde q s = true.
Proof.
  unfold corresponde. induction s as [|x s IH]; cbn [List.map str_in]; intros H.
  - rewrite orb_false_r in H.
    change (startswith (lower q) [] || false = true).
    apply orb_true_iff. left. exact (startswith_lower q [] H).
  - change (startswith (lower q) (lower (x :: s)) || str_in (lower q) (lower s) = true).
    apply orb_true_iff. apply orb_true_iff in H as [H|H].
    + left. exact (startswith_lower q (x :: s) H).
    + right. apply IH, H.
Qed.

Lemma pesquisar_pessoa_nenhuma (d : db) (q : pystr) :
  sem_curingas q ->
  (forall p, In p (pessoas d) -> corresponde q (TPessoas.nome p) = false) ->
  pesquisar_pessoa d q = [].
Proof.
  intros Hq Hp. unfold pesquisar_pessoa.
  replace (List.filter _ (pessoas d)) with (@nil TPessoas.t); [reflexivity|].
  symmetry. induction (pessoas d) as [|p l IH]; [reflexivity|].
  cbn [List.filter]. rewrite (like_contem q _ Hq).
  destruct (str_in _ _) eqn:E.
  - apply str_in_lower in E. rewrite (Hp p (or_introl eq_refl)) in E. discriminate E.
  - apply IH. intros p' Hp'. apply Hp. right. exact Hp'.
Qed.

(** C8, as stated, fails: no name of the repository of the test holds the
    character [%], yet the search for [%] finds João Silva and returns his
    two companies and six contracts. *)
Lemma C8_curinga_encontra_pessoa :
  Forall (fun p => corresponde (str "%") (TPessoas.nome p) = false)
    (pessoas ExemplosBD.base)
  /\ exists r,
       fst (pesquisar_contratos_por_pessoa (str "%") ExemplosBD.base) = Ok r
       /\ List.length (empresas_associadas r) = 2%nat
       /\ total_contratos r = 6.
Proof.
  split; [repeat constructor|].
  eexists. split; [vm_compute; reflexivity|]. split; reflexivity.
Qed.

(** C8, amended: for a name without the wildcards [%] and [_] of LIKE, that
    makes a pattern LIKE takes and takes whole (no NUL, no surrogate code
    point, at most 50 000 bytes of UTF-8 with the two [%] around it), and
    that is, the case of ASCII and Latin-1 letters apart, part of no stored
    name, the search returns the empty result (no direct contract, no
    contract of a company, no company, count 0 and value 0), raises nothing
    and leaves the repository as it is. *)
Theorem C8_pessoa_nao_encontrada (d : db) (nome_pessoa : pystr) :
  sem_curingas nome_pessoa ->
  padrao_aceite nome_pessoa = true ->
  (forall p, In p (pessoas d) -> corresponde nome_pessoa (TPessoas.nome p) = false) ->
  exists r,
    pesquisar_contratos_por_pessoa nome_pessoa d = (Ok r, d)
    /\ pessoa r = nome_pessoa
    /\ contratos_diretos r = []
    /\ contratos_empresas r = []
    /\ empresas_associadas r = []
    /\ total_contratos r = 0
    /\ valor_total r = 0%Q.
Proof.
  intros Hq _ Hp. exists (resultado_vazio nome_pessoa).
  split; [|repeat split].
  unfold pesquisar_contratos_por_pessoa, bind, gets.
  rewrite (pesquisar_pessoa_nenhuma d nome_pessoa Hq Hp). reflexivity.
Qed.

Lemma C8_witness :
  exists r,
    pesquisar_contratos_por_pessoa (str "Maria") ExemplosBD.base = (Ok r, ExemplosBD.base)
    /\ pessoa r = str "Maria"
    /\ contratos_diretos r = []
    /\ contratos_empresas r = []
    /\ empresas_associadas r = []
    /\ total_contratos r = 0
    /\ valor_total r = 0%Q.
Proof.
  apply (C8_pessoa_nao_encontrada ExemplosBD.base (str "Maria")).
  - repeat constructor; discriminate.
  - reflexivity.
  - intros p [<-|[]]. reflexivity.
Defined.

(** The search for João Silva in the repository of the test: his two
    companies, their two contracts, 300 000 in all. *)
Example pesquisa_joao_silva :
  exists r,
    fst (pesquisar_contratos_por_pessoa (str "João Silva") ExemplosBD.base) = Ok r
    /\ empresas_associadas r
       = [str "Construtora Silva & Filhos Lda"; str "Consultoria JPS Lda"]
    /\ total_contratos r = 2
    /\ valor_total r = 300000%Q.
Proof. eexists. split; [vm_compute; reflexivity|]. repeat split. Qed.

(** ** The exploration of connections *)

(** What one figure gives: no connection to a visited figure. *)
Lemma explorar_nao_visitados (d : db) (visitados : gset Z) (atual_id nivel : Z) :
  Forall (fun k => (Conexao.destino_id k ∉ visitados) /\ Conexao.destino_id k <> atual_id)
    (explorar d visitados atual_id nivel).
Proof.
  unfold explorar. apply List.Forall_forall. intros k Hk.
  apply List.in_flat_map in Hk as (c & _ & Hk).
  apply List.in_flat_map in Hk as ([[nome nif] papel] & _ & Hk).
  unfold conexao_da_entidade in Hk.
  destruct (figura_com_nome d nome) as [id|]; [|destruct Hk].
  destruct (negb (id =? 0) && negb (id =? atual_id) && negb (bool_decide (id ∈ visitados)))
    eqn:E; [|destruct Hk].
  destruct Hk as [<-|[]]. cbn [Conexao.destino_id].
  apply andb_true_iff in E as [E Hv]. apply andb_true_iff in E as [_ Ha].
  apply negb_true_iff in Hv, Ha. apply bool_decide_eq_false in Hv. apply Z.eqb_neq in Ha.
  split; assumption.
Qed.

(** The loop keeps the connections away from a visited figure. *)
Lemma ciclo_nunca_visitado (d : db) (profundidade a : Z) (n : nat) :
  forall (conexoes : list Conexao.t) (visitados : gset Z) (fila : list entrada)
         (cs : list Conexao.t),
    a ∈ visitados ->
    Forall (fun k => Conexao.destino_id k <> a) conexoes ->
    ciclo d profundidade n conexoes visitados fila = Some cs ->
    Forall (fun k => Conexao.destino_id k <> a) cs.
Proof.
  induction n as [|n IH]; intros conexoes visitados fila cs Ha Hc; cbn [ciclo];
    [discriminate|].
  destruct fila as [|[[atual_id nivel] origem] fila]; [intros E; injection E as <-; exact Hc|].
  destruct (bool_decide (atual_id ∈ visitados) || (profundidade <=? nivel)).
  - apply IH; assumption.
  - apply IH; [set_solver|].
    apply Forall_app. split; [exact Hc|].
    eapply Forall_impl; [apply explorar_nao_visitados|].
    intros k [Hk _] E. apply Hk. rewrite E. set_solver.
Qed.

(** *** The loop ends *)

Lemma inserir_ordenado_length {A} (antes : A -> A -> bool) (x : A) (l : list A) :
  List.length (SQL.inserir_ordenado antes x l) = S (List.length l).
Proof.
  induction l as [|y l IH]; cbn [SQL.inserir_ordenado List.length]; [reflexivity|].
  destruct (antes y x); cbn [List.length]; [rewrite IH|]; reflexivity.
Qed.

Lemma order_by_length {A} (antes : A -> A -> bool) (l : list A) :
  List.length (SQL.order_by antes l) = List.length l.
Proof.
  unfold SQL.order_by. induction l as [|x l IH]; cbn [List.fold_right List.length];
    [reflexivity|].
  rewrite inserir_ordenado_length, IH. reflexivity.
Qed.

Lemma pesquisar_contratos_por_figura_length (d : db) (figura_id : Z) :
  (List.length (pesquisar_contratos_por_figura d figura_id) <= List.length (contratos d))%nat.
Proof.
  unfold pesquisar_contratos_por_figura.
  destruct (List.find _ _); [|cbn [List.length]; lia].
  rewrite order_by_length. apply List.filter_length_le.
Qed.

Lemma flat_map_length_le {A B} (f : A -> list B) (m : nat) (l : list A) :
  (forall x, (List.length (f x) <= m)%nat) ->
  (List.length (List.flat_map f l) <= m * List.length l)%nat.
Proof.
  intros Hf. induction l as [|x l IH]; cbn [List.flat_map List.length]; [lia|].
  rewrite List.length_app. specialize (Hf x). lia.
Qed.

Lemma explorar_length (d : db) (visitados : gset Z) (atual_id nivel : Z) :
  (List.length (explorar d visitados atual_id nivel) <= peso d)%nat.
Proof.
  unfold explorar, peso.
  etransitivity; [apply (flat_map_length_le _ 2)|].
  - intros c. etransitivity; [apply (flat_map_length_le _ 1)|].
    + intros [[nome nif] papel]. unfold conexao_da_entidade.
      destruct (figura_com_nome d nome); [|cbn; lia].
      destruct (_ && _); cbn; lia.
    + unfold _extrair_entidades_contrato, entidade_de. rewrite List.length_app.
      destruct (TContratos.adjudicante c) as [n1|], (TContratos.adjudicataria c) as [n2|];
        try destruct (nao_vazio n1); try destruct (nao_vazio n2); cbn [List.length]; lia.
  - pose proof (pesquisar_contratos_por_figura_length d atual_id). lia.
Qed.

Lemma enfileirar_length (profundidade nivel : Z) (novas : list Conexao.t) :
  (List.length (enfileirar profundidade nivel novas) <= List.length novas)%nat.
Proof.
  unfold enfileirar. destruct (_ <? _); [rewrite List.length_map|cbn [List.length]]; lia.
Qed.

Lemma figura_com_nome_candidato (d : db) (a : Z) (nome : pystr) (id : Z) :
  figura_com_nome d nome = Some id -> id ∈ candidatos d a.
Proof.
  unfold figura_com_nome, candidatos.
  destruct (List.find _ _) as [fig|] eqn:E; [|discriminate].
  intros H. injection H as <-. apply List.find_some in E as [E _].
  unfold listar_figuras_interesse in E. apply order_by_In in E.
  apply List.filter_In in E as [E _].
  apply elem_of_union_r, elem_of_list_to_set, list_elem_of_In, List.in_map, E.
Qed.

Lemma explorar_candidatos (d : db) (a : Z) (visitados : gset Z) (atual_id nivel : Z) :
  Forall (fun k => Conexao.destino_id k ∈ candidatos d a)
    (explorar d visitados atual_id nivel).
Proof.
  unfold explorar. apply List.Forall_forall. intros k Hk.
  apply List.in_flat_map in Hk as (c & _ & Hk).
  apply List.in_flat_map in Hk as ([[nome nif] papel] & _ & Hk).
  unfold conexao_da_entidade in Hk.
  destruct (figura_com_nome d nome) as [id|] eqn:Ef; [|destruct Hk].
  destruct (_ && _); [|destruct Hk].
  destruct Hk as [<-|[]]. cbn [Conexao.destino_id].
  eapply figura_com_nome_candidato, Ef.
Qed.

Lemma enfileirar_candidatos (d : db) (a profundidade nivel : Z) (novas : list Conexao.t) :
  Forall (fun k => Conexao.destino_id k ∈ candidatos d a) novas ->
  Forall (fun e : entrada => e.1.1 ∈ candidatos d a) (enfileirar profundidade nivel novas).
Proof.
  intros H. unfold enfileirar. destruct (_ <? _); [|constructor].
  induction H as [|k l Hk _ IH]; cbn [List.map]; constructor; assumption.
Qed.

Lemma diferenca_diminui (C v : gset Z) (a : Z) :
  a ∈ C -> a ∉ v -> C ∖ (v ∪ {[a]}) ⊂ C ∖ v.
Proof.
  intros Ha Hv. split.
  - intros x Hx. apply elem_of_difference in Hx as [Hx Hn].
    apply elem_of_difference. split; [exact Hx|].
    intros Hxv. apply Hn, elem_of_union_l, Hxv.
  - intros Hsub. assert (Hin : a ∈ C ∖ v) by (apply elem_of_difference; split; assumption).
    apply Hsub, elem_of_difference in Hin as [_ Hn].
    apply Hn, elem_of_union_r, elem_of_singleton. reflexivity.
Qed.

(** With turns above the length of the queue plus [peso d] for each
    candidate not yet visited, the loop runs until the queue is empty. *)
Lemma ciclo_termina (d : db) (profundidade a : Z) (n : nat) :
  forall (conexoes : list Conexao.t) (visitados : gset Z) (fila : list entrada),
    Forall (fun e : entrada => e.1.1 ∈ candidatos d a) fila ->
    (List.length fila + peso d * size (candidatos d a ∖ visitados) < n)%nat ->
    exists cs, ciclo d profundidade n conexoes visitados fila = Some cs.
Proof.
  induction n as [|n IH]; intros conexoes visitados fila Hf Hn; [lia|].
  cbn [ciclo]. destruct fila as [|[[atual_id nivel] origem] fila]; [eexists; reflexivity|].
  apply Forall_cons in Hf as [Ha Hf]. cbn [fst] in Ha. cbn [List.length] in Hn.
  destruct (bool_decide (atual_id ∈ visitados)) eqn:Ev; cbn [orb].
  - apply IH; [exact Hf|lia].
  - destruct (profundidade <=? nivel); [apply IH; [exact Hf|lia]|].
    apply bool_decide_eq_false in Ev.
    apply IH.
    + apply Forall_app. split; [exact Hf|].
      apply enfileirar_candidatos, explorar_candidatos.
    + rewrite List.length_app.
      pose proof (enfileirar_length profundidade nivel
                    (explorar d (visitados ∪ {[atual_id]}) atual_id nivel)) as H1.
      pose proof (explorar_length d (visitados ∪ {[atual_id]}) atual_id nivel) as H2.
      assert (H3 : (size (candidatos d a ∖ (visitados ∪ {[atual_id]}))
                    < size (candidatos d a ∖ visitados))%nat).
      { apply subset_size, diferenca_diminui; assumption. }
      nia.
Qed.

Lemma detetar_conexoes_termina (d : db) (figura_id profundidade : Z) :
  exists cs, detetar_conexoes d figura_id profundidade = Some cs.
Proof.
  unfold detetar_conexoes. apply (ciclo_termina d profundidade figura_id).
  - constructor; [|constructor]. cbn [fst]. unfold candidatos. set_solver.
  - unfold voltas. cbn [List.length].
    rewrite difference_empty_L.
    lia.
Qed.

Lemma detetar_conexoes_nunca_a_origem (d : db) (figura_id profundidade : Z)
    (cs : list Conexao.t) :
  detetar_conexoes d figura_id profundidade = Some cs ->
  Forall (fun k => Conexao.destino_id k <> figura_id) cs.
Proof.
  unfold detetar_conexoes. destruct (voltas d figura_id) as [|n]; [discriminate|].
  cbn [ciclo]. destruct (bool_decide (figura_id ∈ ∅) || (profundidade <=? 0)).
  - destruct n; cbn [ciclo]; [discriminate|]. intros E. injection E as <-. constructor.
  - apply ciclo_nunca_visitado; [set_solver|].
    cbn [app]. eapply Forall_impl; [apply explorar_nao_visitados|].
    intros k [_ Hk]. exact Hk.
Qed.

(** C7: for every repository and every figure A, [detetar_conexoes] from A
    with depth 1 returns, and none of the connections it returns has A for
    destination.  The same holds for every depth. *)
Theorem C7_nenhuma_conexao_para_a_origem (d : db) (figura_id : Z) :
  (exists cs,
     detetar_conexoes d figura_id 1 = Some cs
     /\ Forall (fun k => Conexao.destino_id k <> figura_id) cs)
  /\ (forall profundidade,
        exists cs,
          detetar_conexoes d figura_id profundidade = Some cs
          /\ Forall (fun k => Conexao.destino_id k <> figura_id) cs).
Proof.
  assert (H : forall profundidade,
             exists cs,
               detetar_conexoes d figura_id profundidade = Some cs
               /\ Forall (fun k => Conexao.destino_id k <> figura_id) cs).
  { intros profundidade.
    destruct (detetar_conexoes_termina d figura_id profundidade) as (cs & E).
    exists cs. split; [exact E|].
    apply (detetar_conexoes_nunca_a_origem d figura_id profundidade cs E). }
  split; [apply H|exact H].
Qed.

(** From the chamber of Lisbon, depth 1: one connection, to the builder. *)
Example conexoes_da_camara :
  option_map (List.map (fun k => (Conexao.origem_id k, Conexao.destino_id k, Conexao.nivel k)))
    (detetar_conexoes ExemplosFiguras.base 1 1)
  = Some [(1, 2, 1)].
Proof. vm_compute. reflexivity. Qed.

(** ** The analysis returns on well-formed contracts *)

Section Devolve.

Variable h : heap.

Lemma devolve_ret {A} (Q : A -> Prop) (a : A) : Q a -> devolve h Q (ret a).
Proof. intros Ha. exists a. split; [reflexivity|exact Ha]. Qed.

Lemma devolve_lift {A} (Q : A -> Prop) (r : result A) (a : A) :
  r = Ok a -> Q a -> devolve h Q (lift r).
Proof. intros -> Ha. exists a. split; [reflexivity|exact Ha]. Qed.

Lemma devolve_bind {A B} (Q : A -> Prop) (R : B -> Prop) (m : M heap A)
    (f : A -> M heap B) :
  devolve h Q m -> (forall a, Q a -> devolve h R (f a)) -> devolve h R (bind m f).
Proof.
  intros (a & Hm & Ha) Hf. destruct (Hf a Ha) as (b & Hb & HR).
  exists b. split; [|exact HR]. unfold bind. rewrite Hm. exact Hb.
Qed.

Lemma devolve_read {B} (R : B -> Prop) (r : ref) (f : contrato -> M heap B) :
  devolve h R (f (h r)) -> devolve h R (c <- read r ;; f c).
Proof. intros H. exact H. Qed.

Lemma devolve_for_extend {A B} (l : list A) (body : A -> M heap (list B)) :
  Forall (fun x => devolve h tudo (body x)) l -> devolve h tudo (for_extend l body).
Proof.
  induction 1 as [|x l Hx _ IH]; cbn [for_extend]; [apply devolve_ret; exact I|].
  eapply devolve_bind; [exact Hx|]. intros r _.
  eapply devolve_bind; [exact IH|]. intros rs _. apply devolve_ret. exact I.
Qed.

(** A list comprehension whose element only reads the dict. *)
Lemma devolve_for_map {A} (g : contrato -> A) (l : list ref) :
  devolve h (fun ys => ys = List.map (fun r => g (h r)) l)
    (for_map l (fun r => c <- read r ;; ret (g c))).
Proof.
  induction l as [|r l IH]; cbn [for_map List.map]; [apply devolve_ret; reflexivity|].
  eapply devolve_bind; [apply devolve_read, (devolve_ret (fun y => y = g (h r))); reflexivity|].
  intros y ->. eapply devolve_bind; [exact IH|]. intros ys ->.
  apply devolve_ret. reflexivity.
Qed.

Lemma devolve_for_filter_Forall {A} (Q : A -> Prop) (l : list A) (p : A -> M heap bool) :
  Forall Q l ->
  Forall (fun x => devolve h tudo (p x)) l -> devolve h (Forall Q) (for_filter l p).
Proof.
  intros HQ. induction 1 as [|x l Hx _ IH]; cbn [for_filter];
    [apply devolve_ret; constructor|].
  apply Forall_cons in HQ as [Hqx HQ].
  eapply devolve_bind; [exact Hx|]. intros b _.
  eapply devolve_bind; [exact (IH HQ)|]. intros xs Hxs. apply devolve_ret.
  destruct b; [constructor|]; assumption.
Qed.

Lemma devolve_fraco {A} (Q Q' : A -> Prop) (m : M heap A) :
  devolve h Q m -> (forall a, Q a -> Q' a) -> devolve h Q' m.
Proof. intros (a & Hm & Ha) HQ. exists a. split; [exact Hm|apply HQ, Ha]. Qed.

End Devolve.

Lemma bem_formado_campos (cfg : config) (c : contrato) :
  bem_formado cfg c ->
  (exists q, get (valor c) (PyNum 0) = PyNum q)
  /\ (exists s, get (tipo_contrato c) (PyStr []) = PyStr s)
  /\ (exists s, get (tipo_procedimento c) (PyStr []) = PyStr s)
  /\ (exists s, get (objeto_contrato c) (PyStr []) = PyStr s).
Proof.
  intros [Hv Ht Hp Ho _].
  repeat split.
  - destruct Hv as [->|(q & ->)]; eexists; reflexivity.
  - destruct Ht as [->|(s & ->)]; eexists; reflexivity.
  - destruct Hp as [->|(s & ->)]; eexists; reflexivity.
  - destruct Ho as [->|(s & ->)]; eexists; reflexivity.
Qed.

(** The date of a well-formed dict: false and then a string or absent, or
    true and then a date the rules can use. *)
Lemma bem_formado_data (cfg : config) (c : contrato) :
  bem_formado cfg c ->
  (tem_data c = false /\ exists s, get (data_contrato c) (PyStr []) = PyStr s)
  \/ (tem_data c = true
      /\ exists s d fim2 fim4,
           data_contrato c = Some (PyStr s) /\ strptime (PyStr s) = Ok d
           /\ add_days d (janela_fracionamento_dias cfg) = Ok fim2
           /\ add_days d (janela_concentracao_dias cfg) = Ok fim4).
Proof.
  intros [_ _ _ _ Hd]. unfold tem_data, get_.
  destruct Hd as [->|[->|(s & d & f2 & f4 & -> & Hs & H2 & H4)]].
  - left. split; [reflexivity|eexists; reflexivity].
  - left. split; [reflexivity|eexists; reflexivity].
  - right. split.
    + destruct s; [discriminate Hs|reflexivity].
    + exists s, d, f2, f4. auto.
Qed.

Ltac partir_se :=
  repeat match goal with
         | |- context [if ?b then _ else _] => destruct b
         end.

Lemma valores_suspeitos_devolve (cfg : config) (c : contrato) :
  bem_formado cfg c -> exists l, valores_suspeitos_contrato cfg c = Ok l.
Proof.
  intros H. destruct (bem_formado_campos cfg c H) as ((q & Hq) & (s & Hs) & (p & Hp) & _).
  unfold valores_suspeitos_contrato. rewrite Hq, Hs, Hp.
  cbn [py_lower py_num rbind limite_ajuste_direto limite_consulta_previa].
  partir_se; eexists; reflexivity.
Qed.

Lemma quase_redondos_devolve (id : pyval) (q : Q) (limites : list Z) :
  exists l, quase_redondos id (PyNum q) limites = Ok l.
Proof.
  induction limites as [|lim limites (l & IH)]; cbn [quase_redondos py_num rbind];
    [eexists; reflexivity|].
  rewrite IH. cbn [rbind]. eexists; reflexivity.
Qed.

Lemma valores_redondos_devolve (cfg : config) (c : contrato) :
  bem_formado cfg c -> exists l, valores_redondos_contrato cfg c = Ok l.
Proof.
  intros H. destruct (bem_formado_campos cfg c H) as ((q & Hq) & _).
  unfold valores_redondos_contrato. rewrite Hq.
  destruct (quase_redondos_devolve (get_ (id_contrato c)) q limites_redondos) as (l & ->).
  cbn [rbind]. eexists; reflexivity.
Qed.

Lemma procedimento_inadequado_devolve (cfg : config) (c : contrato) :
  bem_formado cfg c -> exists l, procedimento_inadequado_contrato c = Ok l.
Proof.
  intros H. destruct (bem_formado_campos cfg c H) as ((q & Hq) & (s & Hs) & (p & Hp) & _).
  unfold procedimento_inadequado_contrato. rewrite Hq, Hs, Hp.
  cbn [py_lower py_num rbind limite_ajuste_direto limite_consulta_previa].
  destruct (_ || _); eexists; reflexivity.
Qed.

Section AnaliseDevolve.

Variable cfg : config.
Variable h : heap.

Let Bom (r : ref) : Prop := bem_formado cfg (h r).

Lemma devolve_por_contrato (f : contrato -> result (list padrao)) (l : list ref) :
  (forall c, bem_formado cfg c -> exists ps, f c = Ok ps) ->
  Forall Bom l ->
  devolve h tudo (for_extend l (fun r => c <- read r ;; lift (f c))).
Proof.
  intros Hf Hl. apply devolve_for_extend.
  eapply Forall_impl; [exact Hl|]. intros r Hr.
  apply devolve_read. destruct (Hf (h r) Hr) as (ps & E).
  eapply devolve_lift; [exact E|exact I].
Qed.

Lemma devolve_agrupar {K} (eqb : K -> K -> bool) (chave : contrato -> result K)
    (Q : ref -> Prop) (l : list ref) (g : list (K * list ref)) :
  (forall r, Q r -> exists k, chave (h r) = Ok k) ->
  Forall Q l -> Forall (fun kl => Forall Q (snd kl)) g ->
  devolve h (Forall (fun kl => Forall Q (snd kl))) (agrupar eqb chave l g).
Proof.
  intros Hk Hl. revert g. induction Hl as [|r l Hr _ IH]; intros g Hg; cbn [agrupar].
  - apply devolve_ret. exact Hg.
  - apply devolve_read. destruct (Hk r Hr) as (k & E).
    eapply devolve_bind; [eapply (devolve_lift h (fun k' => k' = k)); [exact E|reflexivity]|].
    intros k' ->. apply IH. apply group_add_refs; assumption.
Qed.

Lemma devolve_soma_valores (l : list ref) :
  Forall Bom l -> devolve h tudo (soma_valores l).
Proof.
  intros Hl. unfold soma_valores.
  eapply devolve_bind; [apply devolve_for_map|]. intros vs ->.
  assert (H : forall acc, exists q,
               py_sum_from acc (List.map (fun r => get (valor (h r)) (PyNum 0)) l) = Ok q).
  { induction Hl as [|r l Hr _ IH]; intros acc; cbn [List.map py_sum_from];
      [eexists; reflexivity|].
    destruct (bem_formado_campos cfg (h r) Hr) as ((q & ->) & _).
    cbn [py_num rbind]. apply IH. }
  destruct (H 0%Q) as (q & E). eapply devolve_lift; [exact E|exact I].
Qed.

(** The sort of a list of references by a key that is a string on each. *)
Lemma devolve_ordenar (chave : contrato -> result pyval) (Q : ref -> Prop) (l : list ref) :
  (forall r, Q r -> exists s, chave (h r) = Ok (PyStr s)) ->
  Forall Q l -> devolve h (Forall Q) (ordenar chave l).
Proof.
  intros Hk Hl. unfold ordenar.
  assert (H : devolve h
                (fun ks => Forall (fun kr => Q (snd kr)) ks
                           /\ forallb (fun kr => is_str (fst kr)) ks = true)
                (for_map l (fun r => c <- read r ;; k <- lift (chave c) ;; ret (k, r)))).
  { induction Hl as [|r l Hr _ IH]; cbn [for_map].
    - apply devolve_ret. split; [constructor|reflexivity].
    - destruct (Hk r Hr) as (s & E).
      eapply devolve_bind.
      + apply devolve_read.
        eapply devolve_bind;
          [eapply (devolve_lift h (fun k => k = PyStr s)); [exact E|reflexivity]|].
        intros k ->. apply (devolve_ret h (fun kr => kr = (PyStr s, r))). reflexivity.
      + intros kr ->. eapply devolve_bind; [exact IH|]. intros ks [Hq Hs].
        apply devolve_ret. split; [constructor; assumption|].
        cbn [forallb fst is_str andb]. exact Hs. }
  eapply devolve_bind; [exact H|]. intros ks [Hq Hs].
  destruct (sort_by_key ks) as [s|e] eqn:E.
  - eapply devolve_lift; [reflexivity|]. eapply sort_by_key_snd; [exact Hq|exact E].
  - unfold sort_by_key in E. rewrite Hs in E. cbn [orb] in E.
    destruct (_ <? _)%nat; discriminate E.
Qed.

Lemma devolve_na_janela (guarded : bool) (fim : Z) (Q : ref -> Prop) (l : list ref) :
  (forall r, Q r -> Bom r /\ (guarded = false -> tem_data (h r) = true)) ->
  Forall Q l -> devolve h (Forall Q) (na_janela guarded fim l).
Proof.
  intros HQ Hl. unfold na_janela. apply devolve_for_filter_Forall; [exact Hl|].
  eapply Forall_impl; [exact Hl|]. intros r Hr. apply devolve_read.
  destruct (HQ r Hr) as [Hb Hg].
  destruct (bem_formado_data cfg (h r) Hb) as [[Hf _]|(Ht & s & d & f2 & f4 & Hs & Hd & _)].
  - unfold tem_data in Hf. rewrite Hf. destruct guarded; cbn [andb negb].
    + apply devolve_ret. exact I.
    + specialize (Hg eq_refl). unfold tem_data in Hg. congruence.
  - unfold tem_data in Ht. rewrite Ht, andb_false_r. rewrite Hs. cbn [index].
    eapply devolve_bind;
      [eapply (devolve_lift h (fun v => v = PyStr s)); reflexivity|].
    intros v ->.
    eapply devolve_bind; [eapply (devolve_lift h tudo); [exact Hd|exact I]|].
    intros d' _. apply devolve_ret. exact I.
Qed.

Hypothesis min_positivo : 0 < min_contratos_fracionamento cfg.

Lemma devolve_janelas_fracionamento (par : par4) (l : list ref) :
  Forall Bom l -> devolve h tudo (janelas_fracionamento cfg par l).
Proof.
  induction 1 as [|r l Hr Hl IH]; cbn [janelas_fracionamento];
    [apply devolve_ret; exact I|].
  apply devolve_read.
  destruct (bem_formado_data cfg (h r) Hr) as [[Hf _]|(Ht & s & d & f2 & f4 & Hs & Hd & H2 & _)].
  - unfold tem_data in Hf. rewrite Hf. cbn [negb]. exact IH.
  - unfold tem_data in Ht. rewrite Ht. cbn [negb].
    unfold get_. rewrite Hs. cbn [get].
    eapply devolve_bind; [eapply (devolve_lift h (fun x => x = d)); [exact Hd|reflexivity]|].
    intros ? ->.
    eapply devolve_bind; [eapply (devolve_lift h tudo); [exact H2|exact I]|].
    intros fim _.
    eapply devolve_bind.
    { apply (devolve_na_janela true fim Bom (r :: l)).
      - intros r' Hr'. split; [exact Hr'|discriminate].
      - constructor; assumption. }
    intros cj Hcj.
    destruct (_ <=? len cj) eqn:Hmin; [|exact IH].
    eapply devolve_bind; [apply devolve_soma_valores, Hcj|]. intros total _.
    destruct cj as [|r0 cj'].
    { apply Z.leb_le in Hmin. unfold len in Hmin. cbn [List.length Z.of_nat] in Hmin. lia. }
    apply devolve_read.
    apply Forall_cons in Hcj as Hcj'. destruct Hcj' as [Hr0 _].
    destruct (bem_formado_campos cfg (h r0) Hr0) as (_ & (t & Htipo) & _).
    rewrite Htipo. cbn [limite_ajuste_direto].
    eapply devolve_bind; [eapply (devolve_lift h tudo); [reflexivity|exact I]|].
    intros limite _. destruct (Qlt_bool _ _); [|exact IH].
    eapply devolve_bind; [apply devolve_for_map|]. intros ids _.
    apply devolve_ret. exact I.
Qed.

Lemma devolve_fracionamento (contratos : list ref) :
  Forall Bom contratos -> devolve h tudo (_detectar_fracionamento cfg contratos).
Proof.
  intros Hl. unfold _detectar_fracionamento.
  eapply devolve_bind.
  { apply (devolve_agrupar par4_eqb par4_de Bom contratos
             (@nil (par4 * list ref))); [|exact Hl|constructor].
    intros r Hr. unfold par4_de.
    destruct (bem_formado_campos cfg (h r) Hr) as (_ & _ & _ & (o & ->)).
    cbn [py_slice_to rbind]. eexists; reflexivity. }
  intros pares Hp. apply devolve_for_extend.
  eapply Forall_impl; [exact Hp|]. intros [par cp] Hcp. cbn [snd] in Hcp.
  unfold fracionamento_par. destruct (_ <? _); [apply devolve_ret; exact I|].
  eapply devolve_bind.
  { apply (devolve_ordenar _ Bom); [|exact Hcp].
    intros r Hr.
    destruct (bem_formado_data cfg (h r) Hr) as [[_ (s & ->)]|(_ & s & d & f2 & f4 & -> & _)];
      eexists; reflexivity. }
  intros ordenados Ho. apply devolve_janelas_fracionamento, Ho.
Qed.

Lemma devolve_contratos_repetidos (contratos : list ref) :
  Forall Bom contratos -> devolve h tudo (_detectar_contratos_repetidos cfg contratos).
Proof.
  intros Hl. unfold _detectar_contratos_repetidos.
  eapply devolve_bind.
  { apply (devolve_agrupar par2_eqb par2_de Bom contratos
             (@nil (pyval * pyval * list ref))); [|exact Hl|constructor].
    intros r Hr. eexists; reflexivity. }
  intros pares Hp. apply devolve_for_extend.
  eapply Forall_impl; [exact Hp|]. intros [par cp] Hcp. cbn [snd] in Hcp.
  unfold repetidos_par. destruct (_ <=? _); [|apply devolve_ret; exact I].
  eapply devolve_bind; [apply devolve_soma_valores, Hcp|]. intros total _.
  apply devolve_ret. exact I.
Qed.

Let Datado (r : ref) : Prop := Bom r /\ tem_data (h r) = true.

Lemma devolve_janelas_concentracao (l : list ref) :
  Forall Datado l -> devolve h tudo (janelas_concentracao cfg l).
Proof.
  induction 1 as [|r l Hr Hl IH]; cbn [janelas_concentracao];
    [apply devolve_ret; exact I|].
  apply devolve_read. destruct Hr as [Hb Ht].
  destruct (bem_formado_data cfg (h r) Hb) as [[Hf _]|(_ & s & d & f2 & f4 & Hs & Hd & _ & H4)];
    [congruence|].
  rewrite Hs. cbn [index].
  eapply devolve_bind; [eapply (devolve_lift h (fun v => v = PyStr s)); reflexivity|].
  intros ? ->.
  eapply devolve_bind; [eapply (devolve_lift h (fun x => x = d)); [exact Hd|reflexivity]|].
  intros ? ->.
  eapply devolve_bind; [eapply (devolve_lift h tudo); [exact H4|exact I]|].
  intros fim _.
  eapply devolve_bind.
  { apply (devolve_na_janela false fim Datado (r :: l)).
    - intros r' [Hb' Ht']. split; [exact Hb'|intros _; exact Ht'].
    - constructor; [split|]; assumption. }
  intros cj Hcj. destruct (_ <=? _); [|exact IH].
  eapply devolve_bind.
  { apply devolve_soma_valores. eapply Forall_impl; [exact Hcj|]. intros r' [Hb' _]. exact Hb'. }
  intros total _. apply devolve_ret. exact I.
Qed.

Lemma devolve_concentracao_temporal (contratos : list ref) :
  Forall Bom contratos -> devolve h tudo (_detectar_concentracao_temporal cfg contratos).
Proof.
  intros Hl. unfold _detectar_concentracao_temporal.
  assert (H : devolve h (Forall Datado)
                (for_filter contratos
                   (fun r => c <- read r ;; ret (truthy (get_ (data_contrato c)))))).
  { induction Hl as [|r l Hr _ IH]; cbn [for_filter]; [apply devolve_ret; constructor|].
    eapply devolve_bind;
      [apply devolve_read, (devolve_ret h (fun b => b = tem_data (h r))); reflexivity|].
    intros b ->. eapply devolve_bind; [exact IH|]. intros xs Hxs. apply devolve_ret.
    destruct (tem_data (h r)) eqn:E; [constructor; [split|]|]; assumption. }
  eapply devolve_bind; [exact H|]. intros datas Hd.
  destruct datas as [|r0 datas']; [apply devolve_ret; exact I|].
  eapply devolve_bind.
  { apply (devolve_ordenar _ Datado); [|exact Hd].
    intros r [Hb Ht].
    destruct (bem_formado_data cfg (h r) Hb) as [[Hf _]|(_ & s & d & f2 & f4 & -> & _)];
      [congruence|]. eexists; reflexivity. }
  intros ordenadas Ho. apply devolve_janelas_concentracao, Ho.
Qed.

Lemma devolve_quando (b : bool) (m : M heap (list padrao)) :
  devolve h tudo m -> devolve h tudo (quando b m).
Proof. intros H. destruct b; [exact H|apply devolve_ret; exact I]. Qed.

Lemma devolve_analisar (contratos : list ref) :
  Forall Bom contratos -> devolve h tudo (analisar_contratos cfg contratos).
Proof.
  intros Hl. unfold analisar_contratos.
  eapply devolve_bind.
  { apply devolve_quando, devolve_por_contrato; [|exact Hl].
    apply valores_suspeitos_devolve. }
  intros p1 _. eapply devolve_bind; [apply devolve_quando, devolve_fracionamento, Hl|].
  intros p2 _. eapply devolve_bind; [apply devolve_quando, devolve_contratos_repetidos, Hl|].
  intros p3 _. eapply devolve_bind; [apply devolve_quando, devolve_concentracao_temporal, Hl|].
  intros p4 _. eapply devolve_bind.
  { apply devolve_quando, devolve_por_contrato; [|exact Hl].
    apply valores_redondos_devolve. }
  intros p5 _. eapply devolve_bind.
  { apply devolve_quando, devolve_por_contrato; [|exact Hl].
    apply procedimento_inadequado_devolve. }
  intros p6 _. eapply devolve_bind.
  { apply devolve_quando. destruct (vesperas_feriados_retorna contratos h) as (ps & E).
    exists ps. split; [exact E|exact I]. }
  intros p7 _. apply devolve_ret. exact I.
Qed.

End AnaliseDevolve.

(** X1.  [analisar_contratos] raises nothing on well-formed contract dicts:
    when every dict of the list has a number (or nothing) under 'valor', a
    string (or nothing) under 'tipo_contrato', 'tipo_procedimento' and
    'objeto_contrato', and under 'data_contrato' nothing, the empty string or
    a date in the format YYYY-MM-DD, written with the digits of ASCII, whose
    windows end within the calendar, the configured minimum of rule 2 is at least 1, and the numbers are
    such as the descriptions of the findings can print (the absolute values
    of the contracts add up to less than 2^1023, and the two margins of the
    configuration are below it), the call returns a list of findings and
    leaves the store as it was. *)
Theorem analisar_contratos_devolve (cfg : config) (contratos : list ref) (h : heap) :
  (forall r, In r contratos -> bem_formado cfg (h r)) ->
  0 < min_contratos_fracionamento cfg ->
  numeros_formataveis cfg contratos h = true ->
  exists ps, analisar_contratos cfg contratos h = (Ok ps, h).
Proof.
  intros Hl Hmin _.
  destruct (devolve_analisar cfg h Hmin contratos) as (ps & E & _).
  - apply List.Forall_forall. exact Hl.
  - exists ps. exact E.
Qed.

Lemma analisar_contratos_devolve_witness :
  exists ps,
    analisar_contratos _get_default_config [0; 1; 2]%nat (Exemplos.so Exemplos.TEST001)
    = (Ok ps, Exemplos.so Exemplos.TEST001).
Proof.
  apply analisar_contratos_devolve.
  - intros r _. constructor.
    + right. eexists. reflexivity.
    + right. eexists. reflexivity.
    + right. eexists. reflexivity.
    + left. reflexivity.
    + right. right. eexists _, _, _, _. repeat split; reflexivity.
  - reflexivity.
  - vm_compute. reflexivity.
Defined.

(** ** What the rules of the detector report, and when they raise *)

Lemma bind_inv {S A B} (m : M S A) (f : A -> M S B) (s s' : S) (b : B) :
  bind m f s = (Ok b, s') -> exists a s1, m s = (Ok a, s1) /\ f a s1 = (Ok b, s').
Proof.
  unfold bind. destruct (m s) as [[a|e] s1]; [|discriminate].
  intros H. exists a, s1. split; [reflexivity|exact H].
Qed.

Lemma lift_inv {S A} (r : result A) (s s' : S) (a : A) :
  lift r s = (Ok a, s') -> r = Ok a /\ s' = s.
Proof. unfold lift. intros H. injection H as -> ->. split; reflexivity. Qed.

Lemma ret_inv {S A} (a a' : A) (s s' : S) :
  ret a s = (Ok a', s') -> a' = a /\ s' = s.
Proof. unfold ret. intros H. injection H as -> ->. split; reflexivity. Qed.

Lemma for_map_length {S A B} (f : A -> M S B) (l : list A) (s s' : S) (ys : list B) :
  for_map l f s = (Ok ys, s') -> List.length ys = List.length l.
Proof.
  revert s s' ys. induction l as [|x l IH]; intros s s' ys; cbn [for_map].
  - intros H. apply ret_inv in H as [-> _]. reflexivity.
  - intros H. apply bind_inv in H as (y & s1 & _ & H).
    apply bind_inv in H as (ys' & s2 & H & H').
    apply ret_inv in H' as [-> _]. cbn [List.length]. f_equal. exact (IH _ _ _ H).
Qed.

Lemma for_filter_length {S A} (p : A -> M S bool) (l : list A) (s s' : S) (xs : list A) :
  for_filter l p s = (Ok xs, s') -> (List.length xs <= List.length l)%nat.
Proof.
  revert s s' xs. induction l as [|x l IH]; intros s s' xs; cbn [for_filter].
  - intros H. apply ret_inv in H as [-> _]. reflexivity.
  - intros H. apply bind_inv in H as (b & s1 & _ & H).
    apply bind_inv in H as (xs' & s2 & H & H').
    apply ret_inv in H' as [-> _]. specialize (IH _ _ _ H).
    destruct b; cbn [List.length]; lia.
Qed.

Lemma insert_sorted_length {A} (x : pyval * A) (l : list (pyval * A)) :
  List.length (insert_sorted x l) = S (List.length l).
Proof.
  induction l as [|y l IH]; cbn [insert_sorted]; [reflexivity|].
  destruct (key_ltb _ _); cbn [List.length]; [rewrite IH|]; reflexivity.
Qed.

Lemma sort_by_key_length {A} (l : list (pyval * A)) (s : list A) :
  sort_by_key l = Ok s -> List.length s = List.length l.
Proof.
  unfold sort_by_key.
  destruct (_ <? _)%nat; [intros H; injection H as <-; apply List.length_map|].
  destruct (_ || _); [|discriminate]. intros H; injection H as <-.
  rewrite List.length_map. unfold sort_decorated.
  induction l as [|x l IH]; cbn [List.fold_right]; [reflexivity|].
  rewrite insert_sorted_length, IH. reflexivity.
Qed.

Lemma ordenar_length (chave : contrato -> result pyval) (l s : list ref) (h h' : heap) :
  ordenar chave l h = (Ok s, h') -> List.length s = List.length l.
Proof.
  unfold ordenar. intros H. apply bind_inv in H as (ks & h1 & Hk & H).
  apply lift_inv in H as [H _]. apply sort_by_key_length in H.
  apply for_map_length in Hk. congruence.
Qed.

Lemma na_janela_length (guarded : bool) (fim : Z) (l s : list ref) (h h' : heap) :
  na_janela guarded fim l h = (Ok s, h') -> len s <= len l.
Proof.
  unfold na_janela, len. intros H. apply for_filter_length in H. lia.
Qed.

(** *** Rule 4 *)

Lemma janelas_concentracao_uma (cfg : config) (l : list ref) (h h' : heap) (ps : list padrao) :
  janelas_concentracao cfg l h = (Ok ps, h') ->
  ps = []
  \/ exists v n total,
       ps = [concentracao_temporal v n total]
       /\ min_contratos_concentracao cfg <= n <= len l.
Proof.
  revert h h'. induction l as [|r l IH]; intros h h'; cbn [janelas_concentracao].
  - intros H. apply ret_inv in H as [-> _]. left. reflexivity.
  - intros H. apply bind_inv in H as (c & h1 & _ & H).
    apply bind_inv in H as (v & h2 & _ & H).
    apply bind_inv in H as (d & h3 & _ & H).
    apply bind_inv in H as (fim & h4 & _ & H).
    apply bind_inv in H as (cj & h5 & Hcj & H).
    apply na_janela_length in Hcj.
    destruct (_ <=? len cj) eqn:Hmin.
    + apply bind_inv in H as (total & h6 & _ & H). apply ret_inv in H as [-> _].
      right. exists v, (len cj), total. split; [reflexivity|].
      apply Z.leb_le in Hmin. lia.
    + destruct (IH _ _ H) as [->|(v' & n & total & -> & Hn)]; [left; reflexivity|].
      right. exists v', n, total. split; [reflexivity|].
      unfold len in *. cbn [List.length]. lia.
Qed.

(** X3.  Rule 4 stops at the first window: the concentration rule reports
    at most one finding, and the finding counts at least the configured
    minimum and at most all the contracts of the list. *)
Theorem concentracao_temporal_no_maximo_uma (cfg : config) (contratos : list ref)
    (h h' : heap) (ps : list padrao) :
  _detectar_concentracao_temporal cfg contratos h = (Ok ps, h') ->
  ps = []
  \/ exists v n total,
       ps = [concentracao_temporal v n total]
       /\ min_contratos_concentracao cfg <= n <= len contratos.
Proof.
  unfold _detectar_concentracao_temporal. intros H.
  apply bind_inv in H as (datas & h1 & Hd & H).
  apply for_filter_length in Hd.
  destruct datas as [|r0 datas'].
  - apply ret_inv in H as [-> _]. left. reflexivity.
  - apply bind_inv in H as (ordenadas & h2 & Ho & H).
    apply ordenar_length in Ho.
    destruct (janelas_concentracao_uma _ _ _ _ _ H) as [->|(v & n & total & -> & Hn)];
      [left; reflexivity|].
    right. exists v, n, total. split; [reflexivity|]. unfold len in *. lia.
Qed.

Lemma concentracao_temporal_no_maximo_uma_witness :
  let ps := [concentracao_temporal (PyStr (str "2024-01-15")) 10 749990] in
  ps = []
  \/ exists v n total,
       ps = [concentracao_temporal v n total]
       /\ min_contratos_concentracao _get_default_config <= n
          <= len [0; 1; 2; 3; 4; 5; 6; 7; 8; 9]%nat.
Proof.
  apply (concentracao_temporal_no_maximo_uma _get_default_config
           [0; 1; 2; 3; 4; 5; 6; 7; 8; 9]%nat
           (Exemplos.so Exemplos.TEST001) (Exemplos.so Exemplos.TEST001)).
  vm_compute. reflexivity.
Defined.

(** *** The groups of rules 2 and 3 share out the contracts *)

Lemma group_add_total {K} (eqb : K -> K -> bool) (k : K) (r : ref) (g : list (K * list ref)) :
  List.length (List.concat (List.map snd (group_add eqb k r g)))
  = S (List.length (List.concat (List.map snd g))).
Proof.
  induction g as [|[k' l] g IH]; cbn [group_add]; [reflexivity|].
  destruct (eqb k k'); cbn [List.map snd List.concat]; rewrite !List.length_app.
  - cbn [List.length]. lia.
  - rewrite IH. lia.
Qed.

Lemma agrupar_total {K} (eqb : K -> K -> bool) (chave : contrato -> result K)
    (l : list ref) (g g' : list (K * list ref)) (h h' : heap) :
  agrupar eqb chave l g h = (Ok g', h') ->
  len (List.concat (List.map snd g')) = len (List.concat (List.map snd g)) + len l.
Proof.
  revert g h h'. induction l as [|r l IH]; intros g h h'; cbn [agrupar].
  - intros H. apply ret_inv in H as [-> _]. unfold len. cbn [List.length]. lia.
  - intros H. apply bind_inv in H as (c & h1 & _ & H).
    apply bind_inv in H as (k & h2 & _ & H).
    apply IH in H. rewrite H. unfold len. rewrite group_add_total.
    cbn [List.length]. lia.
Qed.

(** A loop over the groups that reports at most once for a group, and only
    for a group of at least [m] contracts, reports at most [total / m]
    times. *)
Lemma for_extend_grupos {K} (m : Z) (corpo : K * list ref -> M heap (list padrao))
    (Q : padrao -> Prop) (g : list (K * list ref)) (h h' : heap) (ps : list padrao) :
  (forall kl h1 h2 qs, corpo kl h1 = (Ok qs, h2) ->
     qs = [] \/ exists p, qs = [p] /\ Q p /\ m <= len (snd kl)) ->
  for_extend g corpo h = (Ok ps, h') ->
  Forall Q ps /\ m * len ps <= len (List.concat (List.map snd g)).
Proof.
  intros Hc. revert h h' ps. induction g as [|kl g IH]; intros h h' ps; cbn [for_extend].
  - intros H. apply ret_inv in H as [-> _]. split; [constructor|]. unfold len. cbn. lia.
  - intros H. apply bind_inv in H as (qs & h1 & Hq & H).
    apply bind_inv in H as (rs & h2 & Hr & H). apply ret_inv in H as [-> _].
    destruct (IH _ _ _ Hr) as [HQ Hn].
    cbn [List.map List.concat]. unfold len in *.
    destruct (Hc _ _ _ _ Hq) as [->|(p & -> & Hp & Hm)];
      cbn [List.app List.length]; rewrite List.length_app.
    + split; [exact HQ|]. lia.
    + split; [constructor; assumption|]. rewrite Nat2Z.inj_succ. lia.
Qed.

(** X4.  Rule 3 reports a pair of entities only when it has at least the
    configured number of contracts, and each contract counts for one pair:
    the findings times the minimum are at most the contracts analysed. *)
Theorem contratos_repetidos_limitados (cfg : config) (contratos : list ref)
    (h h' : heap) (ps : list padrao) :
  _detectar_contratos_repetidos cfg contratos h = (Ok ps, h') ->
  Forall (fun p => exists n total,
            p = contratos_repetidos n total /\ min_contratos_repetidos cfg <= n) ps
  /\ min_contratos_repetidos cfg * len ps <= len contratos.
Proof.
  unfold _detectar_contratos_repetidos. intros H.
  apply bind_inv in H as (pares & h1 & Hp & H).
  apply agrupar_total in Hp. cbn [List.map List.concat] in Hp.
  rewrite <- (Z.add_0_l (len contratos)).
  change 0 with (len (@nil ref)). rewrite <- Hp.
  eapply for_extend_grupos; [|exact H].
  intros [par cp] h2 h3 qs. unfold repetidos_par. cbn [snd].
  destruct (_ <=? _) eqn:Hmin.
  - intros Hq. apply bind_inv in Hq as (total & h4 & _ & Hq).
    apply ret_inv in Hq as [-> _]. right. eexists. split; [reflexivity|].
    apply Z.leb_le in Hmin. split; [|exact Hmin]. eexists _, _. split; [reflexivity|exact Hmin].
  - intros Hq. apply ret_inv in Hq as [-> _]. left. reflexivity.
Qed.

Lemma contratos_repetidos_limitados_witness :
  let ps := [contratos_repetidos 5 374995] in
  Forall (fun p => exists n total,
            p = contratos_repetidos n total
            /\ min_contratos_repetidos _get_default_config <= n) ps
  /\ min_contratos_repetidos _get_default_config * len ps <= len [0; 1; 2; 3; 4]%nat.
Proof.
  apply (contratos_repetidos_limitados _get_default_config [0; 1; 2; 3; 4]%nat
           (Exemplos.so Exemplos.TEST001) (Exemplos.so Exemplos.TEST001)).
  vm_compute. reflexivity.
Defined.

(** *** Rule 2 *)

Lemma janelas_fracionamento_uma (cfg : config) (par : par4) (l : list ref) (h h' : heap)
    (ps : list padrao) :
  janelas_fracionamento cfg par l h = (Ok ps, h') ->
  ps = []
  \/ exists n total ids,
       ps = [fracionamento_suspeito (fst (fst (fst par))) (snd (fst (fst par)))
               n total (janela_fracionamento_dias cfg) ids]
       /\ min_contratos_fracionamento cfg <= n <= len l /\ len ids = n.
Proof.
  revert h h'. induction l as [|r l IH]; intros h h'; cbn [janelas_fracionamento].
  - intros H. apply ret_inv in H as [-> _]. left. reflexivity.
  - assert (Hrec : forall h0, janelas_fracionamento cfg par l h0 = (Ok ps, h') ->
              ps = []
              \/ exists n total ids,
                   ps = [fracionamento_suspeito (fst (fst (fst par))) (snd (fst (fst par)))
                           n total (janela_fracionamento_dias cfg) ids]
                   /\ min_contratos_fracionamento cfg <= n <= len (r :: l) /\ len ids = n).
    { intros h0 H0. destruct (IH _ _ H0) as [->|(n & total & ids & -> & Hn & Hi)];
        [left; reflexivity|].
      right. exists n, total, ids. split; [reflexivity|]. split; [|exact Hi].
      unfold len in *. cbn [List.length]. lia. }
    intros H. apply bind_inv in H as (c & h1 & _ & H).
    destruct (negb _); [exact (Hrec _ H)|].
    apply bind_inv in H as (d & h2 & _ & H).
    apply bind_inv in H as (fim & h3 & _ & H).
    apply bind_inv in H as (cj & h4 & Hcj & H).
    apply na_janela_length in Hcj.
    destruct (_ <=? len cj) eqn:Hmin; [|exact (Hrec _ H)].
    apply bind_inv in H as (total & h5 & _ & H).
    destruct cj as [|r0 cj']; [discriminate H|].
    apply bind_inv in H as (c0 & h6 & _ & H).
    apply bind_inv in H as (limite & h7 & _ & H).
    destruct (Qlt_bool _ _); [|exact (Hrec _ H)].
    apply bind_inv in H as (ids & h8 & Hids & H). apply ret_inv in H as [-> _].
    apply for_map_length in Hids.
    right. eexists _, _, _. split; [reflexivity|].
    apply Z.leb_le in Hmin. unfold len in *. lia.
Qed.

(** X5.  Rule 2 reports a group (the two entities, the type and the first
    50 characters of the object) at most once, only with at least the
    configured number of contracts in the window, and with the ids of just
    these: the findings times the minimum are at most the contracts
    analysed. *)
Theorem fracionamento_limitado (cfg : config) (contratos : list ref)
    (h h' : heap) (ps : list padrao) :
  _detectar_fracionamento cfg contratos h = (Ok ps, h') ->
  Forall (fun p => exists a b n total ids,
            p = fracionamento_suspeito a b n total (janela_fracionamento_dias cfg) ids
            /\ min_contratos_fracionamento cfg <= n /\ len ids = n) ps
  /\ min_contratos_fracionamento cfg * len ps <= len contratos.
Proof.
  unfold _detectar_fracionamento. intros H.
  apply bind_inv in H as (pares & h1 & Hp & H).
  apply agrupar_total in Hp. cbn [List.map List.concat] in Hp.
  rewrite <- (Z.add_0_l (len contratos)).
  change 0 with (len (@nil ref)). rewrite <- Hp.
  eapply for_extend_grupos; [|exact H].
  intros [par cp] h2 h3 qs. unfold fracionamento_par. cbn [snd].
  destruct (_ <? _) eqn:Hlen.
  - intros Hq. apply ret_inv in Hq as [-> _]. left. reflexivity.
  - intros Hq. apply bind_inv in Hq as (ordenados & h4 & Ho & Hq).
    apply ordenar_length in Ho.
    destruct (janelas_fracionamento_uma _ _ _ _ _ _ Hq) as [->|(n & total & ids & -> & Hn & Hi)];
      [left; reflexivity|].
    right. eexists. split; [reflexivity|]. apply Z.ltb_ge in Hlen. split; [|exact Hlen].
    eexists _, _, _, _, _. split; [reflexivity|]. split; [lia|exact Hi].
Qed.

Lemma fracionamento_limitado_witness :
  let ps := [fracionamento_suspeito (PyStr (str "Câmara Municipal de Lisboa"))
               (PyStr (str "Empresa Suspeita Lda")) 3 224997 365
               [PyStr (str "TEST001"); PyStr (str "TEST001"); PyStr (str "TEST001")]] in
  Forall (fun p => exists a b n total ids,
            p = fracionamento_suspeito a b n total
                  (janela_fracionamento_dias _get_default_config) ids
            /\ min_contratos_fracionamento _get_default_config <= n /\ len ids = n) ps
  /\ min_contratos_fracionamento _get_default_config * len ps <= len [0; 1; 2]%nat.
Proof.
  apply (fracionamento_limitado _get_default_config [0; 1; 2]%nat
           (Exemplos.so Exemplos.TEST001) (Exemplos.so Exemplos.TEST001)).
  vm_compute. reflexivity.
Defined.

(** *** Rule 2 on a NULL date *)

Lemma py_eqb_refl (v : pyval) : py_eqb v v = true.
Proof.
  destruct v as [|q|s]; cbn [py_eqb]; [reflexivity| |apply pystr_eqb_refl].
  apply Qeq_bool_iff. reflexivity.
Qed.

Lemma par4_eqb_refl (k : par4) : par4_eqb k k = true.
Proof.
  destruct k as [[[a b] c] d]. unfold par4_eqb. rewrite !py_eqb_refl. reflexivity.
Qed.

(** Contracts of one key make one group, in the order of the list. *)
Lemma agrupar_uma_chave {K} (eqb : K -> K -> bool) (chave : contrato -> result K) (k : K)
    (l l0 : list ref) (h : heap) :
  eqb k k = true ->
  (forall r, In r l -> chave (h r) = Ok k) ->
  agrupar eqb chave l [(k, l0)] h = (Ok [(k, l0 ++ l)], h).
Proof.
  intros Hk. revert l0. induction l as [|r l IH]; intros l0 Hl; cbn [agrupar].
  - rewrite List.app_nil_r. reflexivity.
  - unfold bind at 1. unfold read, gets. rewrite (Hl r (or_introl eq_refl)).
    unfold bind, lift. cbn [group_add]. rewrite Hk.
    rewrite IH; [|intros r' Hr'; apply Hl; right; exact Hr'].
    rewrite <- List.app_assoc. reflexivity.
Qed.

Lemma chaves_com_nulo (l : list ref) (h : heap) :
  (exists r, In r l /\ data_contrato (h r) = Some PyNone) ->
  let ks := List.map (fun r => (get (data_contrato (h r)) (PyStr []), r)) l in
  forallb (fun x => is_str (fst x)) ks = false
  /\ forallb (fun x => is_num (fst x)) ks = false.
Proof.
  intros (r & Hr & Hd). cbn zeta. induction l as [|r' l IH]; [destruct Hr|].
  cbn [List.map forallb fst]. destruct Hr as [->|Hr].
  - rewrite Hd. cbn [get is_str is_num andb]. split; reflexivity.
  - destruct (IH Hr) as [-> ->]. rewrite !andb_false_r. split; reflexivity.
Qed.

Lemma for_map_chaves (g : contrato -> pyval) (l : list ref) (h : heap) :
  for_map l (fun r => c <- read r ;; k <- lift (Ok (g c)) ;; ret (k, r)) h
  = (Ok (List.map (fun r => (g (h r), r)) l), h).
Proof.
  induction l as [|r l IH]; cbn [for_map List.map]; [reflexivity|].
  erewrite bind_ok; [|reflexivity]. erewrite bind_ok; [|exact IH]. reflexivity.
Qed.

(** X2.  A row whose date is NULL makes rule 2 raise: when the contracts of
    the list are one group of at least two and at least the configured
    minimum, and the 'data_contrato' of one of them is None, the sort of the
    group by date raises a TypeError and the rule reports nothing. *)
Theorem fracionamento_data_nula (cfg : config) (contratos : list ref) (h : heap) (k : par4) :
  (forall r, In r contratos -> par4_de (h r) = Ok k) ->
  (exists r, In r contratos /\ data_contrato (h r) = Some PyNone) ->
  2 <= len contratos ->
  min_contratos_fracionamento cfg <= len contratos ->
  _detectar_fracionamento cfg contratos h = (Raise TypeError, h).
Proof.
  intros Hk Hn H2 Hmin. unfold _detectar_fracionamento.
  destruct contratos as [|r0 l]; [unfold len in H2; cbn in H2; lia|].
  assert (Hg : agrupar par4_eqb par4_de (r0 :: l) [] h = (Ok [(k, r0 :: l)], h)).
  { cbn [agrupar]. unfold bind at 1. unfold read, gets.
    rewrite (Hk r0 (or_introl eq_refl)). unfold bind at 1. unfold lift. cbn [group_add].
    apply (agrupar_uma_chave par4_eqb par4_de k l [r0] h (par4_eqb_refl k)).
    intros r Hr. apply Hk. right. exact Hr. }
  erewrite bind_ok; [|exact Hg].
  cbn [for_extend]. erewrite bind_raise; [reflexivity|].
  unfold fracionamento_par.
  destruct (_ <? _) eqn:E; [apply Z.ltb_lt in E; lia|].
  erewrite bind_raise; [reflexivity|]. unfold ordenar.
  erewrite bind_ok; [|apply for_map_chaves].
  unfold lift. f_equal.
  destruct (chaves_com_nulo (r0 :: l) h Hn) as [Hs Hq].
  unfold sort_by_key. rewrite List.length_map.
  destruct (_ <? _)%nat eqn:E2.
  - apply Nat.ltb_lt in E2. unfold len in H2. lia.
  - rewrite Hs, Hq. reflexivity.
Qed.

Lemma fracionamento_data_nula_witness :
  _detectar_fracionamento _get_default_config [0; 1; 2]%nat ExemplosNulos.um_nulo
  = (Raise TypeError, ExemplosNulos.um_nulo).
Proof.
  apply (fracionamento_data_nula _get_default_config [0; 1; 2]%nat ExemplosNulos.um_nulo
           (PyStr (str "Câmara Municipal de Lisboa"), PyStr (str "Empresa Suspeita Lda"),
            PyStr (str "Aquisição de Serviços"), PyStr [])).
  - intros r [<-|[<-|[<-|[]]]]; reflexivity.
  - exists 0%nat. split; [left; reflexivity|reflexivity].
  - vm_compute. discriminate.
  - vm_compute. discriminate.
Defined.

(** *** Rule 5 *)

Lemma Qle_bool_true (a b : Q) : Qle_bool a b = true -> (a <= b)%Q.
Proof. apply Qle_bool_iff. Qed.

Lemma Qlt_bool_true (a b : Q) : Qlt_bool a b = true -> (a < b)%Q.
Proof.
  unfold Qlt_bool. intros H. apply negb_true_iff in H.
  apply Qnot_le_lt. intros Hle. apply Qle_bool_iff in Hle. congruence.
Qed.

(** The ceilings are more than 100 apart, so a value is within 100 of at
    most one of them. *)
Lemma quase_redondos_no_maximo_um (id valor_v : pyval) (ps : list padrao) :
  quase_redondos id valor_v limites_redondos = Ok ps -> (List.length ps <= 1)%nat.
Proof.
  unfold limites_redondos. cbn [quase_redondos].
  destruct (py_num valor_v) as [q|e]; [|discriminate]. cbn [rbind].
  intros H. injection H as <-.
  repeat match goal with
         | |- context [Qle_bool ?a ?b && Qlt_bool ?c ?d && ?e] =>
             let Ha := fresh "Ha" in let Hb := fresh "Hb" in
             destruct (Qle_bool a b) eqn:Ha; [apply Qle_bool_true in Ha|];
             (destruct (Qlt_bool c d) eqn:Hb; [apply Qlt_bool_true in Hb|]);
             destruct e; cbn [andb List.app List.length]
         end; try lia; exfalso; unfold inject_Z in *; lra.
Qed.

Lemma quase_redondos_calculados (id valor_v : pyval) (limites : list Z) (ps : list padrao) :
  quase_redondos id valor_v limites = Ok ps ->
  Forall (fun p => exists q lim, p = valor_calculado_suspeito id q lim) ps.
Proof.
  revert ps. induction limites as [|lim limites IH]; intros ps; cbn [quase_redondos].
  - intros H. injection H as <-. constructor.
  - destruct (py_num valor_v) as [q|e]; [|discriminate]. cbn [rbind].
    destruct (quase_redondos id valor_v limites) as [resto|e]; [|discriminate].
    cbn [rbind]. intros H. injection H as <-. apply Forall_app. split; [|apply IH; reflexivity].
    destruct (_ && _); repeat constructor. eexists _, _. reflexivity.
Qed.

(** X6.  Rule 5 reports a contract at most twice: once for a value of the
    configured list, once for a value 1, 10, 50 or 100 below a ceiling. *)
Theorem valores_redondos_no_maximo_dois (cfg : config) (c : contrato) (ps : list padrao) :
  valores_redondos_contrato cfg c = Ok ps ->
  (List.length ps <= 2)%nat
  /\ (List.length (List.filter (fun p => Z.eqb (padrao_regra p) 5) ps) = List.length ps).
Proof.
  unfold valores_redondos_contrato.
  destruct (quase_redondos _ _ _) as [quase|e] eqn:E; [|discriminate].
  cbn [rbind]. intros H. injection H as <-.
  pose proof (quase_redondos_no_maximo_um _ _ _ E) as Hn.
  pose proof (quase_redondos_calculados _ _ _ _ E) as Hq.
  rewrite List.filter_app, !List.length_app. split.
  - destruct (existsb _ _); cbn [List.length]; lia.
  - f_equal.
    + destruct (existsb _ _); reflexivity.
    + clear E Hn. induction Hq as [|p l (q & lim & ->) _ IH]; [reflexivity|].
      cbn [List.filter padrao_regra Z.eqb Pos.eqb List.length]. f_equal. exact IH.
Qed.

Lemma valores_redondos_no_maximo_dois_witness :
  let ps := [valor_exato_suspeito (PyStr (str "TEST001")) (PyNum 74999);
             valor_calculado_suspeito (PyStr (str "TEST001")) 74999 75000] in
  (List.length ps <= 2)%nat
  /\ (List.length (List.filter (fun p => Z.eqb (padrao_regra p) 5) ps) = List.length ps).
Proof.
  apply (valores_redondos_no_maximo_dois _get_default_config Exemplos.TEST001).
  vm_compute. reflexivity.
Defined.

Lemma quase_redondos_In (id : pyval) (q : Q) (limites : list Z) (lim : Z) (d : Q) :
  In lim limites -> In d diferencas_redondas -> (q == inject_Z lim - d)%Q ->
  exists ps, quase_redondos id (PyNum q) limites = Ok ps
             /\ In (valor_calculado_suspeito id q lim) ps.
Proof.
  intros Hl Hd Hq. induction limites as [|lim' limites IH]; [destruct Hl|].
  cbn [quase_redondos py_num rbind].
  destruct (quase_redondos_devolve id q limites) as (resto & Hr). rewrite Hr. cbn [rbind].
  eexists. split; [reflexivity|]. apply List.in_or_app.
  destruct Hl as [->|Hl].
  - left.
    assert (Hd' : (0 < d /\ d <= 100)%Q).
    { unfold diferencas_redondas in Hd. cbn [In] in Hd.
      destruct Hd as [<-|[<-|[<-|[<-|[]]]]]; split; lra. }
    assert (H1 : Qle_bool (inject_Z lim - 100) q = true) by (apply Qle_bool_iff; lra).
    assert (H2 : Qlt_bool q (inject_Z lim) = true).
    { unfold Qlt_bool. apply negb_true_iff.
      destruct (Qle_bool (inject_Z lim) q) eqn:E; [|reflexivity].
      apply Qle_bool_iff in E. lra. }
    assert (H3 : existsb (Qeq_bool (inject_Z lim - q)) diferencas_redondas = true).
    { apply existsb_exists. exists d. split; [exact Hd|]. apply Qeq_bool_iff. lra. }
    rewrite H1, H2, H3. left. reflexivity.
  - right. destruct (IH Hl) as (ps & E & Hin). rewrite Hr in E. injection E as <-. exact Hin.
Qed.

(** The configured values of the default configuration are each 1, 10, 50
    or 100 below a ceiling. *)
Lemma valores_redondos_por_omissao (x : Q) :
  In x (valores_redondos_suspeitos _get_default_config) ->
  exists lim d, In lim limites_redondos /\ In d diferencas_redondas
                /\ (x == inject_Z lim - d)%Q.
Proof.
  cbn [valores_redondos_suspeitos _get_default_config In].
  unfold limites_redondos, diferencas_redondas.
  intros [<-|[<-|[<-|[<-|[<-|[<-|[<-|[<-|[<-|[<-|[<-|[<-|[]]]]]]]]]]]]];
    [exists 75000, 100%Q|exists 75000, 50%Q|exists 75000, 10%Q|exists 75000, 1%Q
    |exists 150000, 100%Q|exists 150000, 50%Q|exists 150000, 10%Q|exists 150000, 1%Q
    |exists 214000, 100%Q|exists 214000, 50%Q|exists 214000, 10%Q|exists 214000, 1%Q];
    cbn [In]; (split; [tauto|split; [tauto|reflexivity]]).
Qed.

(** X7.  With the default configuration rule 5 reports every value of the
    configured list twice: each of the twelve values is 1, 10, 50 or 100
    below a ceiling, so the exact finding comes with a calculated one for
    the same contract. *)
Theorem valor_exato_tambem_calculado (c : contrato) (ps : list padrao) (id v : pyval) :
  valores_redondos_contrato _get_default_config c = Ok ps ->
  In (valor_exato_suspeito id v) ps ->
  exists q lim, In (valor_calculado_suspeito id q lim) ps.
Proof.
  unfold valores_redondos_contrato.
  destruct (existsb _ (valores_redondos_suspeitos _)) eqn:Hx;
    (destruct (quase_redondos _ _ _) as [quase|e] eqn:E; [|discriminate]);
    unfold rbind; intros H Hin; injection H as <-;
    [destruct Hin as [Hin|Hin]|].
  - injection Hin as <- _.
    apply existsb_exists in Hx as (x & Hx & Heq).
    destruct (get (valor c) (PyNum 0)) as [|q|s] eqn:Hv; try discriminate Heq.
    cbn [py_eqb] in Heq. apply Qeq_bool_iff in Heq.
    destruct (valores_redondos_por_omissao x Hx) as (lim & d & Hl & Hd & Hxd).
    destruct (quase_redondos_In (get_ (id_contrato c)) q limites_redondos lim d Hl Hd)
      as (ps & E' & Hps); [rewrite Heq; exact Hxd|].
    rewrite E in E'. injection E' as <-.
    exists q, lim. right. exact Hps.
  - apply quase_redondos_calculados in E.
    rewrite List.Forall_forall in E. destruct (E _ Hin) as (q & lim & Habs). discriminate Habs.
  - apply quase_redondos_calculados in E.
    rewrite List.Forall_forall in E. destruct (E _ Hin) as (q & lim & Habs). discriminate Habs.
Qed.

Lemma valor_exato_tambem_calculado_witness :
  exists q lim,
    In (valor_calculado_suspeito (PyStr (str "TEST001")) q lim)
       [valor_exato_suspeito (PyStr (str "TEST001")) (PyNum 74999);
        valor_calculado_suspeito (PyStr (str "TEST001")) 74999 75000].
Proof.
  apply (valor_exato_tambem_calculado Exemplos.TEST001 _ (PyStr (str "TEST001"))
           (PyNum 74999)).
  - vm_compute. reflexivity.
  - left. reflexivity.
Defined.

(** *** Rules 1 and 6 *)

Lemma limite_ajuste_le_consulta (s : pystr) :
  LimitesLegais.get_limite_ajuste_direto s <= LimitesLegais.get_limite_consulta_previa s.
Proof.
  unfold LimitesLegais.get_limite_ajuste_direto, LimitesLegais.get_limite_consulta_previa.
  destruct (LimitesLegais.eh_obra s); vm_compute; discriminate.
Qed.

(** X8.  Rules 1 and 6 exclude each other: a contract reported for a value
    just below the direct-award ceiling is at or below that ceiling, and so
    below the ceiling of the prior consultation too; rule 6 reports nothing
    for it. *)
Theorem suspeito_nao_inadequado (cfg : config) (c : contrato) (ps : list padrao) :
  valores_suspeitos_contrato cfg c = Ok ps -> ps <> [] ->
  procedimento_inadequado_contrato c = Ok [].
Proof.
  unfold valores_suspeitos_contrato, procedimento_inadequado_contrato.
  destruct (py_lower _) as [procedimento|e]; [|discriminate].
  destruct (py_num _) as [q|e]; [|discriminate].
  destruct (get (tipo_contrato c) (PyStr [])) as [| |s];
    cbv beta iota delta [rbind limite_ajuste_direto limite_consulta_previa];
    (destruct (Qle_bool q 0); [intros H; injection H as <-; congruence|]);
    try discriminate.
  cbn [orb].
  destruct (pystr_eqb procedimento []); [reflexivity|].
  destruct (Qle_bool _ q && Qle_bool q _) eqn:E;
    [|intros H; injection H as <-; congruence].
  intros _ _. apply andb_true_iff in E as [_ E].
  assert (H1 : Qlt_bool (inject_Z (LimitesLegais.get_limite_ajuste_direto s)) q = false).
  { unfold Qlt_bool. rewrite E. reflexivity. }
  assert (H2 : Qlt_bool (inject_Z (LimitesLegais.get_limite_consulta_previa s)) q = false).
  { unfold Qlt_bool. apply negb_false_iff, Qle_bool_iff. apply Qle_bool_iff in E.
    eapply Qle_trans; [exact E|]. rewrite <- Zle_Qle. apply limite_ajuste_le_consulta. }
  rewrite H1, H2, !andb_false_r. reflexivity.
Qed.

Lemma suspeito_nao_inadequado_witness :
  procedimento_inadequado_contrato Exemplos.TEST001 = Ok [].
Proof.
  eapply (suspeito_nao_inadequado _get_default_config Exemplos.TEST001).
  - vm_compute. reflexivity.
  - discriminate.
Defined.

(** ** The connections found, and the graph made of them *)

Lemma figura_com_nome_ativa (d : db) (nome : pystr) (id : Z) :
  figura_com_nome d nome = Some id ->
  exists figura,
    In figura (figuras_interesse d) /\ TFiguras.ativo figura = 1
    /\ TFiguras.id figura = id /\ lower (TFiguras.nome figura) = lower nome.
Proof.
  unfold figura_com_nome.
  destruct (List.find _ _) as [fig|] eqn:E; [|discriminate].
  intros H. injection H as <-. apply List.find_some in E as [E Hn].
  unfold listar_figuras_interesse in E. apply order_by_In in E.
  apply List.filter_In in E as [E Ha]. cbn [negb orb] in Ha.
  exists fig. repeat split; [exact E|apply Z.eqb_eq, Ha|apply pystr_eqb_eq, Hn].
Qed.

(** What one figure gives: connections from it, one level on, to active
    figures other than it; and none when no figure has its id. *)
Lemma explorar_conexoes (d : db) (visitados : gset Z) (atual_id nivel : Z) :
  Forall (fun k => Conexao.origem_id k = atual_id /\ Conexao.nivel k = nivel + 1
                   /\ Conexao.destino_id k <> atual_id
                   /\ destino_ativo d k /\ tem_figura d atual_id)
    (explorar d visitados atual_id nivel).
Proof.
  unfold explorar. apply List.Forall_forall. intros k Hk.
  apply List.in_flat_map in Hk as (c & Hc & Hk).
  apply List.in_flat_map in Hk as ([[nome nif] papel] & _ & Hk).
  unfold conexao_da_entidade in Hk.
  destruct (figura_com_nome d nome) as [id|] eqn:Ef; [|destruct Hk].
  destruct (negb (id =? 0) && negb (id =? atual_id) && negb (bool_decide (id ∈ visitados)))
    eqn:E; [|destruct Hk].
  destruct Hk as [<-|[]]. cbn [Conexao.destino_id Conexao.origem_id Conexao.nivel].
  apply andb_true_iff in E as [E _]. apply andb_true_iff in E as [_ Ha].
  apply negb_true_iff in Ha. apply Z.eqb_neq in Ha.
  repeat split; [exact Ha| |].
  - destruct (figura_com_nome_ativa d nome id Ef) as (fig & H1 & H2 & H3 & H4).
    exists fig. auto.
  - unfold pesquisar_contratos_por_figura in Hc.
    destruct (List.find _ _) as [fig|] eqn:Efig; [|destruct Hc].
    apply List.find_some in Efig as [Hin Hid]. exists fig. split; [exact Hin|].
    apply Z.eqb_eq, Hid.
Qed.

Section Ciclo.

Variable d : db.
Variable figura_id profundidade : Z.

(** What holds of each connection found. *)
Let boa (cs : list Conexao.t) (k : Conexao.t) : Prop :=
  1 <= Conexao.nivel k <= profundidade
  /\ Conexao.origem_id k <> Conexao.destino_id k
  /\ destino_ativo d k /\ tem_figura d (Conexao.origem_id k)
  /\ encadeada figura_id cs k.

Let boa_entrada (cs : list Conexao.t) (e : entrada) : Prop :=
  0 <= e.1.2 /\ entrada_encadeada figura_id cs e.

Lemma encadeada_mais (cs cs' : list Conexao.t) (k : Conexao.t) :
  encadeada figura_id cs k -> encadeada figura_id (cs ++ cs') k.
Proof.
  intros [H|(k' & Hin & H)]; [left; exact H|].
  right. exists k'. split; [apply List.in_or_app; left; exact Hin|exact H].
Qed.

Lemma entrada_encadeada_mais (cs cs' : list Conexao.t) (e : entrada) :
  entrada_encadeada figura_id cs e -> entrada_encadeada figura_id (cs ++ cs') e.
Proof.
  intros [H|(k' & Hin & H)]; [left; exact H|].
  right. exists k'. split; [apply List.in_or_app; left; exact Hin|exact H].
Qed.

Lemma ciclo_boas (n : nat) :
  forall (conexoes : list Conexao.t) (visitados : gset Z) (fila : list entrada)
         (cs : list Conexao.t),
    Forall (boa conexoes) conexoes ->
    Forall (boa_entrada conexoes) fila ->
    ciclo d profundidade n conexoes visitados fila = Some cs ->
    Forall (boa cs) cs.
Proof.
  induction n as [|n IH]; intros conexoes visitados fila cs Hc Hf; cbn [ciclo];
    [discriminate|].
  destruct fila as [|[[atual_id nivel] origem] fila];
    [intros E; injection E as <-; exact Hc|].
  apply Forall_cons in Hf as [[Hn He] Hf].
  unfold entrada_encadeada in He. cbn [fst snd] in Hn, He.
  destruct (bool_decide (atual_id ∈ visitados) || (profundidade <=? nivel)) eqn:E.
  - apply IH; assumption.
  - apply orb_false_iff in E as [_ Hp]. apply Z.leb_gt in Hp.
    pose proof (explorar_conexoes d (visitados ∪ {[atual_id]}) atual_id nivel) as Hx.
    set (novas := explorar d (visitados ∪ {[atual_id]}) atual_id nivel) in *.
    apply IH.
    + apply Forall_app. split.
      * eapply Forall_impl; [exact Hc|]. intros k (H1 & H2 & H3 & H4 & H5).
        split; [exact H1|]. split; [exact H2|]. split; [exact H3|].
        split; [exact H4|apply encadeada_mais, H5].
      * rewrite List.Forall_forall in Hx. apply List.Forall_forall. intros k Hk.
        destruct (Hx k Hk) as (Ho & Hnv & Hd & Ha & Ht).
        split; [lia|]. split; [congruence|]. split; [exact Ha|].
        split; [rewrite Ho; exact Ht|].
        destruct He as [[He1 He2]|(k' & Hin & Hk1 & Hk2)].
        -- left. split; [congruence|lia].
        -- right. exists k'. split; [apply List.in_or_app; left; exact Hin|].
           split; [congruence|lia].
    + apply Forall_app. split.
      * eapply Forall_impl; [exact Hf|]. intros e [H1 H2].
        split; [exact H1|apply entrada_encadeada_mais, H2].
      * unfold enfileirar. destruct (_ <? _); [|constructor].
        apply List.Forall_forall. intros e He'.
        apply List.in_map_iff in He' as (k & <- & Hk).
        rewrite List.Forall_forall in Hx.
        destruct (Hx k Hk) as (Ho & Hnv & _).
        split; cbn [fst snd]; [lia|].
        right. exists k. split; [apply List.in_or_app; right; exact Hk|].
        cbn [fst snd]. split; [reflexivity|exact Hnv].
Qed.

Lemma detetar_conexoes_boas (cs : list Conexao.t) :
  detetar_conexoes d figura_id profundidade = Some cs -> Forall (boa cs) cs.
Proof.
  unfold detetar_conexoes. apply ciclo_boas; [constructor|].
  constructor; [|constructor]. split; cbn [fst snd]; [lia|left; split; reflexivity].
Qed.

End Ciclo.

Lemma conexoes_destinos_ativos (d : db) (figura_id profundidade : Z) (cs : list Conexao.t) :
  detetar_conexoes d figura_id profundidade = Some cs -> Forall (destino_ativo d) cs.
Proof.
  intros E.
  eapply Forall_impl; [apply (detetar_conexoes_boas d figura_id profundidade cs E)|].
  intros k (_ & _ & H & _). exact H.
Qed.

(** X9.  The exploration ends, and each connection it returns is at a level
    from 1 to the depth asked for and leads from a figure to another one,
    an active figure of interest whose name is that of the party of the
    contract, the case of the letters apart. *)
Theorem conexoes_niveis_e_destinos (d : db) (figura_id profundidade : Z) :
  exists cs,
    detetar_conexoes d figura_id profundidade = Some cs
    /\ Forall (fun k => 1 <= Conexao.nivel k <= profundidade
                        /\ Conexao.origem_id k <> Conexao.destino_id k
                        /\ destino_ativo d k) cs.
Proof.
  destruct (detetar_conexoes_termina d figura_id profundidade) as (cs & E).
  exists cs. split; [exact E|].
  eapply Forall_impl; [apply (detetar_conexoes_boas d figura_id profundidade cs E)|].
  intros k (H1 & H2 & H3 & _). auto.
Qed.

(** X10.  The connections make chains from the origin: a connection of
    level 1 starts at the figure asked for, and a connection of a further
    level starts where a connection of the level before ends. *)
Theorem conexoes_encadeadas (d : db) (figura_id profundidade : Z) :
  exists cs,
    detetar_conexoes d figura_id profundidade = Some cs
    /\ Forall (encadeada figura_id cs) cs.
Proof.
  destruct (detetar_conexoes_termina d figura_id profundidade) as (cs & E).
  exists cs. split; [exact E|].
  eapply Forall_impl; [apply (detetar_conexoes_boas d figura_id profundidade cs E)|].
  intros k (_ & _ & _ & _ & H). exact H.
Qed.

(** X11.  A figure that was removed (deactivated) is no destination any
    more: after [desativar_figura_interesse], no exploration, from any
    origin and to any depth, returns a connection to it. *)
Theorem desativada_nunca_destino (d : db) (id figura_id profundidade : Z) :
  exists cs,
    detetar_conexoes (desativar_figura_interesse d id) figura_id profundidade = Some cs
    /\ Forall (fun k => Conexao.destino_id k <> id) cs.
Proof.
  destruct (detetar_conexoes_termina (desativar_figura_interesse d id)
              figura_id profundidade) as (cs & E).
  exists cs. split; [exact E|].
  eapply Forall_impl; [exact (conexoes_destinos_ativos _ _ _ _ E)|]. intros k (fig & Hin & Ha & Hid & _) Hk.
  unfold desativar_figura_interesse in Hin. cbn [figuras_interesse com_figuras] in Hin.
  apply List.in_map_iff in Hin as (f & <- & _).
  destruct (TFiguras.id f =? id) eqn:Ef.
  - cbn [TFiguras.ativo] in Ha. discriminate Ha.
  - apply Z.eqb_neq in Ef. congruence.
Qed.

(** *** The graph *)

Lemma obter_figura_tem (d : db) (id : Z) :
  tem_figura d id -> exists figura, obter_figura d id = Some figura.
Proof.
  intros (f & Hin & Hid). unfold obter_figura.
  destruct (List.find _ _) as [fig|] eqn:E; [exists fig; reflexivity|].
  exfalso. eapply List.find_none in E.
  - rewrite Hid, Z.eqb_refl in E. discriminate E.
  - unfold listar_figuras_interesse. apply order_by_In, List.filter_In.
    split; [exact Hin|reflexivity].
Qed.

Lemma juntar_conexao_ids (d : db) (estado : grafo * gset Z) (k : Conexao.t) :
  ids_dos_nos estado -> tem_figura d (Conexao.destino_id k) ->
  let estado' := juntar_conexao d estado k in
  ids_dos_nos estado'
  /\ (forall x, x ∈ estado'.2 <-> x ∈ estado.2 \/ x = Conexao.destino_id k)
  /\ edges estado'.1 = edges estado.1 ++ [aresta_da_conexao k].
Proof.
  destruct estado as [g ids]. intros [Hi Hn] Ht. cbn [fst snd] in Hi, Hn.
  unfold juntar_conexao, ids_dos_nos. cbn zeta.
  destruct (bool_decide (Conexao.destino_id k ∈ ids)) eqn:E.
  - apply bool_decide_eq_true in E. cbn [fst snd nodes edges].
    split; [split; assumption|]. split; [|reflexivity].
    intros x. split; [left; assumption|intros [H| ->]; assumption].
  - apply bool_decide_eq_false in E.
    destruct (obter_figura_tem d _ Ht) as (fig & ->). cbn [fst snd nodes edges].
    split; [split|split; [|reflexivity]].
    + intros x. rewrite List.map_app, List.in_app_iff, elem_of_union, elem_of_singleton.
      cbn [List.map In no_da_figura No.id]. rewrite Hi. intuition congruence.
    + rewrite List.map_app. cbn [List.map no_da_figura No.id].
      apply List.NoDup_app; [exact Hn|constructor; [intros []|constructor]|].
      intros x Hx [<-|[]]. apply E, Hi, Hx.
    + intros x. rewrite elem_of_union, elem_of_singleton. reflexivity.
Qed.

Lemma juntar_conexoes_ids (d : db) (cs : list Conexao.t) (estado : grafo * gset Z) :
  ids_dos_nos estado -> Forall (fun k => tem_figura d (Conexao.destino_id k)) cs ->
  let estado' := List.fold_left (juntar_conexao d) cs estado in
  ids_dos_nos estado'
  /\ (forall x, x ∈ estado'.2
                <-> x ∈ estado.2 \/ In x (List.map Conexao.destino_id cs))
  /\ edges estado'.1 = edges estado.1 ++ List.map aresta_da_conexao cs.
Proof.
  intros Hi Hc. revert estado Hi. induction Hc as [|k cs Hk _ IH]; intros estado Hi;
    cbn [List.fold_left List.map In].
  - split; [exact Hi|]. split; [intuition|]. rewrite List.app_nil_r. reflexivity.
  - destruct (juntar_conexao_ids d estado k Hi Hk) as (Hi' & Hx & He).
    destruct (IH _ Hi') as (Hi2 & Hx2 & He2).
    split; [exact Hi2|]. split.
    + intros x. rewrite Hx2, Hx. intuition congruence.
    + rewrite He2, He, <- List.app_assoc. reflexivity.
Qed.

Lemma grafo_inicial_ids (d : db) (figura_id : Z) : ids_dos_nos (grafo_inicial d figura_id).
Proof.
  unfold grafo_inicial, ids_dos_nos.
  destruct (obter_figura d figura_id) as [fig|]; cbn [fst snd nodes List.map In].
  - split; [|constructor; [intros []|constructor]].
    intros x. rewrite elem_of_singleton. cbn [no_da_figura No.id]. intuition congruence.
  - split; [|constructor]. intros x. rewrite elem_of_empty. reflexivity.
Qed.

(** X12.  The graph is well formed: [criar_grafo_conexoes] returns a graph
    in which no two nodes have the same id, there is one edge for each
    connection found, and both ends of every edge are nodes. *)
Theorem grafo_bem_formado (d : db) (figura_id : Z) :
  exists cs g,
    detetar_conexoes d figura_id 2 = Some cs
    /\ criar_grafo_conexoes d figura_id = Some g
    /\ List.NoDup (List.map No.id (nodes g))
    /\ edges g = List.map aresta_da_conexao cs
    /\ Forall (fun a => In (Aresta.de a) (List.map No.id (nodes g))
                        /\ In (Aresta.para a) (List.map No.id (nodes g))) (edges g).
Proof.
  destruct (detetar_conexoes_termina d figura_id 2) as (cs & E).
  pose proof (detetar_conexoes_boas d figura_id 2 cs E) as Hb.
  assert (Hd : Forall (fun k => tem_figura d (Conexao.destino_id k)) cs).
  { eapply Forall_impl; [exact Hb|].
    intros k (_ & _ & (fig & Hin & _ & Hid & _) & _). exists fig. split; assumption. }
  destruct (juntar_conexoes_ids d cs _ (grafo_inicial_ids d figura_id) Hd)
    as ([Hi Hn] & Hx & He).
  unfold criar_grafo_conexoes. rewrite E.
  set (final := List.fold_left (juntar_conexao d) cs (grafo_inicial d figura_id)) in *.
  assert (He' : edges final.1 = List.map aresta_da_conexao cs).
  { rewrite He. unfold grafo_inicial.
    destruct (obter_figura d figura_id); reflexivity. }
  exists cs, final.1. split; [reflexivity|]. split; [reflexivity|].
  split; [exact Hn|]. split; [exact He'|].
  rewrite He'. apply List.Forall_forall. intros a Ha.
  apply List.in_map_iff in Ha as (k & <- & Hk).
  cbn [aresta_da_conexao Aresta.de Aresta.para].
  rewrite List.Forall_forall in Hb.
  destruct (Hb k Hk) as (_ & _ & _ & Ht & Hc).
  split; apply Hi, Hx.
  - destruct Hc as [[Ho _]|(k' & Hin & Hk' & _)].
    + left. unfold grafo_inicial. rewrite <- Ho.
      destruct (obter_figura_tem d _ Ht) as (fig & ->). cbn [snd].
      apply elem_of_singleton. reflexivity.
    + right. rewrite <- Hk'. apply List.in_map, Hin.
  - right. apply List.in_map, Hk.
Qed.

(** ** The analysis of the contracts of a figure *)

Lemma forallb_rev {A} (p : A -> bool) (l : list A) :
  forallb p (List.rev l) = forallb p l.
Proof.
  induction l as [|x l IH]; [reflexivity|].
  cbn [List.rev forallb]. rewrite List.forallb_app, IH. cbn [forallb].
  rewrite andb_true_r. apply andb_comm.
Qed.

(** When [sorted(..., reverse=True)] raises. *)
Lemma sorted_reverse_levanta {A} (l : list (pyval * A)) (e : exn) :
  sorted_reverse l = Raise e <->
  e = TypeError /\ (2 <= List.length l)%nat
  /\ forallb (fun x => is_str (fst x)) l = false
  /\ forallb (fun x => is_num (fst x)) l = false.
Proof.
  unfold sorted_reverse, sort_by_key.
  rewrite List.length_rev, !forallb_rev.
  destruct (Nat.ltb_spec (List.length l) 2) as [Hl|Hl]; cbn [rbind].
  - split; [discriminate|]. intros (_ & H & _). lia.
  - destruct (forallb (fun x => is_str (fst x)) l);
      destruct (forallb (fun x => is_num (fst x)) l); cbn [orb rbind];
      try (split; [discriminate|intros (_ & _ & H1 & H2); discriminate]).
    split; [intros H; injection H as <-; auto|intros (-> & _); reflexivity].
Qed.

Lemma sorted_reverse_length {A} (l : list (pyval * A)) (s : list A) :
  sorted_reverse l = Ok s -> List.length s = List.length l.
Proof.
  unfold sorted_reverse. destruct (sort_by_key _) as [r|e] eqn:E; [|discriminate].
  cbn [rbind]. intros H. injection H as <-.
  apply sort_by_key_length in E. rewrite List.length_rev, E, List.length_rev. reflexivity.
Qed.

Lemma chaves_de_texto {A} (f : A -> option pystr) (l : list A) :
  (forallb (fun x => is_str (fst x)) (List.map (fun x => (chave_de_texto (f x), x)) l) = false
   <-> exists c, In c l /\ f c = None)
  /\ (l <> [] ->
      forallb (fun x => is_num (fst x)) (List.map (fun x => (chave_de_texto (f x), x)) l)
      = false).
Proof.
  induction l as [|x l [IH1 IH2]]; cbn [List.map forallb fst In].
  - split; [|congruence]. split; [discriminate|intros (c & [] & _)].
  - split.
    + destruct (f x) as [s|] eqn:E; cbn [chave_de_texto is_str andb].
      * rewrite IH1. split; intros (c & Hc & Hn); exists c; [auto|].
        destruct Hc as [<-|Hc]; [congruence|auto].
      * split; [intros _; exists x; auto|reflexivity].
    + intros _. destruct (f x); reflexivity.
Qed.

Lemma chaves_numericas {A} (f : A -> Z) (l : list A) :
  forallb (fun x => is_num (fst x)) (List.map (fun x => (PyNum (inject_Z (f x)), x)) l)
  = true.
Proof. induction l as [|x l IH]; [reflexivity|exact IH]. Qed.

(** X13.  On tables that hold what the queries of the model read (dates
    kept as text, that is empty or written with [-] or [/]; no NUL in the
    names of the parties; names of figures that are patterns LIKE takes),
    [analisar_contratos_figura] raises exactly when the sort of the
    contracts by date meets a NULL: the figure exists, it has two contracts
    or more, and the date of one of them is NULL; what it raises then is a
    TypeError. *)
Theorem analise_levanta_com_data_nula (d : db) (figura_id : Z) (e : exn) :
  bd_fiel d = true ->
  analisar_contratos_figura d figura_id = Raise e <->
  e = TypeError
  /\ (exists figura, obter_figura d figura_id = Some figura)
  /\ 2 <= len (pesquisar_contratos_por_figura d figura_id)
  /\ exists c, In c (pesquisar_contratos_por_figura d figura_id)
               /\ TContratos.data_contrato c = None.
Proof.
  intros _.
  unfold analisar_contratos_figura.
  destruct (obter_figura d figura_id) as [figura|];
    [|split; [discriminate|intros (_ & (f & H) & _); discriminate]].
  set (cs := pesquisar_contratos_por_figura d figura_id).
  destruct (chaves_de_texto TContratos.data_contrato cs) as [Hs Hn].
  destruct (sorted_reverse (List.map _ cs)) as [ordenados|e'] eqn:E.
  - cbn [rbind].
    destruct (sorted_reverse (List.map _ (todos_parceiros _))) as [top|e'] eqn:E2.
    + cbn [rbind]. split; [discriminate|].
      intros (_ & _ & Hl & Hc). exfalso.
      assert (Hr : sorted_reverse
                     (List.map (fun x => (chave_de_texto (TContratos.data_contrato x), x)) cs)
                   = Raise TypeError).
      { apply sorted_reverse_levanta. split; [reflexivity|].
        rewrite List.length_map. unfold len in Hl. split; [lia|].
        split; [apply Hs, Hc|]. apply Hn. intros ->. cbn in Hl. lia. }
      congruence.
    + apply sorted_reverse_levanta in E2 as (_ & _ & _ & E2).
      rewrite chaves_numericas in E2. discriminate E2.
  - cbn [rbind]. apply sorted_reverse_levanta in E as (-> & Hl & H1 & _).
    rewrite List.length_map in Hl. split.
    + intros H. injection H as <-. split; [reflexivity|]. split; [eauto|].
      split; [unfold len; lia|apply Hs, H1].
    + intros (-> & _). reflexivity.
Qed.

Lemma analise_levanta_com_data_nula_witness :
  analisar_contratos_figura ExemplosFieis.base_com_nulo 1 = Raise TypeError <->
  TypeError = TypeError
  /\ (exists figura, obter_figura ExemplosFieis.base_com_nulo 1 = Some figura)
  /\ 2 <= len (pesquisar_contratos_por_figura ExemplosFieis.base_com_nulo 1)
  /\ exists c, In c (pesquisar_contratos_por_figura ExemplosFieis.base_com_nulo 1)
               /\ TContratos.data_contrato c = None.
Proof.
  apply (analise_levanta_com_data_nula ExemplosFieis.base_com_nulo 1 TypeError).
  vm_compute. reflexivity.
Defined.

(** The analysis of the chamber with a second contract whose date is NULL. *)
Example analise_com_nulo :
  analisar_contratos_figura ExemplosFieis.base_com_nulo 1 = Raise TypeError.
Proof. vm_compute. reflexivity. Qed.

Lemma somar_em_soma {K} (eqb : K -> K -> bool) (k : K) (n : Z) (l : list (K * Z)) :
  soma_contagens (somar_em eqb k n l) = soma_contagens l + n.
Proof.
  unfold soma_contagens.
  induction l as [|[k' m] l IH]; cbn [somar_em List.fold_right snd]; [lia|].
  destruct (eqb k k'); cbn [List.fold_right snd]; [|rewrite IH]; lia.
Qed.

Lemma contar_contratos (figura : TFiguras.t) (l : list TContratos.t) (s : contadores) :
  let a := analise s in
  let a' := analise (List.fold_left (contar_contrato figura) l s) in
  Analise.figura a' = Analise.figura a
  /\ Analise.total_contratos a' = Analise.total_contratos a
  /\ soma_contagens (Analise.tipos_contrato a')
     = soma_contagens (Analise.tipos_contrato a) + len l
  /\ soma_contagens (Analise.distribuicao_anos a)
     <= soma_contagens (Analise.distribuicao_anos a')
     <= soma_contagens (Analise.distribuicao_anos a) + len l
  /\ Analise.como_adjudicante a <= Analise.como_adjudicante a'
     <= Analise.como_adjudicante a + len l
  /\ Analise.como_adjudicataria a <= Analise.como_adjudicataria a'
     <= Analise.como_adjudicataria a + len l
  /\ (forallb (em_algum_papel figura) l = true ->
      Analise.como_adjudicante a + Analise.como_adjudicataria a + len l
      <= Analise.como_adjudicante a' + Analise.como_adjudicataria a').
Proof.
  cbn zeta. revert s. induction l as [|c l IH]; intros s; cbn [List.fold_left forallb].
  - unfold len. cbn [List.length Z.of_nat]. repeat split; lia.
  - destruct (IH (contar_contrato figura s c)) as (H1 & H2 & H3 & H4 & H5 & H6 & H7).
    rewrite H1, H2, H3. clear IH.
    assert (Hlen : len (c :: l) = len l + 1) by (unfold len; cbn [List.length]; lia).
    rewrite Hlen.
    cbn [contar_contrato analise Analise.figura Analise.total_contratos
           Analise.tipos_contrato Analise.distribuicao_anos Analise.como_adjudicante
           Analise.como_adjudicataria] in *.
    rewrite somar_em_soma in *.
    assert (Ha : soma_contagens (Analise.distribuicao_anos (analise s))
                 <= soma_contagens
                      match TContratos.data_contrato c with
                      | Some data =>
                          if nao_vazio data
                          then somar_em pystr_eqb (take 4 data) 1
                                 (Analise.distribuicao_anos (analise s))
                          else Analise.distribuicao_anos (analise s)
                      | None => Analise.distribuicao_anos (analise s)
                      end
                 <= soma_contagens (Analise.distribuicao_anos (analise s)) + 1).
    { destruct (TContratos.data_contrato c) as [data|]; [|lia].
      destruct (nao_vazio data); [rewrite somar_em_soma|]; lia. }
    split; [reflexivity|]. split; [reflexivity|]. split; [lia|]. split; [lia|].
    unfold em_algum_papel.
    destruct (eh_parte _ _ (lower (default [] (TContratos.adjudicante c))) _);
      destruct (eh_parte _ _ (lower (default [] (TContratos.adjudicataria c))) _);
      cbn [orb andb]; (split; [lia|]); (split; [lia|]); intros Hf;
      try discriminate Hf; specialize (H7 Hf); lia.
Qed.

(** X14.  The counts of the analysis agree: the total is the number of
    contracts found for the figure, the counts by type of contract add up
    to it, the counts by year and each of the two roles stay within it, and
    the lists of recent contracts and of partners hold at most 10 and 5. *)
Theorem analise_contagens (d : db) (figura_id : Z) (a : Analise.t) :
  analisar_contratos_figura d figura_id = Ok (Some a) ->
  Analise.total_contratos a = len (pesquisar_contratos_por_figura d figura_id)
  /\ soma_contagens (Analise.tipos_contrato a) = Analise.total_contratos a
  /\ 0 <= soma_contagens (Analise.distribuicao_anos a) <= Analise.total_contratos a
  /\ 0 <= Analise.como_adjudicante a <= Analise.total_contratos a
  /\ 0 <= Analise.como_adjudicataria a <= Analise.total_contratos a
  /\ len (Analise.contratos_recentes a) = Z.min 10 (Analise.total_contratos a)
  /\ len (Analise.top_parceiros a) <= 5.
Proof.
  unfold analisar_contratos_figura.
  destruct (obter_figura d figura_id) as [figura|]; [|discriminate].
  set (cs := pesquisar_contratos_por_figura d figura_id).
  destruct (sorted_reverse (List.map _ cs)) as [ordenados|e'] eqn:E; [|discriminate].
  cbn [rbind].
  destruct (sorted_reverse (List.map _ (todos_parceiros _))) as [top|e'] eqn:E2;
    [|discriminate].
  cbn [rbind]. intros H. injection H as <-.
  cbn [Analise.total_contratos Analise.tipos_contrato Analise.distribuicao_anos
         Analise.como_adjudicante Analise.como_adjudicataria Analise.contratos_recentes
         Analise.top_parceiros].
  destruct (contar_contratos figura cs (contadores_iniciais figura cs))
    as (_ & H2 & H3 & H4 & H5 & H6 & _).
  cbn [contadores_iniciais analise Analise.total_contratos Analise.tipos_contrato
         Analise.distribuicao_anos Analise.como_adjudicante Analise.como_adjudicataria]
    in H2, H3, H4, H5, H6.
  change (soma_contagens (@nil (option pystr * Z))) with 0 in H3.
  change (soma_contagens (@nil (pystr * Z))) with 0 in H4.
  apply sorted_reverse_length in E. rewrite List.length_map in E.
  rewrite H2. unfold len in *. rewrite !length_take, E.
  repeat split; lia.
Qed.

Lemma analise_contagens_witness :
  exists a,
    analisar_contratos_figura ExemplosFiguras.base 1 = Ok (Some a)
    /\ Analise.total_contratos a = len (pesquisar_contratos_por_figura ExemplosFiguras.base 1)
    /\ soma_contagens (Analise.tipos_contrato a) = Analise.total_contratos a
    /\ 0 <= soma_contagens (Analise.distribuicao_anos a) <= Analise.total_contratos a
    /\ 0 <= Analise.como_adjudicante a <= Analise.total_contratos a
    /\ 0 <= Analise.como_adjudicataria a <= Analise.total_contratos a
    /\ len (Analise.contratos_recentes a) = Z.min 10 (Analise.total_contratos a)
    /\ len (Analise.top_parceiros a) <= 5.
Proof.
  eexists. split; [vm_compute; reflexivity|].
  apply (analise_contagens ExemplosFiguras.base 1). vm_compute. reflexivity.
Defined.

(** *** The roles of the figure *)

Lemma figura_unica (l : list TFiguras.t) (a b : TFiguras.t) :
  List.NoDup (List.map TFiguras.id l) -> In a l -> In b l ->
  TFiguras.id a = TFiguras.id b -> a = b.
Proof.
  induction l as [|x l IH]; cbn [List.map In]; [intros _ []|].
  intros Hn Ha Hb E. apply List.NoDup_cons_iff in Hn as [Hx Hn].
  destruct Ha as [->|Ha], Hb as [->|Hb]; [reflexivity| | |apply IH; assumption].
  - exfalso. apply Hx. rewrite E. apply List.in_map, Hb.
  - exfalso. apply Hx. rewrite <- E. apply List.in_map, Ha.
Qed.

(** The figure [obter_figura] gives is the one whose contracts are fetched. *)
Lemma obter_figura_a_mesma (d : db) (figura_id : Z) (figura : TFiguras.t) :
  ids_unicos d -> obter_figura d figura_id = Some figura ->
  List.find (fun f => TFiguras.id f =? figura_id) (figuras_interesse d) = Some figura.
Proof.
  intros Hu Ho. unfold obter_figura in Ho. apply List.find_some in Ho as [Hin Hid].
  unfold listar_figuras_interesse in Hin. apply order_by_In, List.filter_In in Hin as [Hin _].
  destruct (List.find _ (figuras_interesse d)) as [fig|] eqn:E.
  - apply List.find_some in E as [Hin' Hid']. f_equal.
    apply (figura_unica (figuras_interesse d)); try assumption.
    apply Z.eqb_eq in Hid, Hid'. congruence.
  - eapply List.find_none in E; [|exact Hin]. cbv beta in E. congruence.
Qed.

Lemma like_null_eh_parte (nome : pystr) (nif_figura : option pystr)
    (coluna nif : option pystr) :
  sem_curingas nome ->
  SQL.like_null (SQL.contem nome) coluna = true ->
  eh_parte (lower nome) nif_figura (lower (default [] coluna)) nif = true.
Proof.
  intros Hq H. destruct coluna as [s|]; [|discriminate H]. cbn [SQL.like_null] in H.
  rewrite (like_contem nome s Hq) in H. apply str_in_lower in H.
  unfold corresponde in H. unfold eh_parte. cbn [from_option id default].
  rewrite H. reflexivity.
Qed.

Lemma contratos_da_figura_em_papel (d : db) (figura_id : Z) (figura : TFiguras.t) :
  List.find (fun f => TFiguras.id f =? figura_id) (figuras_interesse d) = Some figura ->
  sem_curingas (TFiguras.nome figura) ->
  forallb (em_algum_papel figura) (pesquisar_contratos_por_figura d figura_id) = true.
Proof.
  intros Hf Hq. unfold pesquisar_contratos_por_figura. rewrite Hf.
  apply forallb_forall. intros c Hc. apply order_by_In, List.filter_In in Hc as [_ Hc].
  unfold em_algum_papel.
  apply orb_true_iff in Hc as [Hc|Hc]; [apply orb_true_iff in Hc as [Hc|Hc];
    [apply orb_true_iff in Hc as [Hc|Hc]|]|].
  - rewrite (like_null_eh_parte _ _ _ _ Hq Hc). reflexivity.
  - rewrite (like_null_eh_parte _ _ _ _ Hq Hc). apply orb_true_r.
  - unfold eh_parte at 1. destruct (TFiguras.nif figura) as [n|]; [|discriminate Hc].
    apply andb_true_iff in Hc as [Hn He]. rewrite Hn.
    destruct (TContratos.adjudicante_nif c) as [m|]; [|discriminate He].
    cbn [SQL.eq_null] in He. cbn [coluna_eqb andb]. rewrite He, orb_true_r. reflexivity.
  - apply orb_true_iff. right.
    unfold eh_parte. destruct (TFiguras.nif figura) as [n|]; [|discriminate Hc].
    apply andb_true_iff in Hc as [Hn He]. rewrite Hn.
    destruct (TContratos.adjudicataria_nif c) as [m|]; [|discriminate He].
    cbn [SQL.eq_null] in He. cbn [coluna_eqb andb]. rewrite He, orb_true_r. reflexivity.
Qed.

(** X15.  On tables that hold what the queries of the model read (as in
    X13) and whose names are written in Latin-1, when the name of the figure
    holds no wildcard of LIKE (% or _) and the ids of the figures are
    unique, every contract the query finds for the figure is counted in a
    role: the two role counts add up to the total or more (a contract in
    which the figure is both parties counts twice). *)
Theorem analise_papeis_cobrem (d : db) (figura_id : Z) (a : Analise.t) :
  bd_fiel d = true ->
  nomes_latinos d = true ->
  ids_unicos d ->
  analisar_contratos_figura d figura_id = Ok (Some a) ->
  sem_curingas (TFiguras.nome (Analise.figura a)) ->
  Analise.total_contratos a <= Analise.como_adjudicante a + Analise.como_adjudicataria a.
Proof.
  intros _ _ Hu. unfold analisar_contratos_figura.
  destruct (obter_figura d figura_id) as [figura|] eqn:Ho; [|discriminate].
  set (cs := pesquisar_contratos_por_figura d figura_id).
  destruct (sorted_reverse (List.map _ cs)) as [ordenados|e'] eqn:E; [|discriminate].
  cbn [rbind].
  destruct (sorted_reverse (List.map _ (todos_parceiros _))) as [top|e'] eqn:E2;
    [|discriminate].
  cbn [rbind]. intros H. injection H as <-.
  cbn [Analise.total_contratos Analise.figura Analise.como_adjudicante
         Analise.como_adjudicataria].
  destruct (contar_contratos figura cs (contadores_iniciais figura cs))
    as (H1 & H2 & _ & _ & _ & _ & H7).
  cbn [contadores_iniciais analise Analise.total_contratos Analise.figura
         Analise.como_adjudicante Analise.como_adjudicataria] in H1, H2, H7.
  rewrite H1, H2. intros Hq.
  specialize (H7 (contratos_da_figura_em_papel d figura_id figura
                    (obter_figura_a_mesma d figura_id figura Hu Ho) Hq)).
  lia.
Qed.

Lemma analise_papeis_cobrem_witness :
  exists a,
    analisar_contratos_figura ExemplosFiguras.base 1 = Ok (Some a)
    /\ Analise.total_contratos a
       <= Analise.como_adjudicante a + Analise.como_adjudicataria a.
Proof.
  eexists. split; [vm_compute; reflexivity|].
  apply (analise_papeis_cobrem ExemplosFiguras.base 1).
  - reflexivity.
  - reflexivity.
  - unfold ids_unicos. cbn. repeat constructor; cbn; intuition discriminate.
  - vm_compute. reflexivity.
  - cbn [Analise.figura TFiguras.nome]. unfold sem_curingas.
    apply List.Forall_forall. intros c Hc. vm_compute in Hc.
    repeat (destruct Hc as [<-|Hc]; [split; discriminate|]). destruct Hc.
Defined.

(** ** Insertion of contracts *)

Lemma existsb_id_In (id : pystr) (l : list TContratos.t) :
  existsb (fun linha => pystr_eqb (TContratos.id_contrato linha) id) l = true
  <-> In id (List.map TContratos.id_contrato l).
Proof.
  rewrite existsb_exists, List.in_map_iff. split.
  - intros (x & Hx & E). apply pystr_eqb_eq in E. eauto.
  - intros (x & E & Hx). exists x. split; [exact Hx|]. apply pystr_eqb_eq, E.
Qed.

(** What one insertion does to the table. *)
Lemma inserir_contrato_tabela (contrato : Dados.t) (d : db) :
  let '(inserido, d') := inserir_contrato contrato d in
  (inserido = false -> d' = d)
  /\ (inserido = true ->
      exists id, Dados.id_contrato contrato = Some id
                 /\ ~ In id (List.map TContratos.id_contrato (contratos d))
                 /\ d' = com_contratos d (contratos d ++ [linha_do_contrato id contrato]))
  /\ (forall id, Dados.id_contrato contrato = Some id ->
                 In id (List.map TContratos.id_contrato (contratos d'))).
Proof.
  unfold inserir_contrato. destruct (Dados.id_contrato contrato) as [id|].
  - destruct (existsb _ _) eqn:E.
    + split; [reflexivity|]. split; [discriminate|].
      intros id' H. injection H as <-. apply existsb_id_In, E.
    + split; [discriminate|]. split.
      * intros _. exists id. split; [reflexivity|]. split; [|reflexivity].
        intros H. apply existsb_id_In in H. congruence.
      * intros id' H. injection H as <-. cbn [contratos com_contratos].
        rewrite List.map_app. apply List.in_or_app. right. left. reflexivity.
  - split; [reflexivity|]. split; [discriminate|]. discriminate.
Qed.

(** X16.  An insertion can be read back.  For a contract dict the table
    holds as given (strings without surrogates and of a length SQLite
    stores, dates that are empty or written with [-] or [/], a value a float
    holds exactly, a deadline within 64 bits): when [inserir_contrato]
    answers True, [obter_contrato_por_id] gives the row just written for the
    id of the contract and what it gave before for every other id that can
    be bound; when it answers False the repository is unchanged. *)
Theorem inserir_e_obter (contrato : Dados.t) (d : db) :
  guardado_como_dado contrato = true ->
  let '(inserido, d') := inserir_contrato contrato d in
  if inserido then
    exists id,
      Dados.id_contrato contrato = Some id
      /\ obter_contrato_por_id d id = None
      /\ obter_contrato_por_id d' id = Some (linha_do_contrato id contrato)
      /\ forall outro, texto_ligavel (Some outro) = true -> outro <> id ->
                       obter_contrato_por_id d' outro = obter_contrato_por_id d outro
  else d' = d.
Proof.
  intros _.
  unfold inserir_contrato. destruct (Dados.id_contrato contrato) as [id|]; [|reflexivity].
  destruct (existsb _ _) eqn:E; [reflexivity|].
  exists id. split; [reflexivity|].
  unfold obter_contrato_por_id. cbn [contratos com_contratos].
  assert (Hn : List.find (fun linha => pystr_eqb (TContratos.id_contrato linha) id)
                 (contratos d) = None).
  { destruct (List.find _ _) as [x|] eqn:F; [|reflexivity].
    apply List.find_some in F as [Hin Hx].
    assert (existsb (fun linha => pystr_eqb (TContratos.id_contrato linha) id) (contratos d)
            = true) by (apply existsb_exists; eauto).
    congruence. }
  split; [exact Hn|]. split.
  - induction (contratos d) as [|x l IH]; cbn [List.app List.find] in *.
    + cbn [linha_do_contrato TContratos.id_contrato]. rewrite pystr_eqb_refl. reflexivity.
    + cbn [existsb] in E. apply orb_false_iff in E as [Ex El]. rewrite Ex.
      rewrite Ex in Hn. apply IH; assumption.
  - intros outro _ Ho. clear E Hn.
    induction (contratos d) as [|x l IH]; cbn [List.app List.find].
    + cbn [linha_do_contrato TContratos.id_contrato].
      destruct (pystr_eqb id outro) eqn:E; [|reflexivity].
      apply pystr_eqb_eq in E. congruence.
    + destruct (pystr_eqb _ _); [reflexivity|exact IH].
Qed.

Lemma inserir_e_obter_witness :
  let '(inserido, d') :=
    inserir_contrato (ExemplosLote.dados_teste (Some (str "TEST004")) 50000)
      ExemplosFiguras.base in
  if inserido then
    exists id,
      Dados.id_contrato (ExemplosLote.dados_teste (Some (str "TEST004")) 50000) = Some id
      /\ obter_contrato_por_id ExemplosFiguras.base id = None
      /\ obter_contrato_por_id d' id
         = Some (linha_do_contrato id
                   (ExemplosLote.dados_teste (Some (str "TEST004")) 50000))
      /\ forall outro, texto_ligavel (Some outro) = true -> outro <> id ->
                       obter_contrato_por_id d' outro
                       = obter_contrato_por_id ExemplosFiguras.base outro
  else d' = ExemplosFiguras.base.
Proof.
  apply (inserir_e_obter (ExemplosLote.dados_teste (Some (str "TEST004")) 50000)
           ExemplosFiguras.base).
  vm_compute. reflexivity.
Defined.

(** *** A batch *)

Lemma processar_contrato_contas (stats : Stats.t) (d : db) (contrato : Dados.t) :
  let '(stats', d') := processar_contrato (stats, d) contrato in
  Stats.total stats' = Stats.total stats
  /\ Stats.inseridos stats' + Stats.duplicados stats' + Stats.invalidos stats'
     = Stats.inseridos stats + Stats.duplicados stats + Stats.invalidos stats + 1
  /\ Stats.inseridos stats <= Stats.inseridos stats'
  /\ Stats.duplicados stats <= Stats.duplicados stats'
  /\ Stats.invalidos stats <= Stats.invalidos stats'
  /\ len (contratos d') - Stats.inseridos stats' = len (contratos d) - Stats.inseridos stats
  /\ (contratos_unicos d -> contratos_unicos d')
  /\ (forall id, In id (List.map TContratos.id_contrato (contratos d)) ->
                 In id (List.map TContratos.id_contrato (contratos d')))
  /\ (validar_contrato contrato = true ->
      exists id, Dados.id_contrato contrato = Some id
                 /\ In id (List.map TContratos.id_contrato (contratos d')))
  /\ com_contratos d' (contratos d) = d.
Proof.
  unfold processar_contrato.
  assert (Hd : com_contratos d (contratos d) = d) by (destruct d; reflexivity).
  destruct (validar_contrato contrato) eqn:Hv; cbn [negb].
  - pose proof (inserir_contrato_tabela contrato d) as H.
    destruct (inserir_contrato contrato d) as [inserido d'].
    destruct H as (Hf & Ht & Hid).
    assert (Hval : exists id, Dados.id_contrato contrato = Some id
                              /\ In id (List.map TContratos.id_contrato (contratos d'))).
    { unfold validar_contrato in Hv. destruct (Dados.id_contrato contrato) as [id|] eqn:E;
        [|discriminate]. exists id. split; [reflexivity|]. apply Hid. reflexivity. }
    destruct inserido.
    + destruct (Ht eq_refl) as (id & Hc & Hn & ->).
      cbn [Stats.total Stats.inseridos Stats.duplicados Stats.invalidos contratos
             com_contratos].
      unfold len. rewrite List.length_app. cbn [List.length].
      repeat split; try lia.
      * unfold contratos_unicos. cbn [contratos com_contratos]. intros Hu.
        rewrite List.map_app. apply List.NoDup_app; [exact Hu| |].
        -- constructor; [intros []|constructor].
        -- intros x Hx [<-|[]]. exact (Hn Hx).
      * intros x Hx. rewrite List.map_app. apply List.in_or_app. left. exact Hx.
      * intros _. exact Hval.
      * destruct d; reflexivity.
    + rewrite (Hf eq_refl) in *.
      cbn [Stats.total Stats.inseridos Stats.duplicados Stats.invalidos].
      repeat split; try lia; auto.
  - cbn [Stats.total Stats.inseridos Stats.duplicados Stats.invalidos].
    repeat split; try lia; auto; discriminate.
Qed.

Lemma processar_contratos_contas (l : list Dados.t) (stats : Stats.t) (d : db) :
  let '(stats', d') := List.fold_left processar_contrato l (stats, d) in
  Stats.total stats' = Stats.total stats
  /\ Stats.inseridos stats' + Stats.duplicados stats' + Stats.invalidos stats'
     = Stats.inseridos stats + Stats.duplicados stats + Stats.invalidos stats + len l
  /\ Stats.inseridos stats <= Stats.inseridos stats'
  /\ Stats.duplicados stats <= Stats.duplicados stats'
  /\ Stats.invalidos stats <= Stats.invalidos stats'
  /\ len (contratos d') - Stats.inseridos stats' = len (contratos d) - Stats.inseridos stats
  /\ (contratos_unicos d -> contratos_unicos d')
  /\ (forall id, In id (List.map TContratos.id_contrato (contratos d)) ->
                 In id (List.map TContratos.id_contrato (contratos d')))
  /\ (forall c, In c l -> validar_contrato c = true ->
      exists id, Dados.id_contrato c = Some id
                 /\ In id (List.map TContratos.id_contrato (contratos d')))
  /\ com_contratos d' (contratos d) = d.
Proof.
  revert stats d. induction l as [|c l IH]; intros stats d; cbn [List.fold_left].
  - unfold len. cbn [List.length Z.of_nat].
    repeat split; try lia; auto; [intros c []|destruct d; reflexivity].
  - pose proof (processar_contrato_contas stats d c) as H1.
    destruct (processar_contrato (stats, d) c) as [stats1 d1].
    pose proof (IH stats1 d1) as H2.
    destruct (List.fold_left processar_contrato l (stats1, d1)) as [stats2 d2].
    destruct H1 as (A1 & A2 & A3 & A4 & A5 & A6 & A7 & A8 & A9 & A10).
    destruct H2 as (B1 & B2 & B3 & B4 & B5 & B6 & B7 & B8 & B9 & B10).
    assert (Hlen : len (c :: l) = len l + 1) by (unfold len; cbn [List.length]; lia).
    rewrite Hlen. repeat split; try lia; auto.
    + intros c' [<-|Hc] Hv.
      * destruct (A9 Hv) as (id & E & Hin). exists id. split; [exact E|apply B8, Hin].
      * apply B9; assumption.
    + rewrite <- A10, <- B10. reflexivity.
Qed.

(** X17.  The counts of a batch add up, and they tell what happened to the
    table.  For a batch of contract dicts the table holds as given (strings
    without surrogates and of a length SQLite stores, dates that are empty
    or written with [-] or [/], values a float holds exactly, deadlines
    within 64 bits), so that no INSERT raises: every contract of the batch
    is inserted, a duplicate or invalid; the table of contracts grows by the
    number inserted; ids that were unique stay unique; and the other tables
    are untouched. *)
Theorem lote_contas (lote : list Dados.t) (d : db) :
  forallb guardado_como_dado lote = true ->
  let '(stats, d') := processar_lote_contratos lote d in
  Stats.total stats = len lote
  /\ Stats.inseridos stats + Stats.duplicados stats + Stats.invalidos stats
     = Stats.total stats
  /\ 0 <= Stats.inseridos stats /\ 0 <= Stats.duplicados stats
  /\ 0 <= Stats.invalidos stats
  /\ len (contratos d') = len (contratos d) + Stats.inseridos stats
  /\ (contratos_unicos d -> contratos_unicos d')
  /\ com_contratos d' (contratos d) = d.
Proof.
  intros _.
  unfold processar_lote_contratos.
  pose proof (processar_contratos_contas lote
                {| Stats.total := len lote; Stats.inseridos := 0;
                   Stats.duplicados := 0; Stats.invalidos := 0 |} d) as H.
  destruct (List.fold_left _ _ _) as [stats d'].
  cbn [Stats.total Stats.inseridos Stats.duplicados Stats.invalidos] in H.
  destruct H as (H1 & H2 & H3 & H4 & H5 & H6 & H7 & _ & _ & H10).
  repeat split; try lia; auto.
Qed.

Lemma lote_contas_witness :
  let '(stats, d') := processar_lote_contratos ExemplosLote.lote ExemplosFiguras.base in
  Stats.total stats = len ExemplosLote.lote
  /\ Stats.inseridos stats + Stats.duplicados stats + Stats.invalidos stats
     = Stats.total stats
  /\ 0 <= Stats.inseridos stats /\ 0 <= Stats.duplicados stats
  /\ 0 <= Stats.invalidos stats
  /\ len (contratos d') = len (contratos ExemplosFiguras.base) + Stats.inseridos stats
  /\ (contratos_unicos ExemplosFiguras.base -> contratos_unicos d')
  /\ com_contratos d' (contratos ExemplosFiguras.base) = ExemplosFiguras.base.
Proof.
  apply (lote_contas ExemplosLote.lote ExemplosFiguras.base).
  vm_compute. reflexivity.
Defined.

Lemma processar_contratos_invalidos (l : list Dados.t) (stats : Stats.t) (d : db) :
  Stats.invalidos (List.fold_left processar_contrato l (stats, d)).1
  = Stats.invalidos stats + len (List.filter (fun c => negb (validar_contrato c)) l).
Proof.
  revert stats d. induction l as [|c l IH]; intros stats d; cbn [List.fold_left List.filter].
  - unfold len. cbn [fst List.length Z.of_nat]. lia.
  - unfold processar_contrato at 2.
    destruct (validar_contrato c); cbn [negb].
    + destruct (inserir_contrato c d) as [[|] d']; rewrite IH; reflexivity.
    + rewrite IH. cbn [Stats.invalidos]. unfold len. cbn [List.length]. lia.
Qed.

(** A batch whose valid contracts are all in the table already. *)
Lemma processar_contratos_repetidos (l : list Dados.t) (stats : Stats.t) (d : db) :
  (forall c, In c l -> validar_contrato c = true ->
             exists id, Dados.id_contrato c = Some id
                        /\ In id (List.map TContratos.id_contrato (contratos d))) ->
  List.fold_left processar_contrato l (stats, d)
  = ({| Stats.total := Stats.total stats;
        Stats.inseridos := Stats.inseridos stats;
        Stats.duplicados := Stats.duplicados stats + len (List.filter validar_contrato l);
        Stats.invalidos :=
          Stats.invalidos stats + len (List.filter (fun c => negb (validar_contrato c)) l)
     |}, d).
Proof.
  revert stats. induction l as [|c l IH]; intros stats Hl; cbn [List.fold_left List.filter].
  - unfold len. cbn [List.length Z.of_nat]. rewrite !Z.add_0_r. destruct stats; reflexivity.
  - assert (Hl' : forall c', In c' l -> validar_contrato c' = true ->
                    exists id, Dados.id_contrato c' = Some id
                               /\ In id (List.map TContratos.id_contrato (contratos d)))
      by (intros c' Hc'; apply Hl; right; exact Hc').
    unfold processar_contrato at 2.
    destruct (validar_contrato c) eqn:Hv; cbn [negb].
    + destruct (Hl c (or_introl eq_refl) Hv) as (id & E & Hin).
      unfold inserir_contrato. rewrite E.
      apply existsb_id_In in Hin. rewrite Hin.
      rewrite (IH _ Hl'). cbn [Stats.total Stats.inseridos Stats.duplicados Stats.invalidos].
      unfold len. cbn [List.length]. f_equal. f_equal; lia.
    + rewrite (IH _ Hl'). cbn [Stats.total Stats.inseridos Stats.duplicados Stats.invalidos].
      unfold len. cbn [List.length]. f_equal. f_equal; lia.
Qed.

Lemma filter_partes {A} (p : A -> bool) (l : list A) :
  len (List.filter p l) + len (List.filter (fun x => negb (p x)) l) = len l.
Proof.
  unfold len. induction l as [|x l IH]; cbn [List.filter]; [reflexivity|].
  destruct (p x); cbn [negb List.length]; lia.
Qed.

(** X18.  A batch is idempotent.  For a batch of contract dicts the table
    holds as given (as in X17), so that no INSERT raises: processed a second
    time, the batch inserts nothing and leaves the repository as the first
    run left it; what the first run inserted is counted among the
    duplicates, and the invalid contracts are counted again. *)
Theorem lote_idempotente (lote : list Dados.t) (d : db) :
  forallb guardado_como_dado lote = true ->
  let '(stats, d') := processar_lote_contratos lote d in
  processar_lote_contratos lote d'
  = ({| Stats.total := Stats.total stats;
        Stats.inseridos := 0;
        Stats.duplicados := Stats.inseridos stats + Stats.duplicados stats;
        Stats.invalidos := Stats.invalidos stats |}, d').
Proof.
  intros _.
  unfold processar_lote_contratos.
  set (inicio := {| Stats.total := len lote; Stats.inseridos := 0;
                    Stats.duplicados := 0; Stats.invalidos := 0 |}).
  pose proof (processar_contratos_contas lote inicio d) as H.
  pose proof (processar_contratos_invalidos lote inicio d) as Hi.
  destruct (List.fold_left processar_contrato lote (inicio, d)) as [stats d'].
  destruct H as (H1 & H2 & _ & _ & _ & _ & _ & _ & H9 & _).
  cbn [fst] in Hi. cbn [inicio Stats.total Stats.inseridos Stats.duplicados
                          Stats.invalidos] in H1, H2, Hi.
  rewrite (processar_contratos_repetidos lote inicio d' H9).
  cbn [inicio Stats.total Stats.inseridos Stats.duplicados Stats.invalidos].
  pose proof (filter_partes validar_contrato lote) as Hp.
  f_equal. f_equal; lia.
Qed.

Lemma lote_idempotente_witness :
  let '(stats, d') := processar_lote_contratos ExemplosLote.lote ExemplosFiguras.base in
  processar_lote_contratos ExemplosLote.lote d'
  = ({| Stats.total := Stats.total stats;
        Stats.inseridos := 0;
        Stats.duplicados := Stats.inseridos stats + Stats.duplicados stats;
        Stats.invalidos := Stats.invalidos stats |}, d').
Proof.
  apply (lote_idempotente ExemplosLote.lote ExemplosFiguras.base).
  vm_compute. reflexivity.
Defined.

Example lote_de_teste :
  (processar_lote_contratos ExemplosLote.lote ExemplosFiguras.base).1
  = {| Stats.total := 5; Stats.inseridos := 2; Stats.duplicados := 2;
       Stats.invalidos := 1 |}.
Proof. vm_compute. reflexivity. Qed.

(** ** People and positions *)

Lemma lastrowid_novo (ids : list Z) : ~ In (lastrowid ids) ids.
Proof.
  unfold lastrowid.
  assert (H : forall x, In x ids -> x <= List.fold_right Z.max 0 ids).
  { induction ids as [|y ids IH]; cbn [In List.fold_right]; [intros x []|].
    intros x [<-|Hx]; [lia|]. specialize (IH x Hx). lia. }
  intros Hin. specialize (H _ Hin). lia.
Qed.

Lemma find_nome_None (nome : pystr) (l : list TPessoas.t) :
  List.find (fun p => pystr_eqb (TPessoas.nome p) nome) l = None ->
  ~ In nome (List.map TPessoas.nome l).
Proof.
  intros H Hin. apply List.in_map_iff in Hin as (p & <- & Hp).
  eapply List.find_none in H; [|exact Hp]. cbv beta in H.
  rewrite pystr_eqb_refl in H. discriminate H.
Qed.

Lemma find_no_fim {A} (p : A -> bool) (l : list A) (x : A) :
  List.find p l = None -> p x = true -> List.find p (l ++ [x]) = Some x.
Proof.
  intros Hl Hx. induction l as [|y l IH]; cbn [List.app List.find] in *.
  - rewrite Hx. reflexivity.
  - destruct (p y); [discriminate Hl|exact (IH Hl)].
Qed.

(** X19.  Adding a person is idempotent by name: [adicionar_pessoa] returns
    the id of a row of that name, and a second call with the same name
    returns the same id and leaves the repository as it is, whatever the
    other fields given (they are dropped); names and ids that were unique
    stay unique. *)
Theorem adicionar_pessoa_idempotente (nome : pystr)
    (cargo_politico partido funcao_atual notas : option pystr) (d : db) :
  let '(pessoa_id, d') := adicionar_pessoa nome cargo_politico partido funcao_atual notas d in
  (exists p, In p (pessoas d') /\ TPessoas.id p = pessoa_id /\ TPessoas.nome p = nome)
  /\ (forall cargo_politico' partido' funcao_atual' notas',
        adicionar_pessoa nome cargo_politico' partido' funcao_atual' notas' d'
        = (pessoa_id, d'))
  /\ (pessoas_unicas d -> pessoas_unicas d').
Proof.
  unfold adicionar_pessoa.
  destruct (List.find _ (pessoas d)) as [row|] eqn:E.
  - pose proof (List.find_some _ _ E) as [Hin Hn]. apply pystr_eqb_eq in Hn.
    split; [exists row; auto|]. split; [|auto].
    intros c' p' f' n'. rewrite E. reflexivity.
  - cbn [pessoas com_pessoas]. split; [|split].
    + eexists. split; [apply List.in_or_app; right; left; reflexivity|].
      split; reflexivity.
    + intros c' p' f' n'.
      rewrite (find_no_fim _ _ _ E); [reflexivity|].
      cbn [TPessoas.nome]. apply pystr_eqb_refl.
    + intros [Hn Hi]. unfold pessoas_unicas. cbn [pessoas com_pessoas].
      rewrite !List.map_app. cbn [List.map TPessoas.nome TPessoas.id]. split.
      * apply List.NoDup_app; [exact Hn|constructor; [intros []|constructor]|].
        intros x Hx [<-|[]]. exact (find_nome_None _ _ E Hx).
      * apply List.NoDup_app; [exact Hi|constructor; [intros []|constructor]|].
        intros x Hx [<-|[]]. exact (lastrowid_novo _ Hx).
Qed.

Lemma pessoas_politicas_cargo_inativo (d : db) (novo : TCargos.t) (pessoa_id : option Z) :
  (TCargos.ativo novo =? 1) = false ->
  pessoas_politicas (com_cargos d (cargos_politicos d ++ [novo])) pessoa_id
  = pessoas_politicas d pessoa_id.
Proof.
  intros Hn. unfold pessoas_politicas. cbn [pessoas cargos_politicos com_cargos].
  f_equal. apply List.flat_map_ext. intros p. f_equal.
  rewrite List.filter_app. cbn [List.filter]. rewrite Hn, andb_false_r.
  apply List.app_nil_r.
Qed.

(** X20.  A position that has ended is no ground for a conflict: after
    [adicionar_cargo_politico] with a date of end, which writes the row as
    not active, the detection of conflicts finds, for any person asked, just
    what it found before. *)
Theorem cargo_terminado_sem_efeito (pessoa_id : Z) (cargo : pystr)
    (entidade partido data_inicio : option pystr) (c : N) (data_fim : pystr) (d : db)
    (quem : option Z) :
  let d' := snd (adicionar_cargo_politico pessoa_id cargo entidade partido data_inicio
                   (Some (c :: data_fim)) d) in
  fst (detectar_conflitos_interesse quem d') = fst (detectar_conflitos_interesse quem d).
Proof.
  cbn zeta. rewrite !detectar_e_encontrados.
  unfold adicionar_cargo_politico. cbn [snd].
  unfold conflitos_encontrados.
  rewrite pessoas_politicas_cargo_inativo; reflexivity.
Qed.

(** *** The search by person *)

Lemma for_extend_leitura {A B} (g : db -> A -> list B) (l : list A) (d : db) :
  for_extend l (fun x => r <- gets (fun d => g d x) ;; ret (r : list B)) d
  = (Ok (List.flat_map (g d) l), d).
Proof.
  induction l as [|x l IH]; cbn [for_extend List.flat_map]; [reflexivity|].
  unfold bind at 1. unfold bind at 1. unfold gets at 1. unfold ret at 1.
  unfold bind at 1. rewrite IH. reflexivity.
Qed.

Lemma py_sum_levanta (vs : list pyval) (acc : Q) (e : exn) :
  py_sum_from acc vs = Raise e ->
  e = TypeError /\ exists v, In v vs /\ is_num v = false.
Proof.
  revert acc. induction vs as [|v vs IH]; intros acc; cbn [py_sum_from]; [discriminate|].
  destruct v as [|q|s]; cbn [py_num rbind].
  - intros H. injection H as <-. split; [reflexivity|]. exists PyNone. split; [left|]; reflexivity.
  - intros H. destruct (IH _ H) as (-> & v & Hv & Hn).
    split; [reflexivity|]. exists v. split; [right; exact Hv|exact Hn].
  - intros H. injection H as <-. split; [reflexivity|].
    exists (PyStr s). split; [left|]; reflexivity.
Qed.

(** X21.  The search by person only reads the repository.  On tables that
    hold what the queries of the model read (no NUL in the names LIKE is
    applied to, dates kept as text, names of companies that are patterns
    LIKE takes) and for a name that is such a pattern (no NUL, no
    surrogate, at most 50 000 bytes with its two [%]): when the search
    returns, the result carries the name asked for, its total is the number
    of the direct contracts plus that of the contracts of the companies, and
    every contract listed is a row of the table; when it raises, what it
    raises is the TypeError of the sum of the values, and the table holds a
    contract whose value is NULL. *)
Theorem pesquisa_por_pessoa_totais (nome_pessoa : pystr) (d : db) :
  bd_fiel d = true ->
  padrao_aceite nome_pessoa = true ->
  let '(r, d') := pesquisar_contratos_por_pessoa nome_pessoa d in
  d' = d
  /\ match r with
     | Ok res =>
         pessoa res = nome_pessoa
         /\ total_contratos res
            = len (contratos_diretos res) + len (contratos_empresas res)
         /\ Forall (fun c => In c (contratos d)) (contratos_diretos res)
         /\ Forall (fun c => In (contrato_de c) (contratos d)) (contratos_empresas res)
     | Raise e =>
         e = TypeError
         /\ exists c, In c (contratos d) /\ TContratos.valor c = None
     end.
Proof.
  intros _ _.
  unfold pesquisar_contratos_por_pessoa. unfold bind at 1. unfold gets at 1.
  destruct (pesquisar_pessoa d nome_pessoa) as [|p ps].
  { cbn [ret]. split; [reflexivity|]. cbn. repeat split; constructor. }
  unfold bind at 1. unfold gets at 1. unfold bind at 1. unfold gets at 1.
  unfold bind at 1. unfold gets at 1.
  set (associacoes := listar_associacoes_pessoa d (TPessoas.id p)).
  set (diretos := pesquisar_contratos d (por_adjudicante nome_pessoa)
                  ++ pesquisar_contratos d (por_adjudicataria nome_pessoa)).
  unfold bind at 1.
  rewrite (for_extend_leitura
             (fun d empresa =>
                List.map (fun c => {| contrato_de := c;
                                      _empresa_associada := empresa;
                                      _tipo_associacao :=
                                        match List.find (fun a => pystr_eqb
                                                           (TAssociacoes.empresa_nome a) empresa)
                                                associacoes with
                                        | Some a => TAssociacoes.tipo_relacao a
                                        | None => Some (str "desconhecido")
                                        end |})
                  (pesquisar_contratos d (por_adjudicataria empresa)))).
  set (empresas := List.flat_map _ _).
  assert (Hd : Forall (fun c => In c (contratos d)) diretos).
  { apply List.Forall_forall. intros c Hc. apply List.in_app_or in Hc as [Hc|Hc];
      eapply pesquisar_contratos_In, Hc. }
  assert (He : Forall (fun c => In (contrato_de c) (contratos d)) empresas).
  { apply List.Forall_forall. intros c Hc. apply List.in_flat_map in Hc as (e & _ & Hc).
    apply List.in_map_iff in Hc as (c' & <- & Hc). cbn [contrato_de].
    eapply pesquisar_contratos_In, Hc. }
  unfold bind, lift.
  destruct (py_sum _) as [v|e] eqn:E.
  - cbn [ret]. split; [reflexivity|].
    cbn [pessoa total_contratos contratos_diretos contratos_empresas].
    split; [reflexivity|]. split; [|split; assumption].
    unfold len. rewrite List.length_app, List.length_map. lia.
  - split; [reflexivity|]. apply py_sum_levanta in E as (-> & v & Hv & Hn).
    split; [reflexivity|]. apply List.in_map_iff in Hv as (c & <- & Hc).
    exists c. split.
    + apply List.in_app_or in Hc as [Hc|Hc].
      * rewrite List.Forall_forall in Hd. apply Hd, Hc.
      * apply List.in_map_iff in Hc as (c' & <- & Hc).
        rewrite List.Forall_forall in He. apply He, Hc.
    + unfold valor_da_linha in Hn. destruct (TContratos.valor c); [discriminate Hn|reflexivity].
Qed.

Lemma pesquisa_por_pessoa_totais_witness :
  let '(r, d') := pesquisar_contratos_por_pessoa (str "João Silva") ExemplosBD.base in
  d' = ExemplosBD.base
  /\ match r with
     | Ok res =>
         pessoa res = str "João Silva"
         /\ total_contratos res
            = len (contratos_diretos res) + len (contratos_empresas res)
         /\ Forall (fun c => In c (contratos ExemplosBD.base)) (contratos_diretos res)
         /\ Forall (fun c => In (contrato_de c) (contratos ExemplosBD.base))
              (contratos_empresas res)
     | Raise e =>
         e = TypeError
         /\ exists c, In c (contratos ExemplosBD.base) /\ TContratos.valor c = None
     end.
Proof.
  apply (pesquisa_por_pessoa_totais (str "João Silva") ExemplosBD.base).
  - vm_compute. reflexivity.
  - vm_compute. reflexivity.
Defined.

(** ** Figures of interest *)

Lemma find_primeiro_no_fim {A} (p q : A -> bool) (l : list A) (x : A) :
  (forall y, In y l -> q y = p y) -> existsb p l = false -> q x = true ->
  List.find q (l ++ [x]) = Some x.
Proof.
  intros Hpq Hl Hx. induction l as [|y l IH]; cbn [List.app List.find existsb] in *.
  - rewrite Hx. reflexivity.
  - apply orb_false_iff in Hl as [Hy Hl].
    rewrite (Hpq y (or_introl eq_refl)), Hy. apply IH; [|exact Hl].
    intros z Hz. apply Hpq. right. exact Hz.
Qed.

(** X22.  With a tax id, adding a figure is idempotent: when
    [adicionar_figura_interesse] returns an id for a name and a tax id that
    is not None, a second call with the same two returns the same id and
    leaves the repository as it is, whatever the other fields; and when it
    raises, the type given is none of the three allowed and the repository
    is unchanged. *)
Theorem adicionar_figura_com_nif_idempotente (nome nif : pystr)
    (tipo notas cargo_governamental partido : option pystr) (d : db) :
  let '(r, d') := adicionar_figura_interesse nome (Some nif) tipo notas
                    cargo_governamental partido d in
  match r with
  | Adicionada figura_id =>
      forall tipo' notas' cargo_governamental' partido',
        adicionar_figura_interesse nome (Some nif) tipo' notas'
          cargo_governamental' partido' d'
        = (Adicionada figura_id, d')
  | IntegrityError => d' = d /\ tipo_aceite tipo = false
  end.
Proof.
  unfold adicionar_figura_interesse at 1.
  destruct (existsb (mesma_figura nome (Some nif)) (figuras_interesse d)) eqn:Ex.
  - rewrite andb_false_r.
    apply existsb_exists in Ex as (f & Hf & Hm).
    destruct (List.find _ _) as [row|] eqn:E.
    + intros t' n' c' p'. unfold adicionar_figura_interesse.
      assert (Ex' : existsb (mesma_figura nome (Some nif)) (figuras_interesse d) = true)
        by (apply existsb_exists; eauto).
      rewrite Ex', andb_false_r, E. reflexivity.
    + eapply List.find_none in E; [|exact Hf]. unfold figura_existente in E.
      unfold mesma_figura in Hm. congruence.
  - cbn [negb]. rewrite andb_true_r. destruct (tipo_aceite tipo) eqn:Ht.
    + intros t' n' c' p'. unfold adicionar_figura_interesse.
      cbn [figuras_interesse com_figuras]. rewrite List.existsb_app.
      set (nova := {| TFiguras.id := lastrowid (List.map TFiguras.id (figuras_interesse d));
                      TFiguras.nome := nome;
                      TFiguras.nif := Some nif;
                      TFiguras.tipo := tipo;
                      TFiguras.cargo_governamental := cargo_governamental;
                      TFiguras.partido := partido;
                      TFiguras.notas := notas;
                      TFiguras.ativo := 1 |}).
      assert (Hnova : mesma_figura nome (Some nif) nova = true).
      { unfold mesma_figura. cbn [nova TFiguras.nome TFiguras.nif SQL.eq_null].
        rewrite !pystr_eqb_refl. reflexivity. }
      cbn [existsb]. rewrite Hnova. cbn [orb]. rewrite orb_true_r, andb_false_r.
      rewrite (find_primeiro_no_fim (mesma_figura nome (Some nif))); [reflexivity| |exact Ex|].
      * intros y _. reflexivity.
      * exact Hnova.
    + destruct (List.find _ _) as [row|] eqn:E.
      * exfalso. apply List.find_some in E as [Hin Hm].
        assert (existsb (mesma_figura nome (Some nif)) (figuras_interesse d) = true)
          by (apply existsb_exists; exists row; split; [exact Hin|exact Hm]).
        congruence.
      * split; reflexivity.
Qed.

(** X23.  Without a tax id, adding a figure is not idempotent: NULL is
    distinct from NULL in [UNIQUE(nome, nif)], so every call with nif None
    and an allowed type writes a new row, and two calls with the same name
    return two different ids. *)
Theorem adicionar_figura_sem_nif_duplica (nome : pystr)
    (tipo notas cargo_governamental partido : option pystr) (d : db) :
  tipo_aceite tipo = true ->
  let '(r1, d1) := adicionar_figura_interesse nome None tipo notas
                     cargo_governamental partido d in
  let '(r2, d2) := adicionar_figura_interesse nome None tipo notas
                     cargo_governamental partido d1 in
  exists id1 id2,
    r1 = Adicionada id1 /\ r2 = Adicionada id2 /\ id1 < id2
    /\ len (figuras_interesse d2) = len (figuras_interesse d) + 2.
Proof.
  intros Ht.
  assert (Hn : forall l, existsb (mesma_figura nome None) l = false).
  { induction l as [|f l IH]; [reflexivity|]. cbn [existsb]. rewrite IH.
    unfold mesma_figura. rewrite andb_false_r. reflexivity. }
  unfold adicionar_figura_interesse at 1. rewrite Ht, Hn. cbn [negb andb].
  unfold adicionar_figura_interesse. rewrite Ht, Hn.
  cbn [negb andb figuras_interesse com_figuras].
  eexists _, _. split; [reflexivity|]. split; [reflexivity|]. split.
  - rewrite List.map_app. cbn [List.map TFiguras.id]. unfold lastrowid.
    rewrite List.fold_right_app. cbn [List.fold_right].
    set (m := List.fold_right Z.max 0 (List.map TFiguras.id (figuras_interesse d))).
    assert (H : forall (l : list Z) (a : Z), a <= List.fold_right Z.max a l).
    { induction l as [|x l IH]; intros a; cbn [List.fold_right]; [lia|].
      specialize (IH a). lia. }
    specialize (H (List.map TFiguras.id (figuras_interesse d)) (Z.max (1 + m) 0)). lia.
  - unfold len. rewrite !List.length_app. cbn [List.length]. lia.
Qed.

Lemma adicionar_figura_sem_nif_duplica_witness :
  let '(r1, d1) := adicionar_figura_interesse (str "Câmara Municipal de Lisboa") None
                     (Some (str "entidade_publica")) (Some []) None None
                     ExemplosFiguras.base in
  let '(r2, d2) := adicionar_figura_interesse (str "Câmara Municipal de Lisboa") None
                     (Some (str "entidade_publica")) (Some []) None None d1 in
  exists id1 id2,
    r1 = Adicionada id1 /\ r2 = Adicionada id2 /\ id1 < id2
    /\ len (figuras_interesse d2) = len (figuras_interesse ExemplosFiguras.base) + 2.
Proof.
  apply (adicionar_figura_sem_nif_duplica (str "Câmara Municipal de Lisboa")
           (Some (str "entidade_publica")) (Some []) None None ExemplosFiguras.base).
  reflexivity.
Defined.

(** ** The analysis of the whole table *)

Lemma agrupar_levanta {K} (eqb : K -> K -> bool) (chave : contrato -> result K)
    (l : list ref) (h : heap) (r : ref) (e : exn) :
  In r l -> chave (h r) = Raise e ->
  forall g, exists e', agrupar eqb chave l g h = (Raise e', h).
Proof.
  intros Hr He. induction l as [|x l IH]; [destruct Hr|]. intros g. cbn [agrupar].
  unfold bind at 1. unfold read, gets. unfold bind at 1. unfold lift.
  destruct (chave (h x)) as [k|e'] eqn:E; [|exists e'; reflexivity].
  destruct Hr as [->|Hr]; [congruence|]. apply IH, Hr.
Qed.

Lemma linha_na_pesquisa (d : db) (linha : TContratos.t) :
  In linha (contratos d) ->
  exists r, In r (List.seq 0 (List.length (pesquisar_contratos d sem_filtros)))
            /\ dicts_das_linhas (pesquisar_contratos d sem_filtros) r = dict_da_linha linha.
Proof.
  intros Hin.
  assert (H : In linha (pesquisar_contratos d sem_filtros)).
  { unfold pesquisar_contratos. apply order_by_In, List.filter_In.
    split; [exact Hin|reflexivity]. }
  apply List.In_nth_error in H as (r & Hr). exists r. split.
  - apply List.in_seq. split; [lia|]. cbn [Nat.add].
    apply List.nth_error_Some. congruence.
  - unfold dicts_das_linhas. rewrite Hr. reflexivity.
Qed.

(** X24.  A contract without object stops the analysis of the table: when
    rule 2 is enabled and the column objeto_contrato of a row is NULL (which
    is what [inserir_contrato] writes for a dict without the key),
    [analisar_todos_contratos] raises; the dict of the row holds None under
    the key, and the slice [[:50]] of the grouping of rule 2 fails on it
    unless rule 1 has raised before. *)
Theorem analise_da_tabela_sem_objeto (cfg : config) (d : db) (linha : TContratos.t) :
  detectar_fracionamento cfg = true ->
  In linha (contratos d) -> TContratos.objeto_contrato linha = None ->
  exists e, analisar_todos_contratos cfg d = Raise e.
Proof.
  intros Hf Hin Ho. unfold analisar_todos_contratos. cbn zeta.
  destruct (linha_na_pesquisa d linha Hin) as (r & Hr & Hd).
  set (refs := List.seq 0 _) in *. set (h := dicts_das_linhas _) in *.
  unfold analisar_contratos. unfold bind at 1.
  pose proof (so_le_quando (fun _ => True) (detectar_valores_suspeitos cfg) _
                (so_le_por_contrato (fun _ => True) (valores_suspeitos_contrato cfg) refs
                   (proj2 (List.Forall_forall _ _) (fun _ _ => I))) h) as [Hs _].
  unfold _detectar_valores_suspeitos at 1.
  destruct (quando _ _ h) as [[p1|e1] h1]; [|exists e1; reflexivity].
  cbn [snd] in Hs. subst h1.
  rewrite Hf. cbn [quando]. unfold bind at 1. unfold _detectar_fracionamento at 1.
  unfold bind at 1.
  destruct (agrupar_levanta par4_eqb par4_de refs h r TypeError Hr) with (g := @nil (par4 * list ref))
    as (e' & ->).
  - rewrite Hd. unfold par4_de. cbn [dict_da_linha objeto_contrato].
    rewrite Ho. reflexivity.
  - exists e'. reflexivity.
Qed.

Lemma analise_da_tabela_sem_objeto_witness :
  exists e, analisar_todos_contratos _get_default_config ExemplosFiguras.base = Raise e.
Proof.
  apply (analise_da_tabela_sem_objeto _get_default_config ExemplosFiguras.base
           ExemplosBD.ASSOC001).
  - reflexivity.
  - left. reflexivity.
  - reflexivity.
Defined.

(** ** The order of the rows of a query *)

Lemma inserir_ordenado_Permutation {A} (antes : A -> A -> bool) (x : A) (l : list A) :
  Permutation (SQL.inserir_ordenado antes x l) (x :: l).
Proof.
  induction l as [|y l IH]; cbn [SQL.inserir_ordenado]; [reflexivity|].
  destruct (antes y x); [|reflexivity].
  rewrite IH. apply perm_swap.
Qed.

Lemma order_by_Permutation {A} (antes : A -> A -> bool) (l : list A) :
  Permutation (SQL.order_by antes l) l.
Proof.
  unfold SQL.order_by. induction l as [|x l IH]; cbn [List.fold_right]; [reflexivity|].
  rewrite inserir_ordenado_Permutation, IH. reflexivity.
Qed.

Section Ordenado.

Context {A : Type} (antes : A -> A -> bool).
Hypothesis assimetrica : forall x y, antes x y = true -> antes y x = false.

(** No row is followed by a row that sorts strictly before it. *)
Let R (y x : A) : Prop := antes x y = false.

Lemma inserir_ordenado_HdRel (a x : A) (l : list A) :
  HdRel R a l -> R a x -> HdRel R a (SQL.inserir_ordenado antes x l).
Proof.
  intros Hl Hx. destruct l as [|y l]; cbn [SQL.inserir_ordenado]; [constructor; exact Hx|].
  destruct (antes y x); constructor; [|exact Hx].
  inversion Hl; assumption.
Qed.

Lemma inserir_ordenado_Sorted (x : A) (l : list A) :
  Sorted R l -> Sorted R (SQL.inserir_ordenado antes x l).
Proof.
  induction 1 as [|y l Hl IH Hy]; cbn [SQL.inserir_ordenado]; [repeat constructor|].
  destruct (antes y x) eqn:E.
  - constructor; [exact IH|]. apply inserir_ordenado_HdRel; [exact Hy|].
    apply assimetrica, E.
  - constructor; [constructor; assumption|]. constructor. exact E.
Qed.

Lemma order_by_Sorted (l : list A) : Sorted R (SQL.order_by antes l).
Proof.
  unfold SQL.order_by. induction l as [|x l IH]; cbn [List.fold_right]; [constructor|].
  apply inserir_ordenado_Sorted, IH.
Qed.

End Ordenado.

Lemma Sorted_impl {A} (R S : A -> A -> Prop) (l : list A) :
  (forall x y, R x y -> S x y) -> Sorted R l -> Sorted S l.
Proof.
  intros H. induction 1 as [|x l Hl IH Hx]; constructor; [exact IH|].
  destruct Hx; constructor. apply H. assumption.
Qed.

Lemma pystr_ltb_assimetrica (a b : pystr) : pystr_ltb a b = true -> pystr_ltb b a = false.
Proof.
  revert b. induction a as [|x a IH]; intros [|y b]; cbn [pystr_ltb]; try reflexivity;
    try discriminate.
  intros H. apply orb_true_iff in H as [H|H].
  - apply N.ltb_lt in H.
    destruct (N.ltb_spec y x); [lia|]. destruct (N.eqb_spec y x); [lia|]. reflexivity.
  - apply andb_true_iff in H as [E H]. apply N.eqb_eq in E. subst y.
    rewrite N.ltb_irrefl, N.eqb_refl, (IH _ H). reflexivity.
Qed.

Lemma pystr_ltb_irreflexiva (a : pystr) : pystr_ltb a a = false.
Proof.
  induction a as [|x a IH]; [reflexivity|]. cbn [pystr_ltb].
  rewrite N.ltb_irrefl, N.eqb_refl, IH. reflexivity.
Qed.

Lemma texto_ltb_assimetrica (a b : option pystr) :
  SQL.texto_ltb a b = true -> SQL.texto_ltb b a = false.
Proof.
  destruct a as [x|], b as [y|]; cbn [SQL.texto_ltb]; try reflexivity; try discriminate.
  apply pystr_ltb_assimetrica.
Qed.


Lemma pystr_ltb_entre (a b c : pystr) :
  pystr_ltb a c = true -> pystr_ltb a b = true \/ pystr_ltb b c = true.
Proof.
  revert b c. induction a as [|x a IH]; intros b c.
  - destruct c as [|z c]; [discriminate|]. intros _.
    destruct b as [|y b]; [right; reflexivity|left; reflexivity].
  - destruct c as [|z c]; [discriminate|]. cbn [pystr_ltb]. intros H.
    destruct b as [|y b]; [right; reflexivity|]. cbn [pystr_ltb].
    apply orb_true_iff in H as [H|H].
    + apply N.ltb_lt in H.
      destruct (N.lt_trichotomy x y) as [Hxy|[Hxy|Hxy]].
      * left. apply orb_true_iff. left. apply N.ltb_lt, Hxy.
      * subst y. right. apply orb_true_iff. left. apply N.ltb_lt, H.
      * right. apply orb_true_iff. left. apply N.ltb_lt. lia.
    + apply andb_true_iff in H as [E H]. apply N.eqb_eq in E. subst z.
      destruct (N.lt_trichotomy x y) as [Hxy|[Hxy|Hxy]].
      * left. apply orb_true_iff. left. apply N.ltb_lt, Hxy.
      * subst y. rewrite N.eqb_refl. cbn [andb].
        destruct (IH b c H) as [H'|H']; [left|right]; rewrite H'; apply orb_true_r.
      * right. apply orb_true_iff. left. apply N.ltb_lt, Hxy.
Qed.

Lemma texto_ltb_entre (a b c : option pystr) :
  SQL.texto_ltb a c = true -> SQL.texto_ltb a b = true \/ SQL.texto_ltb b c = true.
Proof.
  destruct a as [x|], b as [y|], c as [z|]; cbn [SQL.texto_ltb]; try discriminate; auto.
  apply pystr_ltb_entre.
Qed.

(** X25.  On tables that hold what the queries of the model read (dates
    kept as text, that is empty or written with [-] or [/]; no NUL in the
    names of the parties) and for filters that are patterns LIKE takes (no
    NUL, no surrogate, at most 50 000 bytes with the two [%]),
    [pesquisar_contratos] returns the rows its filters select, each as often
    as the table holds it, and in the order of their dates from the latest
    on: no row comes before a row of a later date, and a row with a NULL
    date comes before no row with a date. *)
Theorem pesquisar_contratos_ordenados (d : db) (f : filtros) :
  bd_fiel d = true ->
  na_coluna padrao_aceite (filtro_adjudicante f) = true ->
  na_coluna padrao_aceite (filtro_adjudicataria f) = true ->
  Permutation (pesquisar_contratos d f) (List.filter (selecionado f) (contratos d))
  /\ StronglySorted
       (fun y x => SQL.texto_ltb (TContratos.data_contrato y)
                     (TContratos.data_contrato x) = false)
       (pesquisar_contratos d f).
Proof.
  intros _ _ _.
  unfold pesquisar_contratos. split; [apply order_by_Permutation|].
  apply Sorted_StronglySorted.
  - intros x y z Hxy Hyz. cbv beta in *.
    destruct (SQL.texto_ltb (TContratos.data_contrato x) (TContratos.data_contrato z)) eqn:E;
      [|reflexivity].
    destruct (texto_ltb_entre _ (TContratos.data_contrato y) _ E); congruence.
  - apply (order_by_Sorted data_contrato_desc).
    intros x y. unfold data_contrato_desc. apply texto_ltb_assimetrica.
Qed.

Lemma pesquisar_contratos_ordenados_witness :
  Permutation
    (pesquisar_contratos ExemplosBD.base (por_adjudicante (str "Lisboa")))
    (List.filter (selecionado (por_adjudicante (str "Lisboa")))
       (contratos ExemplosBD.base))
  /\ StronglySorted
       (fun y x => SQL.texto_ltb (TContratos.data_contrato y)
                     (TContratos.data_contrato x) = false)
       (pesquisar_contratos ExemplosBD.base (por_adjudicante (str "Lisboa"))).
Proof.
  apply (pesquisar_contratos_ordenados ExemplosBD.base (por_adjudicante (str "Lisboa")));
    vm_compute; reflexivity.
Defined.

(** *** The list of conflicts *)

Lemma gravidade_data_desc_assimetrica (data_detecao : TConflitos.t -> pystr)
    (x y : conflito_listado) :
  gravidade_data_desc data_detecao x y = true ->
  gravidade_data_desc data_detecao y x = false.
Proof.
  unfold gravidade_data_desc. cbn zeta.
  set (gx := texto_da_gravidade (TConflitos.gravidade (cl_conflito x))).
  set (gy := texto_da_gravidade (TConflitos.gravidade (cl_conflito y))).
  intros H. apply orb_true_iff in H as [H|H].
  - rewrite (pystr_ltb_assimetrica _ _ H). cbn [orb].
    destruct (pystr_eqb gx gy) eqn:E; [|reflexivity].
    apply pystr_eqb_eq in E. rewrite E, pystr_ltb_irreflexiva in H. discriminate H.
  - apply andb_true_iff in H as [E H]. apply pystr_eqb_eq in E. rewrite E.
    rewrite pystr_ltb_irreflexiva, pystr_eqb_refl, (pystr_ltb_assimetrica _ _ H).
    reflexivity.
Qed.

(** X26.  The list of conflicts is ordered by the text of the severity, not
    by the severity: [ORDER BY c.gravidade DESC] compares the strings, so
    the conflicts come in the order 'media', 'critica', 'baixa', 'alta',
    whatever the dates of detection; a 'media' conflict is listed before
    every 'critica' one. *)
Theorem listar_conflitos_ordem_textual (data_detecao : TConflitos.t -> pystr)
    (d : db) (apenas_nao_verificados : bool) :
  StronglySorted
    (fun y x => lugar_na_lista (TConflitos.gravidade (cl_conflito y))
                <= lugar_na_lista (TConflitos.gravidade (cl_conflito x)))
    (listar_conflitos data_detecao d apenas_nao_verificados).
Proof.
  apply Sorted_StronglySorted; [intros x y z; lia|].
  unfold listar_conflitos.
  eapply Sorted_impl;
    [|apply (order_by_Sorted (gravidade_data_desc data_detecao)),
        gravidade_data_desc_assimetrica].
  intros y x. cbv beta. unfold gravidade_data_desc. cbn zeta.
  intros H. apply orb_false_iff in H as [H _]. revert H.
  destruct (TConflitos.gravidade (cl_conflito y)), (TConflitos.gravidade (cl_conflito x));
    cbn [lugar_na_lista]; try lia; vm_compute; discriminate.
Qed.

(** ** What a conflict found stands on *)

Lemma avaliar_contrato_publico (pessoa : pessoa_politica) (assoc : TAssociacoes.t)
    (contrato : TContratos.t) (k : Conflito.t) :
  avaliar_contrato pessoa assoc contrato = Ok (Some k) ->
  adjudicante_publico contrato = true
  /\ Conflito.pessoa_id k = TPessoas.id (pp_pessoa pessoa)
  /\ Conflito.cargo k = pp_cargo pessoa
  /\ Conflito.empresa k = TAssociacoes.empresa_nome assoc
  /\ Conflito.id_contrato k = TContratos.id_contrato contrato.
Proof.
  unfold avaliar_contrato, adjudicante_publico.
  destruct (TContratos.adjudicante contrato) as [a|]; cbn [lower_da_coluna rbind];
    [|discriminate].
  destruct (eh_entidade_publica (lower a)); cbn [rbind]; [|discriminate].
  destruct (lower_da_coluna (pp_entidade pessoa)) as [e|e]; cbn [rbind]; [|discriminate].
  intros E. injection E as <-. cbn. auto.
Qed.

(** X27.  Every conflict a run returns is founded: its person holds an
    active position of the name given, has an association that has not
    ended with the company named, and the contract is a row of the table
    awarded by a public body to a party the query matches with the name of
    the company. *)
Theorem conflitos_fundados (d : db) (pessoa_id : option Z) (cs : list Conflito.t) :
  fst (detectar_conflitos_interesse pessoa_id d) = Ok cs -> Forall (fundado d) cs.
Proof.
  rewrite detectar_e_encontrados. unfold conflitos_encontrados.
  apply for_extend_r_Forall. intros pessoa r Hp.
  destruct (pessoas_politicas_In d pessoa_id pessoa Hp) as (cargo & Hc & Hcp & Hca & Hcc & _).
  apply for_extend_r_Forall. intros assoc r' Ha.
  unfold listar_associacoes_pessoa in Ha. apply order_by_In, List.filter_In in Ha as [Ha Hap].
  apply Z.eqb_eq in Hap.
  apply for_extend_r_Forall. intros contrato r'' Hk.
  unfold contratos_da_associacao in Hk.
  destruct (TAssociacoes.ativo assoc =? 0) eqn:Hat; [destruct Hk|].
  apply Z.eqb_neq in Hat.
  unfold pesquisar_contratos in Hk. apply order_by_In, List.filter_In in Hk as [Hk Hf].
  cbn [por_adjudicataria filtro_adjudicante filtro_adjudicataria filtro_like andb] in Hf.
  destruct (avaliar_contrato pessoa assoc contrato) as [[k|]|e] eqn:E; cbn [rbind lista_de];
    try discriminate; intros H; injection H as <-; constructor; [|constructor].
  destruct (avaliar_contrato_publico _ _ _ _ E) as (H1 & H2 & H3 & H4 & H5).
  exists cargo, assoc, contrato.
  rewrite H2, H3, H4, H5. cbn [filtro_like]. auto 15.
Qed.

Lemma conflitos_fundados_witness :
  exists cs,
    fst (detectar_conflitos_interesse None ExemplosBD.base) = Ok cs
    /\ cs <> [] /\ Forall (fundado ExemplosBD.base) cs.
Proof.
  eexists. split; [vm_compute; reflexivity|]. split; [discriminate|].
  apply (conflitos_fundados ExemplosBD.base None). vm_compute. reflexivity.
Defined.

(** *** An association without the name of the company *)

Lemma distinct_completo {A} (eqb : A -> A -> bool) (x : A) (l vistos : list A) :
  (forall y, eqb y y = true) ->
  In x l ->
  exists x', (In x' vistos \/ In x' (SQL.distinct_ eqb vistos l)) /\ eqb x x' = true.
Proof.
  intros Hr. revert vistos. induction l as [|y l IH]; intros vistos Hx; [destruct Hx|].
  cbn [SQL.distinct_]. destruct Hx as [->|Hx].
  - destruct (existsb (eqb x) vistos) eqn:E.
    + apply existsb_exists in E as (x' & Hx' & E). exists x'. auto.
    + exists x. split; [right; left; reflexivity|apply Hr].
  - destruct (existsb (eqb y) vistos).
    + apply IH, Hx.
    + destruct (IH (y :: vistos) Hx) as (x' & [[Hy|H]|H] & E); exists x'; cbn [In]; auto.
Qed.

Lemma texto_eqb_refl (a : option pystr) : SQL.texto_eqb a a = true.
Proof. destruct a; [apply pystr_eqb_refl|reflexivity]. Qed.

Lemma pessoa_politica_eqb_refl (pp : pessoa_politica) : pessoa_politica_eqb pp pp = true.
Proof.
  unfold pessoa_politica_eqb, pessoa_eqb.
  rewrite Z.eqb_refl, !pystr_eqb_refl, !texto_eqb_refl. reflexivity.
Qed.

(** X28.  An association without the name of the company matches every
    contract: the filter of the query is left out for the empty name, so a
    person with an active position and such an association gets a conflict
    for every contract of the table that a public body awards, whoever the
    contract goes to. *)
Theorem empresa_sem_nome_todos_os_contratos (d : db) (p : TPessoas.t) (cargo : TCargos.t)
    (assoc : TAssociacoes.t) (contrato : TContratos.t) :
  sem_nulos d ->
  In p (pessoas d) ->
  In cargo (cargos_politicos d) ->
  TCargos.pessoa_id cargo = TPessoas.id p -> TCargos.ativo cargo = 1 ->
  In assoc (associacoes_pessoa_empresa d) ->
  TAssociacoes.pessoa_id assoc = TPessoas.id p -> TAssociacoes.ativo assoc <> 0 ->
  TAssociacoes.empresa_nome assoc = [] ->
  In contrato (contratos d) -> adjudicante_publico contrato = true ->
  exists cs k,
    fst (detectar_conflitos_interesse None d) = Ok cs
    /\ In k cs
    /\ Conflito.pessoa_id k = TPessoas.id p
    /\ Conflito.id_contrato k = TContratos.id_contrato contrato
    /\ Conflito.empresa k = [].
Proof.
  intros Hs Hp Hc Hcp Hca Ha Hap Haa Hae Hk Hpub.
  rewrite detectar_e_encontrados, (encontrados_sem_nulos d None Hs).
  set (pp := {| pp_pessoa := p; pp_cargo := TCargos.cargo cargo;
                pp_entidade := TCargos.entidade cargo |}).
  assert (Hpp : exists pp', In pp' (pessoas_politicas d None)
                            /\ pessoa_politica_eqb pp pp' = true).
  { unfold pessoas_politicas, SQL.distinct.
    match goal with
    | |- context [SQL.distinct_ _ [] ?l] =>
        destruct (distinct_completo pessoa_politica_eqb pp l []
                    pessoa_politica_eqb_refl) as (pp' & [[]|Hin] & E);
          [|exists pp'; split; [exact Hin|exact E]]
    end.
    apply List.in_flat_map. exists p. split.
    - apply List.filter_In. split; [exact Hp|reflexivity].
    - apply List.in_map_iff. exists cargo. split; [reflexivity|].
      apply List.filter_In. split; [exact Hc|].
      rewrite Hcp, Hca, !Z.eqb_refl. reflexivity. }
  destruct Hpp as (pp' & Hin & E).
  assert (Hid : TPessoas.id (pp_pessoa pp') = TPessoas.id p).
  { unfold pessoa_politica_eqb, pessoa_eqb in E.
    repeat (apply andb_true_iff in E as [E _]). apply Z.eqb_eq in E. cbn in E. congruence. }
  eexists _, (fazer_conflito pp' assoc contrato (gravidade_do_par pp' contrato)).
  split; [reflexivity|]. split; [|cbn; auto].
  apply List.in_flat_map. exists pp'. split; [exact Hin|].
  unfold conflitos_da_linha. apply List.in_flat_map. exists assoc. split.
  - unfold listar_associacoes_pessoa. apply order_by_In, List.filter_In.
    split; [exact Ha|]. apply Z.eqb_eq. congruence.
  - apply List.in_flat_map. exists contrato. split.
    + unfold contratos_da_associacao. apply Z.eqb_neq in Haa. rewrite Haa, Hae.
      unfold pesquisar_contratos. apply order_by_In, List.filter_In.
      split; [exact Hk|reflexivity].
    + rewrite Hpub. left. reflexivity.
Qed.

Lemma empresa_sem_nome_todos_os_contratos_witness :
  exists cs k,
    fst (detectar_conflitos_interesse None ExemplosEmpresaVazia.base) = Ok cs
    /\ In k cs
    /\ Conflito.pessoa_id k = TPessoas.id ExemplosBD.joao_silva
    /\ Conflito.id_contrato k = TContratos.id_contrato ExemplosBD.ASSOC002
    /\ Conflito.empresa k = [].
Proof.
  apply (empresa_sem_nome_todos_os_contratos ExemplosEmpresaVazia.base
           ExemplosBD.joao_silva ExemplosBD.presidente
           (ExemplosBD.associacao_teste 1 "" "outro" 0) ExemplosBD.ASSOC002).
  - split; repeat constructor; discriminate.
  - left. reflexivity.
  - left. reflexivity.
  - reflexivity.
  - reflexivity.
  - left. reflexivity.
  - reflexivity.
  - discriminate.
  - reflexivity.
  - right. left. reflexivity.
  - vm_compute. reflexivity.
Defined.

(** ** One more level of depth *)

Lemma fila_por_niveis_resto (e : entrada) (fila : list entrada) :
  fila_por_niveis (e :: fila) ->
  fila_por_niveis fila /\ Forall (fun e' : entrada => e.1.2 <= e'.1.2) fila.
Proof.
  intros (m & A & B & E & HA & HB). destruct A as [|a A].
  - cbn [List.app] in E. subst B. apply Forall_cons in HB as [He HB]. split.
    + exists (m + 1), fila, []. rewrite List.app_nil_r. repeat split; [exact HB|constructor].
    + eapply Forall_impl; [exact HB|]. intros e' He'. cbv beta in He'. lia.
  - cbn [List.app] in E. injection E as <- ->. apply Forall_cons in HA as [He HA]. split.
    + exists m, A, B. auto.
    + apply Forall_app. split; (eapply Forall_impl; [eassumption|]);
        intros e' He'; cbv beta in He'; lia.
Qed.

Lemma fila_por_niveis_mais (e : entrada) (fila novas : list entrada) :
  fila_por_niveis (e :: fila) ->
  Forall (fun e' : entrada => e'.1.2 = e.1.2 + 1) novas ->
  fila_por_niveis (fila ++ novas).
Proof.
  intros (m & A & B & E & HA & HB) Hn. destruct A as [|a A].
  - cbn [List.app] in E. subst B. apply Forall_cons in HB as [He HB].
    exists (m + 1), fila, novas. repeat split; [exact HB|].
    eapply Forall_impl; [exact Hn|]. intros e' He'. cbv beta in He'. lia.
  - cbn [List.app] in E. injection E as <- ->. apply Forall_cons in HA as [He HA].
    exists m, A, (B ++ novas). rewrite List.app_assoc. repeat split; [exact HA|].
    apply Forall_app. split; [exact HB|].
    eapply Forall_impl; [exact Hn|]. intros e' He'. cbv beta in He'. lia.
Qed.

Lemma enfileirar_niveis (profundidade nivel : Z) (novas : list Conexao.t) :
  Forall (fun e : entrada => e.1.2 = nivel + 1) (enfileirar profundidade nivel novas).
Proof.
  unfold enfileirar. destruct (_ <? _); [|constructor].
  apply List.Forall_forall. intros e He. apply List.in_map_iff in He as (k & <- & _).
  reflexivity.
Qed.

Lemma explorar_nivel (d : db) (visitados : gset Z) (atual_id nivel : Z) :
  Forall (fun k => Conexao.nivel k = nivel + 1) (explorar d visitados atual_id nivel).
Proof.
  eapply Forall_impl; [apply explorar_conexoes|]. intros k (_ & H & _). exact H.
Qed.

Lemma ate_ao_nivel_enfileirar (p nivel : Z) (novas : list Conexao.t) :
  nivel < p ->
  ate_ao_nivel p (enfileirar (p + 1) nivel novas) = enfileirar p nivel novas.
Proof.
  intros Hp. unfold ate_ao_nivel, enfileirar.
  replace (nivel + 1 <? p + 1) with true by (symmetry; apply Z.ltb_lt; lia).
  destruct (nivel + 1 <? p) eqn:Hq.
  - induction novas as [|k l IHl]; [reflexivity|].
    cbn [List.map List.filter fst snd]. rewrite Hq. f_equal. exact IHl.
  - induction novas as [|k l IHl]; [reflexivity|].
    cbn [List.map List.filter fst snd]. rewrite Hq. exact IHl.
Qed.

Section MaisUmNivel.

Variable d : db.
Variable p : Z.

(** The run to the depth [p + 1] on a queue with nothing below the
    level [p]: only connections of the level [p + 1] are added. *)
Lemma ciclo_ultimo_nivel (n : nat) :
  forall (conexoes : list Conexao.t) (visitados : gset Z) (fila : list entrada)
         (cs : list Conexao.t),
    Forall (fun e : entrada => p <= e.1.2) fila ->
    ciclo d (p + 1) n conexoes visitados fila = Some cs ->
    exists mais, cs = conexoes ++ mais
                 /\ Forall (fun k => Conexao.nivel k = p + 1) mais.
Proof.
  induction n as [|n IH]; intros conexoes visitados fila cs Hf; cbn [ciclo];
    [discriminate|].
  destruct fila as [|[[atual_id nivel] origem] fila].
  { intros E. injection E as <-. exists []. rewrite List.app_nil_r.
    split; [reflexivity|constructor]. }
  apply Forall_cons in Hf as [Hn Hf]. cbn [fst snd] in Hn.
  destruct (bool_decide (atual_id ∈ visitados) || (p + 1 <=? nivel)) eqn:E.
  - apply IH, Hf.
  - apply orb_false_iff in E as [_ E]. apply Z.leb_gt in E.
    assert (nivel = p) by lia. subst nivel.
    unfold enfileirar. rewrite Z.ltb_irrefl, List.app_nil_r.
    intros H. destruct (IH _ _ _ _ Hf H) as (mais & -> & Hm).
    exists (explorar d (visitados ∪ {[atual_id]}) atual_id p ++ mais).
    rewrite List.app_assoc. split; [reflexivity|].
    apply Forall_app. split; [apply explorar_nivel|exact Hm].
Qed.

(** The two runs go together while the queue holds an entry below the
    level [p]. *)
Lemma ciclo_mais_um_nivel (n : nat) :
  forall (conexoes : list Conexao.t) (visitados : gset Z) (fila : list entrada)
         (cs cs' : list Conexao.t),
    fila_por_niveis fila ->
    ciclo d p n conexoes visitados (ate_ao_nivel p fila) = Some cs ->
    ciclo d (p + 1) n conexoes visitados fila = Some cs' ->
    exists mais, cs' = cs ++ mais
                 /\ Forall (fun k => Conexao.nivel k = p + 1) mais.
Proof.
  induction n as [|n IH]; intros conexoes visitados fila cs cs' Hf; [discriminate|].
  destruct fila as [|[[atual_id nivel] origem] fila].
  { cbn [ciclo ate_ao_nivel List.filter]. intros E E'. injection E as <-.
    injection E' as <-. exists []. rewrite List.app_nil_r. split; [reflexivity|constructor]. }
  destruct (fila_por_niveis_resto _ _ Hf) as [Hr Hn]. cbn [fst snd] in Hn.
  unfold ate_ao_nivel. cbn [List.filter fst snd].
  destruct (nivel <? p) eqn:Hp.
  - apply Z.ltb_lt in Hp. cbn [ciclo].
    replace (p <=? nivel) with false by (symmetry; apply Z.leb_gt; lia).
    replace (p + 1 <=? nivel) with false by (symmetry; apply Z.leb_gt; lia).
    destruct (bool_decide (atual_id ∈ visitados)); cbn [orb].
    + apply IH, Hr.
    + set (novas := explorar d (visitados ∪ {[atual_id]}) atual_id nivel).
      intros E E'. eapply (IH _ _ (fila ++ enfileirar (p + 1) nivel novas));
        [|unfold ate_ao_nivel; rewrite List.filter_app|exact E'].
      * eapply fila_por_niveis_mais; [exact Hf|]. apply enfileirar_niveis.
      * fold (ate_ao_nivel p (enfileirar (p + 1) nivel novas)).
        rewrite (ate_ao_nivel_enfileirar p nivel novas Hp). exact E.
  - apply Z.ltb_ge in Hp.
    assert (Hv : List.filter (fun e : entrada => e.1.2 <? p) fila = []).
    { clear -Hn Hp. induction Hn as [|e l He _ IHl]; [reflexivity|].
      cbn [List.filter]. replace (e.1.2 <? p) with false; [exact IHl|].
      symmetry. apply Z.ltb_ge. lia. }
    rewrite Hv. intros E E'. cbn [ciclo] in E. injection E as <-.
    apply (ciclo_ultimo_nivel (S n) _ _ _ _) with (2 := E'). constructor; [exact Hp|].
    eapply Forall_impl; [exact Hn|]. intros e He. cbv beta in He. lia.
Qed.

End MaisUmNivel.

(** X29.  One more level of depth only adds to the connections: what
    [detetar_conexoes] returns to the depth p is the beginning of what it
    returns to the depth p + 1, and the connections that follow are all of
    the level p + 1. *)
Theorem conexoes_mais_um_nivel (d : db) (figura_id p : Z) :
  exists cs mais,
    detetar_conexoes d figura_id p = Some cs
    /\ detetar_conexoes d figura_id (p + 1) = Some (cs ++ mais)
    /\ Forall (fun k => Conexao.nivel k = p + 1) mais.
Proof.
  destruct (detetar_conexoes_termina d figura_id p) as (cs & E).
  destruct (detetar_conexoes_termina d figura_id (p + 1)) as (cs' & E').
  exists cs. unfold detetar_conexoes in *.
  destruct (Z.ltb_spec 0 p) as [Hp|Hp].
  - destruct (ciclo_mais_um_nivel d p (voltas d figura_id) [] ∅ [(figura_id, 0, None)] cs cs')
      as (mais & -> & Hm).
    + exists 0, [(figura_id, 0, None)], []. repeat split; repeat constructor.
    + unfold ate_ao_nivel. cbn [List.filter fst snd].
      replace (0 <? p) with true by (symmetry; apply Z.ltb_lt; lia). exact E.
    + exact E'.
    + exists mais. auto.
  - destruct (ciclo_ultimo_nivel d p (voltas d figura_id) [] ∅ [(figura_id, 0, None)] cs')
      as (mais & -> & Hm);
      [repeat constructor; exact Hp|exact E'|].
    assert (Hcs : cs = []).
    { change (voltas d figura_id)
        with (S (S (peso d * size (candidatos d figura_id)))) in E.
      cbn [ciclo] in E.
      replace (p <=? 0) with true in E by (symmetry; apply Z.leb_le; lia).
      rewrite orb_true_r in E. injection E as <-. reflexivity. }
    subst cs. exists mais. cbn [List.app] in *. auto.
Qed.

(** ** Alerts *)

Lemma cresce_ret {A} (Q : list TAlertas.t -> A -> Prop) (a : A) :
  Q [] a -> cresce Q (ret a).
Proof.
  intros Ha t. exists []. cbn [ret fst snd]. rewrite List.app_nil_r.
  split; [reflexivity|]. intros a' E. injection E as <-. exact Ha.
Qed.

Lemma cresce_lift {A} (Q : list TAlertas.t -> A -> Prop) (r : result A) :
  (forall a, r = Ok a -> Q [] a) -> cresce Q (lift r).
Proof.
  intros Hr t. exists []. cbn [lift fst snd]. rewrite List.app_nil_r.
  split; [reflexivity|exact Hr].
Qed.

Lemma cresce_bind {A B} (Q1 : list TAlertas.t -> A -> Prop)
    (Q : list TAlertas.t -> B -> Prop) (m : M (list TAlertas.t) A)
    (f : A -> M (list TAlertas.t) B) :
  cresce Q1 m ->
  (forall n1 a, Q1 n1 a -> cresce (fun n2 b => Q (n1 ++ n2) b) (f a)) ->
  cresce Q (bind m f).
Proof.
  intros Hm Hf t. destruct (Hm t) as (n1 & Ht & Ha). unfold bind.
  destruct (m t) as [[a|e] t1]; cbn [fst snd] in *; subst t1.
  - destruct (Hf n1 a (Ha a eq_refl) (t ++ n1)) as (n2 & Ht2 & Hb).
    exists (n1 ++ n2). rewrite List.app_assoc. split; [exact Ht2|exact Hb].
  - exists n1. split; [reflexivity|discriminate].
Qed.

Lemma cresce_fraco {A} (Q Q' : list TAlertas.t -> A -> Prop) (m : M (list TAlertas.t) A) :
  cresce Q m -> (forall n a, Q n a -> Q' n a) -> cresce Q' m.
Proof.
  intros Hm HQ t. destruct (Hm t) as (n & Ht & Ha). exists n.
  split; [exact Ht|]. intros a E. apply HQ, Ha, E.
Qed.

Lemma cresce_for_extend {X B} (R : TAlertas.t -> B -> Prop) (l : list X)
    (body : X -> M (list TAlertas.t) (list B)) :
  Forall (fun x => cresce (List.Forall2 R) (body x)) l ->
  cresce (List.Forall2 R) (for_extend l body).
Proof.
  induction 1 as [|x l Hx _ IH]; cbn [for_extend]; [apply cresce_ret; constructor|].
  eapply cresce_bind; [exact Hx|]. intros n1 a Ha.
  eapply cresce_bind; [exact IH|]. intros n2 b Hb.
  apply cresce_ret. rewrite List.app_nil_r. apply List.Forall2_app; assumption.
Qed.

Lemma lastrowid_positivo (ids : list Z) : 0 < lastrowid ids.
Proof.
  unfold lastrowid.
  assert (H : forall l, 0 <= List.fold_right Z.max 0 l).
  { induction l as [|x l IH]; cbn [List.fold_right]; lia. }
  specialize (H ids). lia.
Qed.

Section Alertas.

Variable erro_sqlite : list TAlertas.t -> pyval -> Z -> pystr -> pystr -> bool.
Variable _criar_mensagem_alerta : contrato -> TFiguras.t -> pystr -> result pystr.
Variable d : db.
Variable contratos_novos : list contrato.

Lemma cresce_verificar_figura (c : contrato) (nome1 nome2 : pystr) (figura : TFiguras.t) :
  In c contratos_novos -> In figura (listar_figuras_interesse d true) ->
  py_lower (py_or (get_ (adjudicante c)) (PyStr [])) = Ok nome1 ->
  py_lower (py_or (get_ (adjudicataria c)) (PyStr [])) = Ok nome2 ->
  cresce (List.Forall2 (linha_do_alerta d contratos_novos))
    (verificar_figura erro_sqlite _criar_mensagem_alerta c nome1 nome2
       (get (adjudicante_nif c) (PyStr [])) (get (adjudicataria_nif c) (PyStr [])) figura).
Proof.
  intros Hc Hf H1 H2. unfold verificar_figura. cbn zeta.
  destruct (_ || _) eqn:Hm; [|apply cresce_ret; constructor].
  eapply cresce_bind; [apply (cresce_lift (fun n _ => n = [])); reflexivity|].
  intros ? mensagem ->.
  eapply cresce_bind;
    [apply (cresce_lift (fun n tipo => n = [] /\ _determinar_tipo_alerta c = Ok tipo));
     auto|].
  intros ? tipo [-> Ht].
  eapply cresce_bind;
    [apply (cresce_lift (fun n id => n = [] /\ index (id_contrato c) = Ok id)); auto|].
  intros ? id [-> Hi]. cbn [List.app].
  intros t. unfold criar_alerta, bind, gets, modify, ret. cbn [fst snd].
  destruct (erro_sqlite t id (TFiguras.id figura) tipo mensagem).
  { cbn [fst snd]. exists []. rewrite List.app_nil_r. split; [reflexivity|].
    intros a E. injection E as <-. constructor. }
  pose proof (lastrowid_positivo (List.map TAlertas.id t)) as Hp.
  apply Z.ltb_lt in Hp. rewrite Hp. cbn [fst snd].
  eexists. split; [reflexivity|]. intros a E. injection E as <-.
  constructor; [|constructor].
  unfold linha_do_alerta. cbn. repeat split.
  unfold _determinar_tipo_alerta in Ht.
  destruct (get (valor c) (PyNum 0)) as [|v|s] eqn:Ev; try discriminate Ht.
  cbn [py_num rbind] in Ht. injection Ht as <-.
  exists c, figura, v. repeat split; try assumption.
  - destruct (id_contrato c); [injection Hi as ->; reflexivity|discriminate Hi].
  - exists nome1, nome2. auto.
Qed.

Lemma cresce_verificar_contrato (c : contrato) :
  In c contratos_novos ->
  cresce (List.Forall2 (linha_do_alerta d contratos_novos))
    (_verificar_contrato_individual erro_sqlite _criar_mensagem_alerta c
       (listar_figuras_interesse d true)).
Proof.
  intros Hc. unfold _verificar_contrato_individual.
  eapply cresce_bind;
    [apply (cresce_lift
              (fun n nome => n = []
                 /\ py_lower (py_or (get_ (adjudicante c)) (PyStr [])) = Ok nome)); auto|].
  intros ? nome1 [-> H1].
  eapply cresce_bind;
    [apply (cresce_lift
              (fun n nome => n = []
                 /\ py_lower (py_or (get_ (adjudicataria c)) (PyStr [])) = Ok nome)); auto|].
  intros ? nome2 [-> H2]. cbn [List.app].
  apply cresce_for_extend. apply List.Forall_forall. intros figura Hf.
  apply cresce_verificar_figura; assumption.
Qed.

End Alertas.

(** X30.  The alerts returned are the rows written.  For a batch of
    contract dicts whose id is a string that can be bound, or None, with
    the names of the parties and of the figures in Latin-1, and messages
    that can be bound, whatever their text and whichever INSERT the
    database refuses: [verificar_novos_contratos] only adds rows to the
    table of alerts, also when it raises part of the way; and when it
    returns, the rows added are, one for one and in order, those of the
    alerts returned (an INSERT refused gives neither a row nor an alert),
    each not read yet, for a contract of the batch and an active figure that
    is a party to it by name or tax id, and of the type 'alto_valor' when
    the value is above 500 000 and 'normal' when it is not. *)
Theorem alertas_e_linhas
    (erro_sqlite : list TAlertas.t -> pyval -> Z -> pystr -> pystr -> bool)
    (_criar_mensagem_alerta : contrato -> TFiguras.t -> pystr -> result pystr)
    (d : db) (contratos_novos : list contrato) (tabela : list TAlertas.t) :
  nomes_latinos d = true ->
  forallb contrato_de_alerta contratos_novos = true ->
  (forall c f papel m,
     _criar_mensagem_alerta c f papel = Ok m -> texto_ligavel (Some m) = true) ->
  let '(r, tabela') :=
    verificar_novos_contratos erro_sqlite _criar_mensagem_alerta d contratos_novos
      tabela in
  exists novas,
    tabela' = tabela ++ novas
    /\ match r with
       | Ok alertas => List.Forall2 (linha_do_alerta d contratos_novos) novas alertas
       | Raise _ => True
       end.
Proof.
  intros _ _ _.
  assert (H : cresce (List.Forall2 (linha_do_alerta d contratos_novos))
                (verificar_novos_contratos erro_sqlite _criar_mensagem_alerta d
                   contratos_novos)).
  { unfold verificar_novos_contratos.
    destruct (listar_figuras_interesse d true) as [|f fs] eqn:E;
      [apply cresce_ret; constructor|].
    rewrite <- E. apply cresce_for_extend. apply List.Forall_forall. intros c Hc.
    apply cresce_verificar_contrato, Hc. }
  destruct (H tabela) as (novas & Ht & Ha).
  destruct (verificar_novos_contratos _ _ _ _ _) as [[alertas|e] tabela'].
  - exists novas. split; [exact Ht|apply Ha; reflexivity].
  - exists novas. split; [exact Ht|exact I].
Qed.

Lemma alertas_e_linhas_witness :
  let '(r, tabela') :=
    verificar_novos_contratos (fun _ _ _ _ _ => false)
      (fun _ _ _ => Ok (str "alerta")) ExemplosFiguras.base [Exemplos.TEST001] [] in
  exists novas,
    tabela' = [] ++ novas
    /\ match r with
       | Ok alertas =>
           List.Forall2 (linha_do_alerta ExemplosFiguras.base [Exemplos.TEST001])
             novas alertas
       | Raise _ => True
       end.
Proof.
  apply (alertas_e_linhas (fun _ _ _ _ _ => false) (fun _ _ _ => Ok (str "alerta"))
           ExemplosFiguras.base [Exemplos.TEST001] []).
  - reflexivity.
  - reflexivity.
  - intros c f papel m E. injection E as <-. reflexivity.
Defined.

(** An alert of the batch of the test, and the one an INSERT refused
    leaves out. *)
Example alerta_da_camara :
  verificar_novos_contratos (fun _ _ _ _ _ => false) (fun _ _ papel => Ok papel)
    ExemplosFiguras.base [Exemplos.TEST001] []
  = (Ok [{| Alerta.id := 1;
            Alerta.figura := str "Câmara Municipal de Lisboa";
            Alerta.contrato_id := PyStr (str "TEST001");
            Alerta.tipo := str "normal";
            Alerta.mensagem := str "adjudicante" |}],
     [{| TAlertas.id := 1;
         TAlertas.id_contrato := PyStr (str "TEST001");
         TAlertas.figura_interesse_id := 1;
         TAlertas.tipo_alerta := str "normal";
         TAlertas.mensagem := str "adjudicante";
         TAlertas.lido := 0 |}])
  /\ verificar_novos_contratos (fun _ _ _ _ _ => true) (fun _ _ papel => Ok papel)
       ExemplosFiguras.base [Exemplos.TEST001] []
     = (Ok [], []).
Proof. split; vm_compute; reflexivity. Qed.
